(** * super-dev design engines: a shallow embedding and its properties

    The four lookup engines of [super_dev/design] (landing patterns,
    component snippets, tech-stack practices, UX guidelines) are embedded
    function by function.  Python values are modelled as follows:

    - [str] is [string]; [str.lower], [in], [split], [strip], [title] and
      [repr] are written out for ASCII text ([is_ascii]): on other text
      Python folds, strips and escapes more characters than these do;
    - [int] is [Z]; [bool] is [bool]; [Optional[T]] is [option T];
    - an exception is a [Raise e] in the [result] monad;
    - a [csv.DictReader] row whose cells are all there is a
      [gmap string string], the cells under the column names of the
      header; the modules [Csv], [LandingFile], [UXGuideFile] and
      [CodegenFile] are the loaders on the files as they are read, where a
      line shorter than the header has [None] cells and the reading may
      end in an exception;
    - the module [TechStack] transcribes the function bodies of
      tech_stack.py; the file does not compile, and the module
      [tech_stack] is what Python does with it;
    - [list.sort(key=..., reverse=...)] is Python's stable sort, written
      out as the insertion sort [sorted_by];
    - the modules [Landing], [Codegen], [TechStack] and [UXGuide] take the
      store lists as arguments and build their lists as values; the modules
      [LandingObj], [CodegenObj], [TechStackObj] and [UXGuideObj] are the
      same methods on list objects in a heap ([Obj]), where an append, a
      sort in place or a pop is an update of a cell. *)

From Stdlib Require Import ZArith Lia Sorted Permutation Ascii String.
From stdpp Require Import base list strings gmap sorting.

Local Open Scope string_scope.
Local Open Scope list_scope.
Local Open Scope Z_scope.

(** ** Python primitives *)

Module Py.

(** Exceptions raised by the embedded code. *)
Inductive exn :=
| AttributeError (name : string)
| KeyError (key : string)
| ValueError (msg : string)
| NameError (name : string)
| TypeError (msg : string)
| SyntaxError (msg : string).

Inductive result (A : Type) :=
| Ok (a : A)
| Raise (e : exn).
Arguments Ok {A} a.
Arguments Raise {A} e.

#[global] Instance result_ret : MRet result := λ A a, Ok a.
#[global] Instance result_bind : MBind result :=
  λ A B f m, match m with Ok a => f a | Raise e => Raise e end.
#[global] Instance result_fmap : FMap result :=
  λ A B f m, match m with Ok a => Ok (f a) | Raise e => Raise e end.

(** [str(e)] as used by the f-strings of the loaders. *)
Definition exn_str (e : exn) : string :=
  match e with
  | AttributeError n => n
  | KeyError k => "'" +:+ k +:+ "'"
  | ValueError m => m
  | NameError n => "name '" +:+ n +:+ "' is not defined"
  | TypeError m => m
  | SyntaxError m => m
  end.

(** *** Strings *)

(** The newline and the double quote of the string literals. *)
Definition nl : string := String (ascii_of_nat 10) EmptyString.
Definition dq : string := String (ascii_of_nat 34) EmptyString.

Definition is_upper (c : ascii) : bool :=
  let n := nat_of_ascii c in (65 <=? n)%nat && (n <=? 90)%nat.
Definition is_lower (c : ascii) : bool :=
  let n := nat_of_ascii c in (97 <=? n)%nat && (n <=? 122)%nat.
Definition to_lower (c : ascii) : ascii :=
  if is_upper c then ascii_of_nat (nat_of_ascii c + 32) else c.
Definition to_upper (c : ascii) : ascii :=
  if is_lower c then ascii_of_nat (nat_of_ascii c - 32) else c.

(** [s.lower()] *)
Fixpoint lower (s : string) : string :=
  match s with
  | EmptyString => EmptyString
  | String c s' => String (to_lower c) (lower s')
  end.

(** [s.startswith(p)] *)
Fixpoint startswith (p s : string) : bool :=
  match p, s with
  | EmptyString, _ => true
  | String _ _, EmptyString => false
  | String a p', String b s' => Ascii.eqb a b && startswith p' s'
  end.

(** [needle in hay] on strings: substring containment. *)
Fixpoint str_in (needle hay : string) : bool :=
  startswith needle hay ||
  match hay with
  | EmptyString => false
  | String _ hay' => str_in needle hay'
  end.

(** [str.isspace] on one ASCII character. *)
Definition isspace (c : ascii) : bool :=
  let n := nat_of_ascii c in
  ((9 <=? n)%nat && (n <=? 13)%nat) || ((28 <=? n)%nat && (n <=? 32)%nat).

Definition snoc_char (s : string) (c : ascii) : string :=
  s +:+ String c EmptyString.

(** [s.split()]: split on runs of whitespace, no empty words. *)
Fixpoint split_ws_from (cur : option string) (s : string) : list string :=
  match s with
  | EmptyString => match cur with Some w => [w] | None => [] end
  | String c s' =>
      if isspace c then
        match cur with
        | Some w => w :: split_ws_from None s'
        | None => split_ws_from None s'
        end
      else split_ws_from (Some (snoc_char (default "" cur) c)) s'
  end.
Definition split_ws (s : string) : list string := split_ws_from None s.

(** [s.split(sep)] for a one-character separator. *)
Fixpoint split_from (sep : ascii) (cur : string) (s : string) : list string :=
  match s with
  | EmptyString => [cur]
  | String c s' =>
      if Ascii.eqb c sep then cur :: split_from sep "" s'
      else split_from sep (snoc_char cur c) s'
  end.
Definition split (sep : ascii) (s : string) : list string := split_from sep "" s.

(** [s.split(sep, 1)] when [sep in s]: the text before the first [sep]
    and the text after it. *)
Fixpoint split_once (sep : ascii) (s : string) : string * string :=
  match s with
  | EmptyString => (EmptyString, EmptyString)
  | String c s' =>
      if Ascii.eqb c sep then (EmptyString, s')
      else let '(before, after) := split_once sep s' in (String c before, after)
  end.

(** [s.strip()] *)
Fixpoint lstrip (s : string) : string :=
  match s with
  | EmptyString => EmptyString
  | String c s' => if isspace c then lstrip s' else s
  end.
Definition rstrip (s : string) : string :=
  string_of_list_ascii (List.rev (list_ascii_of_string
    (lstrip (string_of_list_ascii (List.rev (list_ascii_of_string s)))))).
Definition strip (s : string) : string := rstrip (lstrip s).

(** [s.replace(a, b)] for one-character [a] and [b]. *)
Fixpoint replace_char (a b : ascii) (s : string) : string :=
  match s with
  | EmptyString => EmptyString
  | String c s' => String (if Ascii.eqb c a then b else c) (replace_char a b s')
  end.

(** [s.title()]: a letter is upper-cased after an uncased character and
    lower-cased after a cased one. *)
Fixpoint title_from (previous_is_cased : bool) (s : string) : string :=
  match s with
  | EmptyString => EmptyString
  | String c s' =>
      let cased := is_upper c || is_lower c in
      String (if previous_is_cased then to_lower c else to_upper c)
             (title_from cased s')
  end.
Definition title (s : string) : string := title_from false s.

(** Truth value of an [Optional[str]] argument: [None] and [""] are false. *)
Definition truthy (o : option string) : bool :=
  match o with
  | Some s => negb (String.eqb s "")
  | None => false
  end.

(** [x in [a, b, ...]] on a list of strings. *)
Definition in_list (x : string) (l : list string) : bool :=
  existsb (String.eqb x) l.

(** [a or b] on [Optional] objects whose instances are always true. *)
Definition or_else {A} (a b : option A) : option A :=
  match a with Some _ => a | None => b end.

(** *** Dictionaries *)

(** [row[k]] *)
Definition getitem (row : gmap string string) (k : string) : result string :=
  match row !! k with
  | Some v => Ok v
  | None => Raise (KeyError k)
  end.

(** [row.get(k, d)] *)
Definition get (row : gmap string string) (k d : string) : string :=
  default d (row !! k).

(** *** Lists *)

(** [l[:k]]: a negative bound counts from the end. *)
Definition slice_to {A} (k : Z) (l : list A) : list A :=
  if k <? 0 then take (Z.to_nat (Z.of_nat (length l) + k)) l
  else take (Z.to_nat k) l.

(** [list.sort] is stable.  [insert_by] puts [x], which precedes every
    element of [l] in the input, in front of the first element whose key
    is not smaller. *)
Fixpoint insert_by {A} (key : A → Z) (x : A) (l : list A) : list A :=
  match l with
  | [] => [x]
  | y :: l' => if key x <=? key y then x :: l else y :: insert_by key x l'
  end.

Fixpoint sort_asc {A} (key : A → Z) (l : list A) : list A :=
  match l with
  | [] => []
  | x :: l' => insert_by key x (sort_asc key l')
  end.

(** [sorted(l, key=key, reverse=reverse)]: with [reverse] the list is
    reversed, sorted and reversed again, which keeps equal keys in their
    input order. *)
Definition sorted_by {A} (key : A → Z) (reverse : bool) (l : list A) : list A :=
  if reverse then List.rev (sort_asc key (List.rev l)) else sort_asc key l.

(** [l.sort(key=key)] where calling [key] may raise: the keys are computed
    first, one call per element, then the elements are sorted by them. *)
Definition sort_with {A} (key : A → result Z) (reverse : bool) (l : list A)
  : result (list A) :=
  keys ← mapM key l;
  mret ((sorted_by snd reverse (zip l keys)).*1).

(** The characters of [nl] and [dq]. *)
Definition newline : ascii := ascii_of_nat 10.
Definition quote : ascii := ascii_of_nat 34.

(** [s[len(p):]] when [s.startswith(p)]. *)
Fixpoint after_prefix (p s : string) : option string :=
  match p, s with
  | EmptyString, _ => Some s
  | String _ _, EmptyString => None
  | String a p', String b s' => if Ascii.eqb a b then after_prefix p' s' else None
  end.

(** [repr(s)] for ASCII text: the text in single quotes, or in double
    quotes when it holds a single quote and no double quote, with a
    backslash before the quote in use and before a backslash, [\t], [\n],
    [\r], and [\xhh] for the other control characters. *)
Definition backslash : ascii := ascii_of_nat 92.

Definition hex_digit (n : nat) : ascii :=
  ascii_of_nat (if (n <? 10)%nat then 48 + n else 87 + n).

Definition repr_char (q c : ascii) : string :=
  let n := nat_of_ascii c in
  if Ascii.eqb c q || Ascii.eqb c backslash then String backslash (String c "")
  else if (n =? 9)%nat then String backslash "t"
  else if (n =? 10)%nat then String backslash "n"
  else if (n =? 13)%nat then String backslash "r"
  else if (n <? 32)%nat || (n =? 127)%nat
  then String backslash
         (String "x" (String (hex_digit (n / 16)) (String (hex_digit (n mod 16)) "")))
  else String c "".

Fixpoint repr_chars (q : ascii) (s : string) : string :=
  match s with
  | EmptyString => EmptyString
  | String c s' => repr_char q c +:+ repr_chars q s'
  end.

Definition repr (s : string) : string :=
  let q := if str_in "'" s && negb (str_in dq s) then quote else "'"%char in
  String q (repr_chars q s) +:+ String q "".

(** Objects of type [Any]: the strings, booleans, integers, lists and
    dictionaries (in insertion order) a [to_dict] is made of. *)
#[local] Set Warnings "-register-all".
Inductive any :=
| Str (s : string)
| Bool (b : bool)
| Int (n : Z)
| List (l : list any)
| Dict (items : list (string * any)).

End Py.

Import Py.

(** ** landing.py *)

Module Landing.

Inductive LandingCategory :=
| CLASSIC | VIDEO | PRICING | PRODUCT | SOCIAL | COMPARISON | FAQ | LAYOUT
| MINIMAL | CONVERSION | INTERACTIVE | NARRATIVE | DATA | TRUST | THEME.

Definition LandingCategory_members : list LandingCategory :=
  [CLASSIC; VIDEO; PRICING; PRODUCT; SOCIAL; COMPARISON; FAQ; LAYOUT;
   MINIMAL; CONVERSION; INTERACTIVE; NARRATIVE; DATA; TRUST; THEME].

Definition value (c : LandingCategory) : string :=
  match c with
  | CLASSIC => "classic" | VIDEO => "video" | PRICING => "pricing"
  | PRODUCT => "product" | SOCIAL => "social" | COMPARISON => "comparison"
  | FAQ => "faq" | LAYOUT => "layout" | MINIMAL => "minimal"
  | CONVERSION => "conversion" | INTERACTIVE => "interactive"
  | NARRATIVE => "narrative" | DATA => "data" | TRUST => "trust"
  | THEME => "theme"
  end.

(** [LandingCategory(v)]: lookup by value. *)
Definition LandingCategory_of (v : string) : result LandingCategory :=
  match List.find (λ c, String.eqb (value c) v) LandingCategory_members with
  | Some c => Ok c
  | None => Raise (ValueError (repr v +:+ " is not a valid LandingCategory"))
  end.

Record LandingSection := {
  section_name : string;
  section_type : string;
  content_hint : string;
  required : bool;
  order : Z
}.

Record CTAStrategy := {
  primary_placement : string;
  secondary_placements : list string;
  style : string;
  urgency : string;
  text_variations : list string
}.

Record LandingPattern := {
  name : string;
  category : LandingCategory;
  description : string;
  sections : list LandingSection;
  cta_strategy : CTAStrategy;
  best_for : list string;
  conversion_tips : list string;
  complexity : string;
  keywords : list string
}.

Definition type_map : list (string * list string) :=
  [ ("hero", ["hero"; "video_hero"; "split_hero"; "dark_hero"; "single_cta"]);
    ("features", ["features"; "zigzag_features"; "dark_features"; "feature"]);
    ("pricing", ["pricing_plans"; "pricing"; "plans"]);
    ("testimonials", ["testimonials"; "social_proof"; "reviews"]);
    ("comparison", ["comparison_table"; "comparison"]);
    ("faq", ["faq"; "faq_categories"; "questions"]);
    ("demo", ["interactive_demo"; "video_hero"; "product_gallery"]);
    ("stats", ["stats_dashboard"; "trust_badges"; "stats"]);
    ("cta", ["cta"; "contact_cta"; "repeating_ctas"]);
    ("story", ["story_sections"; "timeline"; "narrative"]) ].

Definition _infer_section_type (name : string) : string :=
  let name_lower := lower name in
  match List.find (λ entry, existsb (λ pattern, str_in pattern name_lower) entry.2)
                  type_map with
  | Some (type_name, _) => type_name
  | None => "content"
  end.

Definition hints : gmap string string :=
  list_to_map
    [ ("hero", "Compelling headline, subheadline, primary CTA, hero image/video");
      ("features", "3-6 key features with icons, titles, descriptions");
      ("pricing", "2-4 pricing tiers, highlight recommended plan");
      ("testimonials", "3-5 customer quotes with photos and titles");
      ("comparison", "Side-by-side feature comparison table");
      ("faq", "5-10 common questions with clear answers");
      ("demo", "Interactive or video demonstration");
      ("stats", "Key metrics, social proof numbers");
      ("cta", "Clear call-to-action with benefit statement");
      ("content", "Relevant content for this section") ].

Definition _get_content_hint (section_type : string) : string :=
  get hints section_type "Content for this section".

Definition base_ctas : list (string * list string) :=
  [ ("SaaS", ["Start Free Trial"; "Get Started"; "Request Demo"; "Start Now"]);
    ("E-commerce", ["Shop Now"; "Browse Collection"; "Add to Cart"; "Buy Now"]);
    ("Marketing", ["Learn More"; "Get Started"; "Contact Us"; "Sign Up"]);
    ("B2B", ["Request Demo"; "Contact Sales"; "Enterprise Plans"; "Book a Call"]);
    ("Freemium", ["Start Free"; "Upgrade Now"; "Get Pro"; "Unlock Features"]);
    ("Mobile", ["Download App"; "Get on iOS"; "Get on Android"; "Install Now"]);
    ("Default", ["Get Started"; "Learn More"; "Contact Us"; "Sign Up"]) ].

Definition _get_cta_variations (best_for : string) : list string :=
  match List.find (λ entry, str_in (lower entry.1) (lower best_for)) base_ctas with
  | Some (_, cta_list) => cta_list
  | None => ["Get Started"; "Learn More"; "Contact Us"; "Sign Up"]
  end.

(** The sections loop of [_parse_pattern]: [enumerate(section_names)]. *)
Fixpoint parse_sections (i : Z) (section_names : list string) : list LandingSection :=
  match section_names with
  | [] => []
  | name :: rest =>
      let section_type := _infer_section_type name in
      {| section_name := title (replace_char "_" " " name);
         section_type := section_type;
         content_hint := _get_content_hint section_type;
         required := (i =? 0);
         order := i |} :: parse_sections (i + 1) rest
  end.

(** The [try] body of [_parse_pattern]. *)
Definition parse_pattern_body (row : gmap string string) : result LandingPattern :=
  let sections_raw := get row "sections" "" in
  let section_names := strip <$> split "," sections_raw in
  let sections := parse_sections 0 section_names in
  let cta_strategy :=
    {| primary_placement := match section_names with s :: _ => s | [] => "hero" end;
       secondary_placements := [];
       style := "button";
       urgency := "medium";
       text_variations := _get_cta_variations (get row "best_for" "") |} in
  name ← getitem row "name";
  category ← LandingCategory_of (get row "category" "classic");
  description ← getitem row "description";
  mret {| name := name;
          category := category;
          description := description;
          sections := sections;
          cta_strategy := cta_strategy;
          best_for := split "," (get row "best_for" "");
          conversion_tips :=
            if truthy (row !! "conversion_tips")
            then split "," (get row "conversion_tips" "") else [];
          complexity := get row "complexity" "medium";
          keywords :=
            if truthy (row !! "keywords")
            then split "," (get row "keywords" "") else [] |}.

(** [_parse_pattern]: the pattern, or [None] and one printed warning. *)
Definition _parse_pattern (row : gmap string string)
  : option LandingPattern * list string :=
  match parse_pattern_body row with
  | Ok pattern => (Some pattern, [])
  | Raise e => (None, ["Warning: Failed to parse pattern: " +:+ exn_str e])
  end.

Definition _get_default_patterns : list LandingPattern :=
  [ {| name := "Hero + Features";
       category := CLASSIC;
       description := "Classic landing page with hero section and feature showcase";
       sections :=
         [ Build_LandingSection "Hero" "hero" "Compelling headline and primary CTA" true 0;
           Build_LandingSection "Features" "features" "3-6 key features with icons" false 1;
           Build_LandingSection "Social Proof" "testimonials" "Customer testimonials" false 2;
           Build_LandingSection "CTA" "cta" "Final call-to-action" false 3 ];
       cta_strategy :=
         {| primary_placement := "hero";
            secondary_placements := ["features"; "cta"];
            style := "button";
            urgency := "medium";
            text_variations := ["Get Started"; "Learn More"; "Start Free Trial"] |};
       best_for := ["SaaS"; "Marketing"; "Product"];
       conversion_tips := ["Place primary CTA in hero section";
                           "Use contrasting color for CTA"];
       complexity := "medium";
       keywords := ["hero"; "features"; "classic"; "landing"] |};
    {| name := "Minimal Single CTA";
       category := MINIMAL;
       description := "Ultra-minimalist page with single focused action";
       sections :=
         [ Build_LandingSection "Single CTA" "hero" "One clear headline and one button" true 0 ];
       cta_strategy :=
         {| primary_placement := "hero";
            secondary_placements := [];
            style := "button";
            urgency := "high";
            text_variations := ["Sign Up"; "Get Started"; "Join Now"] |};
       best_for := ["Newsletter"; "Signup"; "Waitlist"];
       conversion_tips := ["Remove all distractions"; "Use plenty of whitespace"];
       complexity := "low";
       keywords := ["minimal"; "simple"; "focused"; "single"] |} ].

(** The row loop of [_load_patterns], with the patterns list and the
    printed lines threaded through. *)
Fixpoint load_rows (rows : list (gmap string string))
    (patterns : list LandingPattern) (out : list string)
  : list LandingPattern * list string :=
  match rows with
  | [] => (patterns, out)
  | row :: rest =>
      let '(pattern, printed) := _parse_pattern row in
      match pattern with
      | Some p => load_rows rest (patterns ++ [p]) (out ++ printed)
      | None => load_rows rest patterns (out ++ printed)
      end
  end.

(** [_load_patterns]: [csv] is [None] when landing_patterns.csv does not
    exist, and the rows of the file otherwise. *)
Definition _load_patterns (csv : option (list (gmap string string)))
  : list LandingPattern * list string :=
  match csv with
  | None => (_get_default_patterns, [])
  | Some rows => load_rows rows [] []
  end.

(** The score the loop body of [search] gives one pattern. *)
Definition score (query_lower : string) (pattern : LandingPattern) : Z :=
  let score := 0 in
  let score := if str_in query_lower (lower (name pattern)) then score + 10 else score in
  let score := if str_in query_lower (value (category pattern)) then score + 5 else score in
  let score :=
    fold_left (λ score keyword,
                 if str_in query_lower (lower keyword) then score + 3 else score)
              (keywords pattern) score in
  let score :=
    fold_left (λ score use_case,
                 if str_in query_lower (lower use_case) then score + 2 else score)
              (best_for pattern) score in
  score.

Definition search (patterns : list LandingPattern) (query : string)
    (max_results : Z) : list LandingPattern :=
  let query_lower := lower query in
  let scored_patterns :=
    fold_left (λ scored_patterns pattern,
                 let score := score query_lower pattern in
                 if 0 <? score then scored_patterns ++ [(pattern, score)]
                 else scored_patterns)
              patterns [] in
  let scored_patterns := sorted_by snd true scored_patterns in
  (slice_to max_results scored_patterns).*1.

Fixpoint get_pattern (patterns : list LandingPattern) (name' : string)
  : option LandingPattern :=
  match patterns with
  | [] => None
  | pattern :: rest =>
      if String.eqb (lower (name pattern)) (lower name') then Some pattern
      else get_pattern rest name'
  end.

Definition recommend (patterns : list LandingPattern)
    (product_type goal audience : string) : option LandingPattern :=
  let goal_lower := lower goal in
  let product_lower := lower product_type in
  if in_list goal_lower ["signup"; "register"; "newsletter"] then
    or_else (get_pattern patterns "Minimal Single CTA")
            (get_pattern patterns "Hero + Features")
  else if in_list goal_lower ["purchase"; "buy"; "order"] then
    or_else (get_pattern patterns "Product Showcase")
            (get_pattern patterns "Hero + Features")
  else if in_list goal_lower ["demo"; "trial"] then
    or_else (get_pattern patterns "Interactive Demo")
            (get_pattern patterns "Video-First")
  else if str_in "pricing" goal_lower then
    get_pattern patterns "Pricing Preview"
  else if in_list product_lower ["b2b"; "enterprise"; "saas"] then
    or_else (get_pattern patterns "Comparison Table")
            (get_pattern patterns "Trust Badges")
  else
    get_pattern patterns "Hero + Features".

(** The view [generate_structure] returns, one record per dictionary. *)
Record SectionView := {
  view_name : string;
  view_type : string;
  view_content_hint : string;
  view_order : Z
}.

Record PrimaryCTA := {
  placement : string;
  primary_style : string;
  texts : list string
}.

Record Structure := {
  structure_pattern : string;
  structure_description : string;
  structure_sections : list SectionView;
  structure_primary : PrimaryCTA;
  structure_secondary : list (string * string);
  structure_conversion_tips : list string;
  structure_complexity : string
}.

Definition generate_structure (pattern : LandingPattern) : Structure :=
  {| structure_pattern := name pattern;
     structure_description := description pattern;
     structure_sections :=
       (λ section, {| view_name := section_name section;
                      view_type := section_type section;
                      view_content_hint := content_hint section;
                      view_order := order section |}) <$> sections pattern;
     structure_primary :=
       {| placement := primary_placement (cta_strategy pattern);
          primary_style := style (cta_strategy pattern);
          texts := slice_to 3 (text_variations (cta_strategy pattern)) |};
     structure_secondary :=
       (λ placement, (placement, style (cta_strategy pattern)))
         <$> secondary_placements (cta_strategy pattern);
     structure_conversion_tips := conversion_tips pattern;
     structure_complexity := complexity pattern |}.

(** [LandingPattern.to_dict] *)
Definition to_dict (self : LandingPattern) : any :=
  Dict
    [ ("name", Str (name self));
      ("category", Str (value (category self)));
      ("description", Str (description self));
      ("sections",
       List ((λ s, Dict [ ("name", Str (section_name s));
                          ("type", Str (section_type s));
                          ("content_hint", Str (content_hint s));
                          ("required", Bool (required s));
                          ("order", Int (order s)) ]) <$> sections self));
      ("cta_strategy",
       Dict [ ("primary_placement", Str (primary_placement (cta_strategy self)));
              ("secondary_placements",
               List (Str <$> secondary_placements (cta_strategy self)));
              ("style", Str (style (cta_strategy self)));
              ("urgency", Str (urgency (cta_strategy self)));
              ("text_variations", List (Str <$> text_variations (cta_strategy self))) ]);
      ("best_for", List (Str <$> best_for self));
      ("conversion_tips", List (Str <$> conversion_tips self));
      ("complexity", Str (complexity self));
      ("keywords", List (Str <$> keywords self)) ].

Definition list_patterns (patterns : list LandingPattern) : list string :=
  name <$> patterns.

(** [list_categories]: the elements of the set; the order in which
    [list(set(...))] gives them is not fixed by the source. *)
Definition list_categories (patterns : list LandingPattern) : gset string :=
  list_to_set ((λ p, value (category p)) <$> patterns).

End Landing.


(** ** codegen.py *)

Module Codegen.

Inductive Framework := NEXTJS | REACT | VUE | SVELTE | HTML | TAILWIND.

Definition Framework_members : list Framework :=
  [NEXTJS; REACT; VUE; SVELTE; HTML; TAILWIND].

Definition Framework_value (f : Framework) : string :=
  match f with
  | NEXTJS => "nextjs" | REACT => "react" | VUE => "vue"
  | SVELTE => "svelte" | HTML => "html" | TAILWIND => "tailwind"
  end.

Definition Framework_of (v : string) : result Framework :=
  match List.find (λ f, String.eqb (Framework_value f) v) Framework_members with
  | Some f => Ok f
  | None => Raise (ValueError (repr v +:+ " is not a valid Framework"))
  end.

Inductive ComponentCategory :=
| BUTTON | INPUT | CARD | MODAL | NAVIGATION | FORM | FEEDBACK | LAYOUT
| TYPOGRAPHY | DATA_DISPLAY.

Definition ComponentCategory_members : list ComponentCategory :=
  [BUTTON; INPUT; CARD; MODAL; NAVIGATION; FORM; FEEDBACK; LAYOUT;
   TYPOGRAPHY; DATA_DISPLAY].

Definition value (c : ComponentCategory) : string :=
  match c with
  | BUTTON => "button" | INPUT => "input" | CARD => "card" | MODAL => "modal"
  | NAVIGATION => "navigation" | FORM => "form" | FEEDBACK => "feedback"
  | LAYOUT => "layout" | TYPOGRAPHY => "typography"
  | DATA_DISPLAY => "data_display"
  end.

Definition ComponentCategory_of (v : string) : result ComponentCategory :=
  match List.find (λ c, String.eqb (value c) v) ComponentCategory_members with
  | Some c => Ok c
  | None => Raise (ValueError (repr v +:+ " is not a valid ComponentCategory"))
  end.

Record ComponentSnippet := {
  name : string;
  category : ComponentCategory;
  framework : Framework;
  code : string;
  dependencies : list string;
  props : gmap string string;
  preview : string;
  description : string
}.

Definition _parse_props (props_str : string) : gmap string string :=
  fold_left (λ (props : gmap string string) item,
               if str_in ":" item then
                 let '(key, value) := split_once ":" item in
                 <[strip key := strip value]> props
               else props)
            (split ";" props_str) ∅.

Definition _get_default_snippets : list ComponentSnippet :=
[
  {| name := "Button";
     category := BUTTON;
     framework := REACT;
     code :=
       ("import React from 'react'" +:+ nl +:+ nl
         +:+ "interface ButtonProps {" +:+ nl
         +:+ "  children: React.ReactNode" +:+ nl +:+ "  onClick?: () => void"
         +:+ nl +:+ "  variant?: 'primary' | 'secondary'" +:+ nl
         +:+ "  size?: 'sm' | 'md' | 'lg'" +:+ nl +:+ "}" +:+ nl +:+ nl
         +:+ "export const Button: React.FC<ButtonProps> = ({" +:+ nl
         +:+ "  children," +:+ nl +:+ "  onClick," +:+ nl
         +:+ "  variant = 'primary'," +:+ nl +:+ "  size = 'md'" +:+ nl
         +:+ "}) => {" +:+ nl
         +:+ "  const baseStyles = 'rounded-lg font-medium transition-colors'"
         +:+ nl +:+ "  const variants = {" +:+ nl
         +:+ "    primary: 'bg-blue-500 hover:bg-blue-600 text-white'," +:+ nl
         +:+ "    secondary: 'bg-gray-200 hover:bg-gray-300 text-gray-800'"
         +:+ nl +:+ "  }" +:+ nl +:+ "  const sizes = {" +:+ nl
         +:+ "    sm: 'px-3 py-1.5 text-sm'," +:+ nl
         +:+ "    md: 'px-4 py-2 text-base'," +:+ nl
         +:+ "    lg: 'px-6 py-3 text-lg'" +:+ nl +:+ "  }" +:+ nl +:+ nl
         +:+ "  return (" +:+ nl +:+ "    <button" +:+ nl
         +:+ "      onClick={onClick}" +:+ nl
         +:+ "      className={`${baseStyles} ${variants[variant]} ${sizes[size]}`}"
         +:+ nl +:+ "    >" +:+ nl +:+ "      {children}" +:+ nl
         +:+ "    </button>" +:+ nl +:+ "  )" +:+ nl +:+ "}");
     dependencies := ["react"];
     props := list_to_map [("children", "React.ReactNode"); ("onClick", "() => void"); ("variant", "'primary' | 'secondary'"); ("size", "'sm' | 'md' | 'lg'")];
     preview :=
       ("<Button variant=" +:+ dq +:+ "primary" +:+ dq +:+ " size=" +:+ dq
         +:+ "md" +:+ dq +:+ ">Click me</Button>");
     description := "A versatile button component with multiple variants and sizes" |};
  {| name := "Card";
     category := CARD;
     framework := REACT;
     code :=
       ("import React from 'react'" +:+ nl +:+ nl +:+ "interface CardProps {"
         +:+ nl +:+ "  children: React.ReactNode" +:+ nl
         +:+ "  title?: string" +:+ nl +:+ "  footer?: React.ReactNode" +:+ nl
         +:+ "}" +:+ nl +:+ nl
         +:+ "export const Card: React.FC<CardProps> = ({ children, title, footer }) => {"
         +:+ nl +:+ "  return (" +:+ nl +:+ "    <div className=" +:+ dq
         +:+ "bg-white rounded-lg shadow-md overflow-hidden" +:+ dq +:+ ">"
         +:+ nl +:+ "      {title && (" +:+ nl +:+ "        <div className="
         +:+ dq +:+ "px-6 py-4 border-b border-gray-200" +:+ dq +:+ ">" +:+ nl
         +:+ "          <h3 className=" +:+ dq
         +:+ "text-lg font-semibold text-gray-900" +:+ dq +:+ ">{title}</h3>"
         +:+ nl +:+ "        </div>" +:+ nl +:+ "      )}" +:+ nl
         +:+ "      <div className=" +:+ dq +:+ "px-6 py-4" +:+ dq +:+ ">"
         +:+ nl +:+ "        {children}" +:+ nl +:+ "      </div>" +:+ nl
         +:+ "      {footer && (" +:+ nl +:+ "        <div className=" +:+ dq
         +:+ "px-6 py-4 bg-gray-50 border-t border-gray-200" +:+ dq +:+ ">"
         +:+ nl +:+ "          {footer}" +:+ nl +:+ "        </div>" +:+ nl
         +:+ "      )}" +:+ nl +:+ "    </div>" +:+ nl +:+ "  )" +:+ nl
         +:+ "}");
     dependencies := ["react"];
     props := list_to_map [("children", "React.ReactNode"); ("title", "string"); ("footer", "React.ReactNode")];
     preview :=
       ("<Card title=" +:+ dq +:+ "Card Title" +:+ dq
         +:+ ">Card content</Card>");
     description := "A card component with optional header and footer" |};
  {| name := "Input";
     category := INPUT;
     framework := REACT;
     code :=
       ("import React from 'react'" +:+ nl +:+ nl
         +:+ "interface InputProps {" +:+ nl
         +:+ "  type?: 'text' | 'email' | 'password' | 'number'" +:+ nl
         +:+ "  placeholder?: string" +:+ nl +:+ "  value: string" +:+ nl
         +:+ "  onChange: (value: string) => void" +:+ nl
         +:+ "  label?: string" +:+ nl +:+ "  error?: string" +:+ nl +:+ "}"
         +:+ nl +:+ nl +:+ "export const Input: React.FC<InputProps> = ({"
         +:+ nl +:+ "  type = 'text'," +:+ nl +:+ "  placeholder," +:+ nl
         +:+ "  value," +:+ nl +:+ "  onChange," +:+ nl +:+ "  label," +:+ nl
         +:+ "  error" +:+ nl +:+ "}) => {" +:+ nl +:+ "  return (" +:+ nl
         +:+ "    <div className=" +:+ dq +:+ "w-full" +:+ dq +:+ ">" +:+ nl
         +:+ "      {label && (" +:+ nl +:+ "        <label className=" +:+ dq
         +:+ "block text-sm font-medium text-gray-700 mb-1" +:+ dq +:+ ">"
         +:+ nl +:+ "          {label}" +:+ nl +:+ "        </label>" +:+ nl
         +:+ "      )}" +:+ nl +:+ "      <input" +:+ nl
         +:+ "        type={type}" +:+ nl
         +:+ "        placeholder={placeholder}" +:+ nl
         +:+ "        value={value}" +:+ nl
         +:+ "        onChange={(e) => onChange(e.target.value)}" +:+ nl
         +:+ "        className={`w-full px-3 py-2 border rounded-lg focus:outline-none focus:ring-2 ${"
         +:+ nl +:+ "          error" +:+ nl
         +:+ "            ? 'border-red-500 focus:ring-red-500'" +:+ nl
         +:+ "            : 'border-gray-300 focus:ring-blue-500'" +:+ nl
         +:+ "        }`}" +:+ nl +:+ "      />" +:+ nl
         +:+ "      {error && (" +:+ nl +:+ "        <p className=" +:+ dq
         +:+ "mt-1 text-sm text-red-600" +:+ dq +:+ ">{error}</p>" +:+ nl
         +:+ "      )}" +:+ nl +:+ "    </div>" +:+ nl +:+ "  )" +:+ nl
         +:+ "}");
     dependencies := ["react"];
     props := list_to_map [("type", "'text' | 'email' | 'password' | 'number'"); ("placeholder", "string"); ("value", "string"); ("onChange", "(value: string) => void"); ("label", "string"); ("error", "string")];
     preview :=
       ("<Input label=" +:+ dq +:+ "Email" +:+ dq +:+ " value=" +:+ dq +:+ dq
         +:+ " onChange={() => {}} />");
     description := "A text input with label and error handling" |}
].

(** The [try] body of the row loop of [_load_snippets]. *)
Definition parse_snippet (row : gmap string string) : result ComponentSnippet :=
  name ← getitem row "name";
  category ← (getitem row "category" ≫= ComponentCategory_of);
  framework ← (getitem row "framework" ≫= Framework_of);
  code ← getitem row "code";
  dependencies ← getitem row "dependencies";
  props ← getitem row "props";
  mret {| name := name;
          category := category;
          framework := framework;
          code := code;
          dependencies := split ";" dependencies;
          props := _parse_props props;
          preview := get row "preview" "";
          description := get row "description" "" |}.

Fixpoint load_rows (rows : list (gmap string string))
    (snippets : list ComponentSnippet) (out : list string)
  : list ComponentSnippet * list string :=
  match rows with
  | [] => (snippets, out)
  | row :: rest =>
      match parse_snippet row with
      | Ok snippet => load_rows rest (snippets ++ [snippet]) out
      | Raise e =>
          load_rows rest snippets
            (out ++ ["Warning: Failed to parse snippet: " +:+ exn_str e])
      end
  end.

(** [_load_snippets]: [csv] is [None] when components.csv does not exist. *)
Definition _load_snippets (csv : option (list (gmap string string)))
  : list ComponentSnippet * list string :=
  match csv with
  | None => (_get_default_snippets, [])
  | Some rows => load_rows rows [] []
  end.

(** The score the loop body of [search_components] gives one snippet. *)
Definition score (query_lower : string) (snippet : ComponentSnippet) : Z :=
  let score := 0 in
  let score := if str_in query_lower (lower (name snippet)) then score + 10 else score in
  let score := if str_in query_lower (lower (description snippet)) then score + 5 else score in
  let score := if str_in query_lower (value (category snippet)) then score + 3 else score in
  score.

(** The two [continue] guards of [search_components]. *)
Definition passes (framework' category' : option string) (snippet : ComponentSnippet)
  : bool :=
  negb (truthy framework' &&
        negb (String.eqb (Framework_value (framework snippet))
                         (lower (default "" framework')))) &&
  negb (truthy category' &&
        negb (String.eqb (value (category snippet)) (lower (default "" category')))).

Definition search_components (snippets : list ComponentSnippet) (query : string)
    (framework' category' : option string) : list ComponentSnippet :=
  let query_lower := lower query in
  let results :=
    fold_left (λ results snippet,
                 if negb (passes framework' category' snippet) then results
                 else
                   let score := score query_lower snippet in
                   if 0 <? score then results ++ [(snippet, score)] else results)
              snippets [] in
  let results := sorted_by snd true results in
  results.*1.

#[global] Instance Framework_eq_dec : EqDecision Framework.
Proof. solve_decision. Defined.

#[global] Instance ComponentCategory_eq_dec : EqDecision ComponentCategory.
Proof. solve_decision. Defined.

Record GeneratedComponent := {
  component_code : string;
  imports : list string;
  styles : string;
  component_dependencies : list string;
  component_description : string;
  usage_example : string
}.

(** [DesignSystem] is declared in generator.py, which is not among the
    source files.  codegen.py uses two things of a design system: its truth
    value ([if design_system:]) and its [colors] dictionary, whose values
    are taken as the text an f-string renders them to. *)
Record DesignSystem := {
  truth : bool;
  colors : gmap string string
}.

Definition _apply_design_tokens (code : string) (design_system : DesignSystem)
    (framework : Framework) : string :=
  let colors := colors design_system in
  if bool_decide (colors ≠ ∅) then
    let primary := default "#000000" (colors !! "primary") in
    let secondary := default "#666666" (colors !! "secondary") in
    if bool_decide (framework = TAILWIND) then
      "/* Apply these colors in tailwind.config.js:" +:+ nl
      +:+ " * primary: '" +:+ primary +:+ "'" +:+ nl
      +:+ " * secondary: '" +:+ secondary +:+ "'" +:+ nl
      +:+ " */" +:+ nl +:+ nl +:+ code
    else if bool_decide (framework ∈ [REACT; NEXTJS]) then
      "/* Use these CSS variables:" +:+ nl
      +:+ " * --color-primary: " +:+ primary +:+ nl
      +:+ " * --color-secondary: " +:+ secondary +:+ nl
      +:+ " */" +:+ nl +:+ nl +:+ code
    else code
  else code.

Definition _extract_imports (code : string) (framework : Framework) : list string :=
  fold_left (λ imports line,
               if startswith "import " (strip line) then imports ++ [strip line]
               else imports)
            (split newline code) [].

(** [re.findall(r'className="([^"]+)"', code)].  [until_quote] is the
    longest run of characters other than the double quote, which [[^"]+]
    takes, and what follows it. *)
Fixpoint until_quote (s : string) : string * string :=
  match s with
  | EmptyString => (EmptyString, EmptyString)
  | String c s' =>
      if Ascii.eqb c quote then (EmptyString, s)
      else let '(body, rest) := until_quote s' in (String c body, rest)
  end.

(** A match of the pattern at the start of [s]: the group, and the length
    of the match.  The run must not be empty and a double quote must
    follow it. *)
Definition match_className (s : string) : option (string * nat) :=
  match after_prefix ("className=" +:+ dq) s with
  | Some s' =>
      match until_quote s' with
      | (String c body, String _ _) =>
          Some (String c body, (11 + String.length (String c body) + 1)%nat)
      | _ => None
      end
  | None => None
  end.

(** The scan from left to right: where no match starts it moves on by one
    character, and after a match it resumes behind the match; [skip] is
    the number of characters of the last match still to pass. *)
Fixpoint findall_className (skip : nat) (s : string) : list string :=
  match s with
  | EmptyString => []
  | String _ s' =>
      match skip with
      | S skip' => findall_className skip' s'
      | O =>
          match match_className s with
          | Some (group, n) => group :: findall_className (n - 1) s'
          | None => findall_className 0 s'
          end
      end
  end.

Definition _extract_styles (code : string) (framework : Framework) : string :=
  if bool_decide (framework ∈ [REACT; NEXTJS; TAILWIND]) then
    let matches := findall_className 0 code in
    String.concat nl matches
  else "".

Definition generate_component (snippets : list ComponentSnippet)
    (component_name : string) (framework' : Framework)
    (design_system : option DesignSystem) : option GeneratedComponent :=
  let snippet :=
    List.find (λ s, String.eqb (lower (name s)) (lower component_name) &&
                    bool_decide (framework s = framework')) snippets in
  match snippet with
  | None => None
  | Some snippet =>
      let code :=
        match design_system with
        | Some ds =>
            if truth ds then _apply_design_tokens (code snippet) ds framework'
            else code snippet
        | None => code snippet
        end in
      Some {| component_code := code;
              imports := _extract_imports code framework';
              styles := _extract_styles code framework';
              component_dependencies := dependencies snippet;
              component_description := description snippet;
              usage_example := preview snippet |}
  end.

Definition generate_from_design_system (snippets : list ComponentSnippet)
    (design_system : DesignSystem) (framework' : Framework)
  : gmap string GeneratedComponent :=
  fold_left
    (λ components category',
       let category_snippets :=
         List.filter (λ s, bool_decide (category s = category') &&
                           bool_decide (framework s = framework')) snippets in
       fold_left
         (λ (components : gmap string GeneratedComponent) snippet,
            match generate_component snippets (name snippet) framework'
                    (Some design_system) with
            | Some component => <[name snippet := component]> components
            | None => components
            end)
         category_snippets components)
    ComponentCategory_members ∅.

Definition get_available_components (snippets : list ComponentSnippet)
    (framework' : option Framework) : gmap string (list string) :=
  fold_left
    (λ (components : gmap string (list string)) snippet,
       if match framework' with
          | Some f => bool_decide (framework snippet ≠ f)
          | None => false
          end
       then components
       else
         let category := value (category snippet) in
         let components :=
           if bool_decide (components !! category = None)
           then <[category := []]> components else components in
         <[category := default [] (components !! category) ++ [name snippet]]>
           components)
    snippets ∅.

Definition list_frameworks : list string := Framework_value <$> Framework_members.

Definition list_categories : list string := value <$> ComponentCategory_members.

End Codegen.

(** ** tech_stack.py *)

Module TechStack.

Inductive TechStack :=
| NEXTJS | REMIX | REACT | VUE | SVELTEKIT | ANGULAR | ASTRO | SOLIDJS
| QWIK | SWIFTUI | REACT_NATIVE | FLUTTER.

Definition TechStack_members : list TechStack :=
  [NEXTJS; REMIX; REACT; VUE; SVELTEKIT; ANGULAR; ASTRO; SOLIDJS;
   QWIK; SWIFTUI; REACT_NATIVE; FLUTTER].

Definition TechStack_value (s : TechStack) : string :=
  match s with
  | NEXTJS => "Next.js" | REMIX => "Remix" | REACT => "React" | VUE => "Vue"
  | SVELTEKIT => "SvelteKit" | ANGULAR => "Angular" | ASTRO => "Astro"
  | SOLIDJS => "SolidJS" | QWIK => "Qwik" | SWIFTUI => "SwiftUI"
  | REACT_NATIVE => "React Native" | FLUTTER => "Flutter"
  end.

Definition TechStack_of (v : string) : result TechStack :=
  match List.find (λ s, String.eqb (TechStack_value s) v) TechStack_members with
  | Some s => Ok s
  | None => Raise (ValueError (repr v +:+ " is not a valid TechStack"))
  end.

Inductive PracticeCategory :=
| ARCHITECTURE | PERFORMANCE | STATE_MANAGEMENT | STYLING | TESTING
| DEPLOYMENT | SECURITY | ACCESSIBILITY.

Definition PracticeCategory_members : list PracticeCategory :=
  [ARCHITECTURE; PERFORMANCE; STATE_MANAGEMENT; STYLING; TESTING;
   DEPLOYMENT; SECURITY; ACCESSIBILITY].

Definition value (c : PracticeCategory) : string :=
  match c with
  | ARCHITECTURE => "architecture" | PERFORMANCE => "performance"
  | STATE_MANAGEMENT => "state_management" | STYLING => "styling"
  | TESTING => "testing" | DEPLOYMENT => "deployment"
  | SECURITY => "security" | ACCESSIBILITY => "accessibility"
  end.

Definition PracticeCategory_of (v : string) : result PracticeCategory :=
  match List.find (λ c, String.eqb (value c) v) PracticeCategory_members with
  | Some c => Ok c
  | None => Raise (ValueError (repr v +:+ " is not a valid PracticeCategory"))
  end.

#[global] Instance PracticeCategory_eq_dec : EqDecision PracticeCategory.
Proof. solve_decision. Defined.

#[global] Instance TechStack_eq_dec : EqDecision TechStack.
Proof. solve_decision. Defined.

Record TechBestPractice := {
  stack : TechStack;
  category : PracticeCategory;
  topic : string;
  practice : string;
  anti_pattern : string;
  code_example : string;
  benefits : string;
  complexity : string
}.

Record TechPattern := {
  pattern_stack : TechStack;
  name : string;
  pattern_description : string;
  use_case : string;
  implementation : string;
  pros : list string;
  cons : list string
}.

Record PerformanceTip := {
  tip_stack : TechStack;
  tip_topic : string;
  technique : string;
  impact : string;
  effort : string;
  tip_description : string;
  code_snippet : string
}.

Record StackRecommendation := {
  rec_practice : TechBestPractice;
  priority : string;
  context : string;
  alternatives : list string;
  resources : list string
}.

(** The state of a [TechStackEngine]. *)
Record engine := {
  practices : list TechBestPractice;
  patterns : list TechPattern;
  performance_tips : list PerformanceTip
}.

(** *** Loading *)

Definition parse_practice (row : gmap string string) : result TechBestPractice :=
  stack ← (getitem row "stack" ≫= TechStack_of);
  category ← (getitem row "category" ≫= PracticeCategory_of);
  topic ← getitem row "topic";
  practice ← getitem row "practice";
  anti_pattern ← getitem row "anti_pattern";
  code_example ← getitem row "code_example";
  benefits ← getitem row "benefits";
  complexity ← getitem row "complexity";
  mret {| stack := stack; category := category; topic := topic;
          practice := practice; anti_pattern := anti_pattern;
          code_example := code_example; benefits := benefits;
          complexity := complexity |}.

Definition parse_pattern (row : gmap string string) : result TechPattern :=
  stack ← (getitem row "stack" ≫= TechStack_of);
  name ← getitem row "name";
  description ← getitem row "description";
  use_case ← getitem row "use_case";
  implementation ← getitem row "implementation";
  pros ← getitem row "pros";
  cons ← getitem row "cons";
  mret {| pattern_stack := stack; name := name;
          pattern_description := description; use_case := use_case;
          implementation := implementation;
          pros := split ";" pros; cons := split ";" cons |}.

Definition parse_tip (row : gmap string string) : result PerformanceTip :=
  stack ← (getitem row "stack" ≫= TechStack_of);
  topic ← getitem row "topic";
  technique ← getitem row "technique";
  impact ← getitem row "impact";
  effort ← getitem row "effort";
  description ← getitem row "description";
  code_snippet ← getitem row "code_snippet";
  mret {| tip_stack := stack; tip_topic := topic; technique := technique;
          impact := impact; effort := effort; tip_description := description;
          code_snippet := code_snippet |}.

(** The row loop shared by [_load_practices], [_load_patterns] and
    [_load_performance]: [try] to parse and append, [except] print. *)
Fixpoint load_rows {A} (parse : gmap string string → result A) (what : string)
    (rows : list (gmap string string)) (store : list A) (out : list string)
  : list A * list string :=
  match rows with
  | [] => (store, out)
  | row :: rest =>
      match parse row with
      | Ok record => load_rows parse what rest (store ++ [record]) out
      | Raise e =>
          load_rows parse what rest store
            (out ++ [("Warning: Failed to parse " +:+ what +:+ ": ") +:+ exn_str e])
      end
  end.

Definition _load_practices (rows : list (gmap string string))
    (practices : list TechBestPractice) (out : list string) :=
  load_rows parse_practice "practice" rows practices out.

Definition _load_patterns (rows : list (gmap string string))
    (patterns : list TechPattern) (out : list string) :=
  load_rows parse_pattern "pattern" rows patterns out.

Definition _load_performance (rows : list (gmap string string))
    (tips : list PerformanceTip) (out : list string) :=
  load_rows parse_tip "performance tip" rows tips out.

Definition _get_default_practices : list TechBestPractice :=
  [ {| stack := NEXTJS;
       category := ARCHITECTURE;
       topic := "Server Components";
       practice := "Use Server Components by default, Client Components only when needed";
       anti_pattern := "Mark all components with 'use client'";
       code_example :=
         ("// Server Component (default)" +:+ nl
          +:+ "export default function Profile() {" +:+ nl
          +:+ "  return <div>{user.name}</div>" +:+ nl +:+ "}" +:+ nl +:+ nl
          +:+ "// Client Component" +:+ nl +:+ "'use client'" +:+ nl
          +:+ "export function Button() { return <button>Click</button> }");
       benefits := "Reduced bundle size, improved performance, simpler data fetching";
       complexity := "low" |};
    {| stack := REACT;
       category := PERFORMANCE;
       topic := "Code Splitting";
       practice := "Use React.lazy and Suspense for route-based code splitting";
       anti_pattern := "Load entire application bundle upfront";
       code_example :=
         ("const Dashboard = React.lazy(() => import('./Dashboard'));" +:+ nl
          +:+ nl +:+ "<Suspense fallback={<Loading />}>" +:+ nl
          +:+ "  <Dashboard />" +:+ nl +:+ "</Suspense>");
       benefits := "Faster initial load, better user experience";
       complexity := "medium" |};
    {| stack := VUE;
       category := STATE_MANAGEMENT;
       topic := "Composition API";
       practice := "Use Composition API with <script setup> syntax";
       anti_pattern := "Mix Options API and Composition API";
       code_example :=
         ("<script setup>" +:+ nl +:+ "import { ref, computed } from 'vue'"
          +:+ nl +:+ "const count = ref(0)" +:+ nl
          +:+ "const doubled = computed(() => count.value * 2)" +:+ nl
          +:+ "</script>");
       benefits := "Better type inference, code organization, tree-shaking";
       complexity := "low" |} ].

(** A call [TechPattern(...)] as the source writes it: the argument list,
    each argument positional or keyword.  Python refuses a positional
    argument that follows a keyword argument when it compiles the call. *)
Inductive arg_value :=
| AStack (s : TechStack)
| AStr (s : string)
| AList (l : list string)
| ASubscript (name : string) (index : list string).

Inductive argument :=
| positional (v : arg_value)
| keyword (name : string) (v : arg_value).

Fixpoint positional_follows_keyword (seen_keyword : bool) (args : list argument)
  : bool :=
  match args with
  | [] => false
  | positional _ :: rest => seen_keyword || positional_follows_keyword seen_keyword rest
  | keyword _ _ :: rest => positional_follows_keyword true rest
  end.

Fixpoint positionals (args : list argument) : list arg_value :=
  match args with
  | positional v :: rest => v :: positionals rest
  | _ => []
  end.

Fixpoint keyword_arg (args : list argument) (field : string) : option arg_value :=
  match args with
  | [] => None
  | keyword k v :: rest => if String.eqb k field then Some v else keyword_arg rest field
  | positional _ :: rest => keyword_arg rest field
  end.

(** The value bound to the [i]-th field, named [field]. *)
Definition bound (args : list argument) (i : nat) (field : string) : result arg_value :=
  match positionals args !! i with
  | Some v => Ok v
  | None =>
      match keyword_arg args field with
      | Some v => Ok v
      | None => Raise (TypeError ("missing required argument: '" +:+ field +:+ "'"))
      end
  end.

Definition as_stack (v : arg_value) : result TechStack :=
  match v with
  | AStack s => Ok s
  | ASubscript n _ => Raise (NameError n)
  | _ => Raise (TypeError "stack")
  end.
Definition as_str (v : arg_value) : result string :=
  match v with
  | AStr s => Ok s
  | ASubscript n _ => Raise (NameError n)
  | _ => Raise (TypeError "str")
  end.
Definition as_list (v : arg_value) : result (list string) :=
  match v with
  | AList l => Ok l
  | ASubscript n _ => Raise (NameError n)
  | _ => Raise (TypeError "list")
  end.

Definition TechPattern_call (args : list argument) : result TechPattern :=
  if positional_follows_keyword false args
  then Raise (SyntaxError "positional argument follows keyword argument")
  else
    stack ← (bound args 0 "stack" ≫= as_stack);
    name ← (bound args 1 "name" ≫= as_str);
    description ← (bound args 2 "description" ≫= as_str);
    use_case ← (bound args 3 "use_case" ≫= as_str);
    implementation ← (bound args 4 "implementation" ≫= as_str);
    pros ← (bound args 5 "pros" ≫= as_list);
    cons ← (bound args 6 "cons" ≫= as_list);
    mret {| pattern_stack := stack; name := name;
            pattern_description := description; use_case := use_case;
            implementation := implementation; pros := pros; cons := cons |}.

(** The two [TechPattern(...)] calls of [_get_default_patterns].  The
    second is written [pros[...]], [cons[...]] (no [=]): two subscript
    expressions in positional place after five keyword arguments. *)
Definition default_pattern_calls : list (list argument) :=
    [ [ keyword "stack" (AStack NEXTJS);
        keyword "name" (AStr "Parallel Routes");
        keyword "description" (AStr "Render multiple sections of a page in parallel");
        keyword "use_case" (AStr "Dashboard with independent sections");
        keyword "implementation" (AStr
          ("// app/dashboard/layout.tsx" +:+ nl
           +:+ "export default function Layout({" +:+ nl +:+ "  children,"
           +:+ nl +:+ "  analytics," +:+ nl +:+ "  users" +:+ nl +:+ "}: {"
           +:+ nl +:+ "  children: React.ReactNode" +:+ nl
           +:+ "  analytics: React.ReactNode" +:+ nl
           +:+ "  users: React.ReactNode" +:+ nl +:+ "}) {" +:+ nl
           +:+ "  return (" +:+ nl +:+ "    <div>" +:+ nl +:+ "      {children}"
           +:+ nl +:+ "      {analytics}" +:+ nl +:+ "      {users}" +:+ nl
           +:+ "    </div>" +:+ nl +:+ "  )" +:+ nl +:+ "}"));
        keyword "pros" (AList ["Independent loading states"; "Parallel rendering";
                               "Better UX"]);
        keyword "cons" (AList ["More complex routing"; "Not suitable for all layouts"]) ];
      [ keyword "stack" (AStack REACT);
        keyword "name" (AStr "Compound Components");
        keyword "description" (AStr "Build components that share state implicitly");
        keyword "use_case" (AStr "Modals, Dropdowns, Tabs");
        keyword "implementation" (AStr
          ("const Tabs = ({ children }) => {" +:+ nl
           +:+ "  const [active, setActive] = useState(0)" +:+ nl
           +:+ "  return (" +:+ nl
           +:+ "    <TabsContext value={{ active, setActive }}>" +:+ nl
           +:+ "      {children}" +:+ nl +:+ "    </TabsContext>" +:+ nl
           +:+ "  )" +:+ nl +:+ "}"));
        positional (ASubscript "pros" ["Flexible API"; "Less prop drilling";
                                       "Intuitive usage"]);
        positional (ASubscript "cons" ["Harder to understand"; "Requires context"]) ] ].

(** [_get_default_patterns] *)
Definition _get_default_patterns : result (list TechPattern) :=
  mapM TechPattern_call default_pattern_calls.

Definition _get_default_performance : list PerformanceTip :=
  [ {| tip_stack := NEXTJS;
       tip_topic := "Image Optimization";
       technique := "Use next/image for all images";
       impact := "high";
       effort := "low";
       tip_description := "Automatic optimization, lazy loading, and responsive images";
       code_snippet :=
         ("import Image from 'next/image'" +:+ nl +:+ nl +:+ "<Image" +:+ nl
          +:+ "  src='/hero.jpg'" +:+ nl +:+ "  alt='Hero'" +:+ nl
          +:+ "  width={1200}" +:+ nl +:+ "  height={600}" +:+ nl
          +:+ "  priority" +:+ nl +:+ "/>") |};
    {| tip_stack := REACT;
       tip_topic := "Memoization";
       technique := "Use useMemo and useCallback sparingly";
       impact := "medium";
       effort := "medium";
       tip_description := "Memoize expensive computations and callbacks";
       code_snippet :=
         ("const memoizedValue = useMemo(() => {" +:+ nl
          +:+ "  return computeExpensiveValue(a, b)" +:+ nl +:+ "}, [a, b])") |} ].

(** The three data files of the engine; [None] when a file does not exist. *)
Record data_dir := {
  tech_practices_csv : option (list (gmap string string));
  tech_patterns_csv : option (list (gmap string string));
  tech_performance_csv : option (list (gmap string string))
}.

(** [__init__] and [_load_data]: the engine and the printed lines. *)
Definition _load_data (dir : data_dir) : result (engine * list string) :=
  let out := [] in
  let '(practices, out) :=
    match tech_practices_csv dir with
    | Some rows => _load_practices rows [] out
    | None => (_get_default_practices, out)
    end in
  '(patterns, out) ←
    match tech_patterns_csv dir with
    | Some rows => mret (_load_patterns rows [] out)
    | None => patterns ← _get_default_patterns; mret (patterns, out)
    end;
  let '(performance_tips, out) :=
    match tech_performance_csv dir with
    | Some rows => _load_performance rows [] out
    | None => (_get_default_performance, out)
    end in
  mret ({| practices := practices; patterns := patterns;
           performance_tips := performance_tips |}, out).

(** *** Queries *)

Definition _determine_priority (practice : TechBestPractice) : string :=
  if decide (category practice = SECURITY) then "critical"
  else if decide (category practice = PERFORMANCE) then "high"
  else if String.eqb (complexity practice) "low" then "high"
  else "medium".

Definition _get_context (practice : TechBestPractice) : string :=
  match category practice with
  | ARCHITECTURE => "架构层面的最佳实践，影响整体代码组织"
  | PERFORMANCE => "性能优化建议，提升用户体验"
  | STATE_MANAGEMENT => "状态管理模式，确保数据流清晰"
  | STYLING => "样式方案，保持视觉一致性"
  | TESTING => "测试策略，确保代码质量"
  | DEPLOYMENT => "部署方案，简化发布流程"
  | SECURITY => "安全实践，保护应用和用户"
  | ACCESSIBILITY => "无障碍性，确保所有用户可用"
  end.

Definition _get_alternatives (practice : TechBestPractice) : list string :=
  ["See documentation for alternatives"].

Definition _get_resources (practice : TechBestPractice) : list string :=
  match stack practice with
  | NEXTJS => ["Next.js Documentation: https://nextjs.org/docs";
               "Next.js Learn: https://nextjs.org/learn"]
  | REACT => ["React Documentation: https://react.dev";
              "React Patterns: https://reactpatterns.com"]
  | VUE => ["Vue Documentation: https://vuejs.org/guide/";
            "Vue Style Guide: https://vuejs.org/style-guide/"]
  | SVELTEKIT => ["SvelteKit Docs: https://kit.svelte.dev/docs";
                  "Svelte Docs: https://svelte.dev/docs"]
  | _ => []
  end.

(** The score [search_practices] computes when [query] is given. *)
Definition score (query_lower : string) (practice' : TechBestPractice) : Z :=
  let score := 0 in
  let score := if str_in query_lower (lower (topic practice')) then score + 10 else score in
  let score := if str_in query_lower (lower (practice practice')) then score + 8 else score in
  let score := if str_in query_lower (lower (benefits practice')) then score + 5 else score in
  score.

(** The loop body of [search_practices]: [true] when no [continue] is taken. *)
Definition kept (stack_lower : string) (query category' : option string)
    (practice : TechBestPractice) : bool :=
  if negb (String.eqb (lower (TechStack_value (stack practice))) stack_lower) then false
  else if truthy category' &&
          negb (String.eqb (lower (value (category practice)))
                           (lower (default "" category'))) then false
  else if truthy query && (score (lower (default "" query)) practice =? 0) then false
  else true.

Definition search_practices (practices : list TechBestPractice) (stack' : string)
    (query category' : option string) (max_results : Z) : list StackRecommendation :=
  let stack_lower := lower stack' in
  let filtered_practices :=
    fold_left (λ filtered_practices practice,
                 if kept stack_lower query category' practice
                 then filtered_practices ++ [practice] else filtered_practices)
              practices [] in
  fold_left (λ recommendations practice,
               recommendations ++
               [ {| rec_practice := practice;
                    priority := _determine_priority practice;
                    context := _get_context practice;
                    alternatives := _get_alternatives practice;
                    resources := _get_resources practice |} ])
            (slice_to max_results filtered_practices) [].

Definition get_patterns (patterns : list TechPattern) (stack' : string)
  : list TechPattern :=
  let stack_lower := lower stack' in
  List.filter (λ p, String.eqb (lower (TechStack_value (pattern_stack p))) stack_lower)
              patterns.

Definition impact_order : gmap string Z :=
  list_to_map [("high", 0); ("medium", 1); ("low", 2)].

(** The filter loop of [get_performance_tips]: the list [tips] and the
    loop variable [tip], which stays bound to the last tip visited. *)
Definition tips_loop (performance_tips : list PerformanceTip)
    (stack_lower : string) (impact' effort' : option string)
  : list PerformanceTip * option PerformanceTip :=
  fold_left (λ '(tips, _) tip,
               if negb (String.eqb (lower (TechStack_value (tip_stack tip))) stack_lower)
               then (tips, Some tip)
               else if truthy impact' &&
                       negb (String.eqb (lower (impact tip)) (lower (default "" impact')))
               then (tips, Some tip)
               else if truthy effort' &&
                       negb (String.eqb (lower (effort tip)) (lower (default "" effort')))
               then (tips, Some tip)
               else (tips ++ [tip], Some tip))
            performance_tips ([], None).

Definition get_performance_tips (performance_tips : list PerformanceTip)
    (stack' : string) (impact' effort' : option string)
  : result (list PerformanceTip) :=
  let stack_lower := lower stack' in
  let '(tips, tip) := tips_loop performance_tips stack_lower impact' effort' in
  (* key=lambda t: impact_order.get(tip.impact.lower(), 3) *)
  sort_with (λ t, match tip with
                  | Some tip => Ok (default 3 (impact_order !! lower (impact tip)))
                  | None => Raise (NameError "tip")
                  end)
            false tips.

Definition get_quick_wins (performance_tips : list PerformanceTip) (stack' : string)
  : result (list PerformanceTip) :=
  tips ← get_performance_tips performance_tips stack' None None;
  mret (List.filter (λ tip, String.eqb (lower (impact tip)) "high" &&
                            String.eqb (lower (effort tip)) "low") tips).

End TechStack.

(** ** ux_guide.py *)

Module UXGuide.

Inductive UXDomain :=
| ANIMATION | A11Y | PERFORMANCE | RESPONSIVE | FORMS | NAVIGATION
| LOADING | ERROR | DARK_MODE | I18N.

#[global] Instance UXDomain_eq_dec : EqDecision UXDomain.
Proof. solve_decision. Defined.

(** The members of the enum class, by name, in definition order. *)
Definition UXDomain_members : list (string * UXDomain) :=
  [ ("ANIMATION", ANIMATION); ("A11Y", A11Y); ("PERFORMANCE", PERFORMANCE);
    ("RESPONSIVE", RESPONSIVE); ("FORMS", FORMS); ("NAVIGATION", NAVIGATION);
    ("LOADING", LOADING); ("ERROR", ERROR); ("DARK_MODE", DARK_MODE);
    ("I18N", I18N) ].

Definition value (d : UXDomain) : string :=
  match d with
  | ANIMATION => "Animation" | A11Y => "A11y" | PERFORMANCE => "Performance"
  | RESPONSIVE => "Responsive" | FORMS => "Forms" | NAVIGATION => "Navigation"
  | LOADING => "Loading" | ERROR => "Error" | DARK_MODE => "Dark Mode"
  | I18N => "I18n"
  end.

(** [UXDomain(v)]: lookup by value. *)
Definition UXDomain_of (v : string) : result UXDomain :=
  match List.find (λ m, String.eqb (value m.2) v) UXDomain_members with
  | Some m => Ok m.2
  | None => Raise (ValueError (repr v +:+ " is not a valid UXDomain"))
  end.

(** [UXDomain.<attr>]: attribute access on the class finds a member by
    its name, which is case-sensitive. *)
Definition UXDomain_getattr (attr : string) : result UXDomain :=
  match List.find (λ m, String.eqb m.1 attr) UXDomain_members with
  | Some m => Ok m.2
  | None => Raise (AttributeError attr)
  end.

Record UXGuideline := {
  domain : UXDomain;
  topic : string;
  best_practice : string;
  anti_pattern : string;
  example : string;
  impact : string;
  complexity : string
}.

Record UXRecommendation := {
  guideline : UXGuideline;
  priority : string;
  implementation_effort : string;
  user_impact : string;
  resources : list string
}.

(** *** Loading *)

Definition parse_guideline (row : gmap string string) : result UXGuideline :=
  domain ← (getitem row "domain" ≫= UXDomain_of);
  topic ← getitem row "topic";
  best_practice ← getitem row "best_practice";
  anti_pattern ← getitem row "anti_pattern";
  example ← getitem row "example";
  impact ← getitem row "impact";
  complexity ← getitem row "complexity";
  mret {| domain := domain; topic := topic; best_practice := best_practice;
          anti_pattern := anti_pattern; example := example; impact := impact;
          complexity := complexity |}.

Definition _get_default_guidelines : list UXGuideline :=
  [ {| domain := ANIMATION;
       topic := "Loading";
       best_practice := "Use skeleton screens for content loading";
       anti_pattern := "Use spinners for all loading states";
       example := "Skeleton while profile data loads";
       impact := "Reduced perceived wait time";
       complexity := "medium" |};
    {| domain := A11Y;
       topic := "Color";
       best_practice := "Use 4.5:1 contrast ratio for text";
       anti_pattern := "Light gray text on white background";
       example := "Dark text on light background";
       impact := "Readable by all users";
       complexity := "low" |};
    {| domain := PERFORMANCE;
       topic := "Images";
       best_practice := "Use WebP format with fallbacks";
       anti_pattern := "Unoptimized 5MB PNGs";
       example := "WebP with JPEG fallback";
       impact := "Faster page load";
       complexity := "low" |} ].

Fixpoint load_rows (rows : list (gmap string string))
    (guidelines : list UXGuideline) (out : list string)
  : list UXGuideline * list string :=
  match rows with
  | [] => (guidelines, out)
  | row :: rest =>
      match parse_guideline row with
      | Ok guideline => load_rows rest (guidelines ++ [guideline]) out
      | Raise e =>
          load_rows rest guidelines
            (out ++ ["Warning: Failed to parse UX guideline: " +:+ exn_str e])
      end
  end.

(** [_load_guidelines]: [csv] is [None] when ux_guidelines.csv does not
    exist. *)
Definition _load_guidelines (csv : option (list (gmap string string)))
  : list UXGuideline * list string :=
  match csv with
  | None => (_get_default_guidelines, [])
  | Some rows => load_rows rows [] []
  end.

(** *** Queries *)

Definition _determine_priority (guideline : UXGuideline) : result string :=
  a11y ← UXDomain_getattr "A11y";
  if decide (domain guideline = a11y) then mret "critical"
  else
    performance ← UXDomain_getattr "PERFORMANCE";
    if decide (domain guideline = performance) then mret "high"
    else if String.eqb (complexity guideline) "low" then mret "high"
    else mret "medium".

Definition _determine_user_impact (guideline : UXGuideline) : string :=
  let impact_lower := lower (impact guideline) in
  if existsb (λ word, str_in word impact_lower)
             ["all users"; "everyone"; "critical"; "essential"] then "high"
  else if existsb (λ word, str_in word impact_lower)
                  ["some users"; "improved"; "better"] then "medium"
  else "low".

Definition _get_resources (guideline : UXGuideline) : list string :=
  match domain guideline with
  | A11Y => ["WCAG 2.1 Guidelines: https://www.w3.org/WAI/WCAG21/quickref/";
             "WebAIM Contrast Checker: https://webaim.org/resources/contrastchecker/"]
  | PERFORMANCE => ["Web.dev Performance: https://web.dev/performance/";
                    "Google Lighthouse: https://developers.google.com/web/tools/lighthouse"]
  | RESPONSIVE => ["MDN Responsive Design: https://developer.mozilla.org/en-US/docs/Learn/CSS/CSS_layout/Responsive_Design"]
  | ANIMATION => ["Motion Design Guidelines: https://material.io/design/motion"]
  | _ => []
  end.

(** The score the loop body of [search] gives one guideline. *)
Definition score (query_lower : string) (guideline : UXGuideline) : Z :=
  let score := 0 in
  let score := if str_in query_lower (lower (topic guideline)) then score + 10 else score in
  let score := if str_in query_lower (lower (best_practice guideline)) then score + 8 else score in
  let score := if str_in query_lower (lower (anti_pattern guideline)) then score + 8 else score in
  let words := split_ws query_lower in
  let score :=
    fold_left (λ score word,
                 if str_in word (lower (impact guideline)) then score + 3 else score)
              words score in
  score.

(** The domain guard of [search]: [true] when the guideline is kept. *)
Definition in_domain (domain' : option string) (guideline : UXGuideline) : bool :=
  negb (truthy domain' &&
        negb (String.eqb (lower (value (domain guideline)))
                         (lower (default "" domain')))).

(** One entry of [scored_guidelines]:
    [(guideline, score, priority, effort, user_impact)]. *)
Definition scored : Type := UXGuideline * Z * string * string * string.
Definition scored_score (x : scored) : Z := x.1.1.1.2.

(** The scoring loop of [search]. *)
Fixpoint search_loop (query_lower : string) (domain' : option string)
    (guidelines : list UXGuideline) (scored_guidelines : list scored)
  : result (list scored) :=
  match guidelines with
  | [] => mret scored_guidelines
  | guideline :: rest =>
      if negb (in_domain domain' guideline)
      then search_loop query_lower domain' rest scored_guidelines
      else
        let score := score query_lower guideline in
        if 0 <? score then
          priority ← _determine_priority guideline;
          let effort := complexity guideline in
          let user_impact := _determine_user_impact guideline in
          search_loop query_lower domain' rest
            (scored_guidelines ++ [(guideline, score, priority, effort, user_impact)])
        else search_loop query_lower domain' rest scored_guidelines
  end.

Definition search (guidelines : list UXGuideline) (query : string)
    (domain' : option string) (max_results : Z) : result (list UXRecommendation) :=
  let query_lower := lower query in
  scored_guidelines ← search_loop query_lower domain' guidelines [];
  let scored_guidelines := sorted_by scored_score true scored_guidelines in
  mret (fold_left (λ recommendations '(guideline, score, priority, effort, user_impact),
                     recommendations ++
                     [ {| guideline := guideline;
                          priority := priority;
                          implementation_effort := effort;
                          user_impact := user_impact;
                          resources := _get_resources guideline |} ])
                  (slice_to max_results scored_guidelines) []).

Definition get_guidelines_by_domain (guidelines : list UXGuideline) (domain' : string)
  : list UXGuideline :=
  let domain_lower := lower domain' in
  List.filter (λ g, String.eqb (lower (value (domain g))) domain_lower) guidelines.

(** [domain_groups], a [defaultdict(list)]: the keys in insertion order,
    each with its list. *)
Definition groups : Type := list (UXDomain * list UXRecommendation).

(** [domain_groups[d]] (a missing key reads as the empty list). *)
Fixpoint groups_get (domain_groups : groups) (d : UXDomain) : list UXRecommendation :=
  match domain_groups with
  | [] => []
  | (k, l) :: rest => if decide (k = d) then l else groups_get rest d
  end.

(** [domain_groups[d] = l] *)
Fixpoint groups_set (domain_groups : groups) (d : UXDomain)
    (l : list UXRecommendation) : groups :=
  match domain_groups with
  | [] => [(d, l)]
  | (k, l') :: rest =>
      if decide (k = d) then (k, l) :: rest else (k, l') :: groups_set rest d l
  end.

(** The first loop of [get_quick_wins]. *)
Definition quick_wins_of (guidelines : list UXGuideline) : list UXRecommendation :=
  fold_left (λ quick_wins guideline,
               if String.eqb (complexity guideline) "low" then
                 let user_impact := _determine_user_impact guideline in
                 if in_list user_impact ["high"; "medium"] then
                   quick_wins ++
                   [ {| guideline := guideline;
                        priority := "high";
                        implementation_effort := "low";
                        user_impact := user_impact;
                        resources := _get_resources guideline |} ]
                 else quick_wins
               else quick_wins)
            guidelines [].

(** The grouping loop: [domain_groups[rec.guideline.domain].append(rec)]. *)
Definition group_by_domain (quick_wins : list UXRecommendation) : groups :=
  fold_left (λ domain_groups rec,
               let d := domain (guideline rec) in
               groups_set domain_groups d (groups_get domain_groups d ++ [rec]))
            quick_wins [].

(** The [while] loop: [domains] loses its head at every turn. *)
Fixpoint draw (max_results : Z) (domains : list UXDomain) (domain_groups : groups)
    (result : list UXRecommendation) : list UXRecommendation :=
  match domains with
  | [] => result
  | domain :: domains' =>
      if Z.of_nat (length result) <? max_results then
        match groups_get domain_groups domain with
        | rec :: rest =>
            draw max_results domains' (groups_set domain_groups domain rest)
                 (result ++ [rec])
        | [] => draw max_results domains' domain_groups result
        end
      else result
  end.

(** [get_quick_wins]; [shuffle] is the outcome of [random.shuffle] on the
    list of group keys. *)
Definition get_quick_wins (shuffle : list UXDomain → list UXDomain)
    (guidelines : list UXGuideline) (max_results : Z) : list UXRecommendation :=
  let quick_wins := quick_wins_of guidelines in
  let domain_groups := group_by_domain quick_wins in
  let domains := shuffle (domain_groups.*1) in
  draw max_results domains domain_groups [].

(** [get_checklist]: the dictionary in insertion order. *)
Definition get_checklist (guidelines : list UXGuideline) (domains : option (list string))
  : list (string * list string) :=
  fold_left (λ (checklist : list (string * list string)) guideline,
               let domain := value (domain guideline) in
               if match domains with
                  | Some (d :: ds) => negb (in_list domain (d :: ds))
                  | _ => false
                  end
               then checklist
               else
                 let entry := "[ ] " +:+ best_practice guideline in
                 if existsb (λ kv, String.eqb kv.1 domain) checklist
                 then (λ kv, if String.eqb kv.1 domain then (kv.1, kv.2 ++ [entry]) else kv)
                        <$> checklist
                 else checklist ++ [(domain, [entry])])
            guidelines [].

(** One entry of [get_anti_patterns]: the dictionary with the keys
    [anti_pattern], [best_practice] and [impact]. *)
Record AntiPatternEntry := {
  entry_anti_pattern : string;
  entry_best_practice : string;
  entry_impact : string
}.

(** [get_anti_patterns]: the dictionary in insertion order. *)
Definition get_anti_patterns (guidelines : list UXGuideline)
  : list (string * list AntiPatternEntry) :=
  fold_left (λ (anti_patterns : list (string * list AntiPatternEntry)) guideline,
               let domain := value (domain guideline) in
               let entry := {| entry_anti_pattern := anti_pattern guideline;
                               entry_best_practice := best_practice guideline;
                               entry_impact := impact guideline |} in
               if existsb (λ kv, String.eqb kv.1 domain) anti_patterns
               then (λ kv, if String.eqb kv.1 domain then (kv.1, kv.2 ++ [entry]) else kv)
                      <$> anti_patterns
               else anti_patterns ++ [(domain, [entry])])
            guidelines [].

(** [list_domains] and [list_topics]: the elements of the set; the order
    in which [list(set(...))] gives them is not fixed by the source. *)
Definition list_domains (guidelines : list UXGuideline) : gset string :=
  list_to_set ((λ g, value (domain g)) <$> guidelines).

Definition list_topics (guidelines : list UXGuideline) (domain' : option string)
  : gset string :=
  if truthy domain' then
    let guidelines := get_guidelines_by_domain guidelines (default "" domain') in
    list_to_set (topic <$> guidelines)
  else list_to_set (topic <$> guidelines).

End UXGuide.


(** ** Sample stores *)

Module Samples.

(** Two React practices as two rows of tech_practices.csv give them:
    the word "load" is in the benefits of the first (score 5) and in the
    topic of the second (score 10). *)
Definition react_practices : list TechStack.TechBestPractice :=
  [ {| TechStack.stack := TechStack.REACT;
       TechStack.category := TechStack.PERFORMANCE;
       TechStack.topic := "Code Splitting";
       TechStack.practice := "Use React.lazy and Suspense for route-based code splitting";
       TechStack.anti_pattern := "Ship one bundle";
       TechStack.code_example := "";
       TechStack.benefits := "Faster initial load, better user experience";
       TechStack.complexity := "medium" |};
    {| TechStack.stack := TechStack.REACT;
       TechStack.category := TechStack.PERFORMANCE;
       TechStack.topic := "Lazy load images";
       TechStack.practice := "Defer offscreen images";
       TechStack.anti_pattern := "Fetch every image upfront";
       TechStack.code_example := "";
       TechStack.benefits := "Less bandwidth";
       TechStack.complexity := "low" |} ].

(** Two React tips, the medium-impact one first. *)
Definition react_tips : list TechStack.PerformanceTip :=
  [ {| TechStack.tip_stack := TechStack.REACT;
       TechStack.tip_topic := "Memoization";
       TechStack.technique := "Use useMemo and useCallback sparingly";
       TechStack.impact := "medium";
       TechStack.effort := "medium";
       TechStack.tip_description := "Memoize expensive computations and callbacks";
       TechStack.code_snippet := "" |};
    {| TechStack.tip_stack := TechStack.REACT;
       TechStack.tip_topic := "Virtual lists";
       TechStack.technique := "Render only the visible rows";
       TechStack.impact := "high";
       TechStack.effort := "low";
       TechStack.tip_description := "Windowing for long lists";
       TechStack.code_snippet := "" |} ].

(** The Button snippet, six times (six rows of components.csv). *)
Definition button : Codegen.ComponentSnippet :=
  {| Codegen.name := "Button";
     Codegen.category := Codegen.BUTTON;
     Codegen.framework := Codegen.REACT;
     Codegen.code := "<button />";
     Codegen.dependencies := ["react"];
     Codegen.props := ∅;
     Codegen.preview := "";
     Codegen.description := "A versatile button component" |}.
Definition six_buttons : list Codegen.ComponentSnippet := replicate 6 button.

End Samples.

(** ** The decision table of [recommend] *)

Module Routing.

(** The goal and product-type table of [LandingPatternGenerator.recommend]:
    the preferred pattern name and the fallback name, if the row has one.
    A goal word selects its row when the lower-cased goal is that word;
    "pricing" selects its row when the lower-cased goal contains it. *)
Definition decision_table (goal_lower product_lower : string)
  : string * option string :=
  if in_list goal_lower ["signup"; "register"; "newsletter"]
  then ("Minimal Single CTA", Some "Hero + Features")
  else if in_list goal_lower ["purchase"; "buy"; "order"]
  then ("Product Showcase", Some "Hero + Features")
  else if in_list goal_lower ["demo"; "trial"]
  then ("Interactive Demo", Some "Video-First")
  else if str_in "pricing" goal_lower
  then ("Pricing Preview", None)
  else if in_list product_lower ["b2b"; "enterprise"; "saas"]
  then ("Comparison Table", Some "Trust Badges")
  else ("Hero + Features", None).

(** [p] is the first pattern of the store named [n], case-insensitively. *)
Definition first_named (patterns : list Landing.LandingPattern) (n : string)
    (p : Landing.LandingPattern) : Prop :=
  ∃ before after,
    patterns = before ++ p :: after ∧
    lower (Landing.name p) = lower n ∧
    Forall (λ q, lower (Landing.name q) ≠ lower n) before.

(** No pattern of the store is named [n]. *)
Definition absent (patterns : list Landing.LandingPattern) (n : string) : Prop :=
  Forall (λ q, lower (Landing.name q) ≠ lower n) patterns.

(** What the table promises for a result [r]: the first pattern with the
    preferred name; or, that name being absent, the first pattern with the
    fallback name; or nothing when neither name is in the store. *)
Definition routed (patterns : list Landing.LandingPattern)
    (preferred : string) (fallback : option string)
    (r : option Landing.LandingPattern) : Prop :=
  match r with
  | Some p =>
      first_named patterns preferred p ∨
      (absent patterns preferred ∧
       match fallback with
       | Some f => first_named patterns f p
       | None => False
       end)
  | None =>
      absent patterns preferred ∧
      match fallback with
      | Some f => absent patterns f
      | None => True
      end
  end.

End Routing.

(** ** Well-formed rows *)

Module Rows.

(** The value of a successful evaluation. *)
Definition ok {A} (r : result A) : option A :=
  match r with Ok a => Some a | Raise _ => None end.

Definition is_ok {A} (r : result A) : bool :=
  match r with Ok _ => true | Raise _ => false end.

(** The row has a cell for each of the [columns]. *)
Definition has_columns (columns : list string) (row : gmap string string) : bool :=
  forallb (λ c, bool_decide (is_Some (row !! c))) columns.

(** [v] is the value of a member of the enumeration. *)
Definition known {E} (value : E → string) (members : list E) (v : string) : bool :=
  existsb (λ m, String.eqb (value m) v) members.

(** The cell of [column] holds the value of a member. *)
Definition known_cell {E} (value : E → string) (members : list E)
    (row : gmap string string) (column : string) : bool :=
  match row !! column with
  | Some v => known value members v
  | None => false
  end.

(** landing_patterns.csv: name and description are required; a missing
    category reads as "classic". *)
Definition landing_row (row : gmap string string) : bool :=
  has_columns ["name"; "description"] row &&
  known Landing.value Landing.LandingCategory_members (get row "category" "classic").

(** ux_guidelines.csv *)
Definition ux_row (row : gmap string string) : bool :=
  has_columns ["domain"; "topic"; "best_practice"; "anti_pattern"; "example";
               "impact"; "complexity"] row &&
  known_cell (UXGuide.value ∘ snd) UXGuide.UXDomain_members row "domain".

(** tech_practices.csv *)
Definition practice_row (row : gmap string string) : bool :=
  has_columns ["stack"; "category"; "topic"; "practice"; "anti_pattern";
               "code_example"; "benefits"; "complexity"] row &&
  known_cell TechStack.TechStack_value TechStack.TechStack_members row "stack" &&
  known_cell TechStack.value TechStack.PracticeCategory_members row "category".

(** components.csv: preview and description are optional. *)
Definition snippet_row (row : gmap string string) : bool :=
  has_columns ["name"; "category"; "framework"; "code"; "dependencies"; "props"] row &&
  known_cell Codegen.value Codegen.ComponentCategory_members row "category" &&
  known_cell Codegen.Framework_value Codegen.Framework_members row "framework".

(** tech_patterns.csv *)
Definition pattern_row (row : gmap string string) : bool :=
  has_columns ["stack"; "name"; "description"; "use_case"; "implementation";
               "pros"; "cons"] row &&
  known_cell TechStack.TechStack_value TechStack.TechStack_members row "stack".

(** tech_performance.csv *)
Definition tip_row (row : gmap string string) : bool :=
  has_columns ["stack"; "topic"; "technique"; "impact"; "effort"; "description";
               "code_snippet"] row &&
  known_cell TechStack.TechStack_value TechStack.TechStack_members row "stack".

(** The lines printed for the rows that fail to parse. *)
Definition warnings {R A} (message : string) (parse : R → result A)
    (rows : list R) : list string :=
  omap (λ row, match parse row with
               | Ok _ => None
               | Raise e => Some (message +:+ exn_str e)
               end) rows.

(** What every loader does with the rows of its file, for a parser
    [parse] and the rows [well_formed] it accepts. *)
Definition loads {A} (parse : gmap string string → result A)
    (well_formed : gmap string string → bool)
    (rows : list (gmap string string)) (loaded : list A * list string) : Prop :=
  (∀ row, is_ok (parse row) = well_formed row) ∧
  loaded.1 = omap (ok ∘ parse) (List.filter well_formed rows) ∧
  length loaded.1 = length (List.filter well_formed rows) ∧
  length loaded.2 = length (List.filter (negb ∘ well_formed) rows).

(** A row with an unknown domain, and a row without the topic column. *)
Definition ux_sample : list (gmap string string) :=
  [ list_to_map [("domain", "Forms"); ("topic", "Labels");
                 ("best_practice", "Label every field");
                 ("anti_pattern", "Placeholder as label");
                 ("example", "Email label above the input");
                 ("impact", "Better for all users"); ("complexity", "low")];
    list_to_map [("domain", "Gestures"); ("topic", "Swipe");
                 ("best_practice", "Offer a button too");
                 ("anti_pattern", "Swipe only");
                 ("example", "Delete by swipe or button");
                 ("impact", "Some users"); ("complexity", "medium")];
    list_to_map [("domain", "Loading");
                 ("best_practice", "Show progress");
                 ("anti_pattern", "Blank screen");
                 ("example", "Progress bar");
                 ("impact", "Improved feedback"); ("complexity", "low")];
    list_to_map [("domain", "Error"); ("topic", "Messages");
                 ("best_practice", "Say how to recover");
                 ("anti_pattern", "Error code only");
                 ("example", "Retry link in the message");
                 ("impact", "Essential"); ("complexity", "low")] ].

End Rows.

(** ** Shapes used by the statements *)

(** The elements whose key is [s]. *)
Definition has_key {A} (key : A → Z) (s : Z) (x : A) : bool := key x =? s.

Definition ascending {A} (key : A → Z) (x y : A) : Prop := key x <= key y.
Definition descending {A} (key : A → Z) (x y : A) : Prop := key y <= key x.

(** The shape shared by the scored searches: keep the positive scores,
    sort them in descending order. *)
Definition ranked {A} (score : A → Z) (l : list A) : list A :=
  sorted_by score true (List.filter (λ x, 0 <? score x) l).

(** The recommendation [search_practices] builds for a practice. *)
Definition recommendation_of (practice : TechStack.TechBestPractice)
  : TechStack.StackRecommendation :=
  {| TechStack.rec_practice := practice;
     TechStack.priority := TechStack._determine_priority practice;
     TechStack.context := TechStack._get_context practice;
     TechStack.alternatives := TechStack._get_alternatives practice;
     TechStack.resources := TechStack._get_resources practice |}.

(** A guideline that reaches [_determine_priority] in [search]. *)
Definition matched (query : string) (domain : option string)
    (guideline : UXGuide.UXGuideline) : bool :=
  UXGuide.in_domain domain guideline && (0 <? UXGuide.score (lower query) guideline).

(** The three [continue] guards of [get_performance_tips]. *)
Definition tip_kept (stack_lower : string) (impact effort : option string)
    (tip : TechStack.PerformanceTip) : bool :=
  String.eqb (lower (TechStack.TechStack_value (TechStack.tip_stack tip))) stack_lower &&
  negb (truthy impact &&
        negb (String.eqb (lower (TechStack.impact tip)) (lower (default "" impact)))) &&
  negb (truthy effort &&
        negb (String.eqb (lower (TechStack.effort tip)) (lower (default "" effort)))).

(** The recommendation [get_quick_wins] builds for a guideline. *)
Definition quick_win_of (guideline : UXGuide.UXGuideline) : UXGuide.UXRecommendation :=
  {| UXGuide.guideline := guideline;
     UXGuide.priority := "high";
     UXGuide.implementation_effort := "low";
     UXGuide.user_impact := UXGuide._determine_user_impact guideline;
     UXGuide.resources := UXGuide._get_resources guideline |}.

(** The guard of the first loop of [get_quick_wins]. *)
Definition is_quick_win (guideline : UXGuide.UXGuideline) : bool :=
  String.eqb (UXGuide.complexity guideline) "low" &&
  in_list (UXGuide._determine_user_impact guideline) ["high"; "medium"].

(** Every group holds recommendations of its own domain that satisfy [P]. *)
Definition groups_hold (P : UXGuide.UXRecommendation → Prop) (G : UXGuide.groups) : Prop :=
  ∀ d, Forall (λ rec, UXGuide.domain (UXGuide.guideline rec) = d ∧ P rec)
              (UXGuide.groups_get G d).

(** The group-by step of [get_quick_wins] on the groups. *)
Definition add_to_group (G : UXGuide.groups) (rec : UXGuide.UXRecommendation)
  : UXGuide.groups :=
  UXGuide.groups_set G (UXGuide.domain (UXGuide.guideline rec))
    (UXGuide.groups_get G (UXGuide.domain (UXGuide.guideline rec)) ++ [rec]).

(** The list and the group left by one turn of the pure loop. *)
Definition turn_groups (G : UXGuide.groups) (d : UXGuide.UXDomain) : UXGuide.groups :=
  match UXGuide.groups_get G d with
  | _ :: rest => UXGuide.groups_set G d rest
  | [] => G
  end.

Definition turn_result (G : UXGuide.groups) (d : UXGuide.UXDomain)
    (res : list UXGuide.UXRecommendation)
  : list UXGuide.UXRecommendation :=
  match UXGuide.groups_get G d with
  | rec :: _ => res ++ [rec]
  | [] => res
  end.


(** ** List objects

    The query methods build and mutate lists in place ([append], [sort],
    [pop], [random.shuffle]).  To tell a list the method has created from
    the store lists of the engine, every list object lives in a cell of a
    heap and is known by its address; [self.patterns] and the like are
    addresses. *)

Module Obj.

Section heap.
Context {C : Type}.

(** One cell per list object; the address of an object is its index. *)
Definition heap : Type := list C.

(** A computation reads and writes the heap and returns or raises. *)
Definition M (A : Type) : Type := heap → result A * heap.

#[global] Instance M_ret : MRet M := λ A a h, (Ok a, h).
#[global] Instance M_bind : MBind M :=
  λ A B f m h,
    match m h with
    | (Ok a, h') => f a h'
    | (Raise e, h') => (Raise e, h')
    end.

Definition raise {A} (e : exn) : M A := λ h, (Raise e, h).

(** The result of an expression that does not touch the heap. *)
Definition lift {A} (r : result A) : M A := λ h, (r, h).

(** A new list object: [[]], a comprehension, a slice, [list(...)]. *)
Definition alloc (c : C) : M nat := λ h, (Ok (length h), h ++ [c]).

Definition load (a : nat) : M C :=
  λ h, (match h !! a with
        | Some c => Ok c
        | None => Raise (NameError "dangling reference")
        end, h).

(** The elements of the list object at [a], a list of the type [proj]
    recognises. *)
Definition read {Y} (proj : C → option (list Y)) (a : nat) : M (list Y) :=
  c ← load a;
  match proj c with
  | Some l => mret l
  | None => raise (TypeError "a list of another type")
  end.

(** An update in place of the object at [a]. *)
Definition store (a : nat) (c : C) : M unit := λ h, (Ok (), <[a := c]> h).

(** [for x in l: s = body(s, x)], on the elements [l] the loop visits. *)
Fixpoint for_fold {X S} (l : list X) (s : S) (body : S → X → M S) : M S :=
  match l with
  | [] => mret s
  | x :: l' => s' ← body s x; for_fold l' s' body
  end.

Definition for_each {X} (l : list X) (body : X → M unit) : M unit :=
  for_fold l () (λ _ x, body x).

(** [while cond: s = body(s)], for at most [fuel] turns. *)
Fixpoint while {S} (fuel : nat) (s : S) (cond : M bool) (body : S → M S) : M S :=
  match fuel with
  | O => mret s
  | S fuel' =>
      continue ← cond;
      if continue : bool then s' ← body s; while fuel' s' cond body else mret s
  end.

(** [m] leaves the cells below [n] as they are, never frees a cell, and
    its result satisfies [Q]. *)
Definition local (n : nat) {A} (m : M A) (Q : A → Prop) : Prop :=
  ∀ h, (n ≤ length h)%nat →
    take n (m h).2 = take n h ∧
    (length h ≤ length (m h).2)%nat ∧
    match (m h).1 with
    | Ok a => Q a
    | Raise _ => True
    end.

End heap.

End Obj.

Import Obj.

(** *** landing.py on list objects *)

Module LandingObj.

Inductive cell :=
| Patterns (l : list Landing.LandingPattern)
| Scored (l : list (Landing.LandingPattern * Z)).

#[local] Abbreviation M := (Obj.M (C:=cell)).

Definition as_patterns (c : cell) : option (list Landing.LandingPattern) :=
  match c with
  | Patterns l => Some l
  | _ => None
  end.

Definition patterns_at : nat → M (list Landing.LandingPattern) := read as_patterns.

Definition as_scored (c : cell) : option (list (Landing.LandingPattern * Z)) :=
  match c with
  | Scored l => Some l
  | _ => None
  end.

Definition scored_at : nat → M (list (Landing.LandingPattern * Z)) := read as_scored.

(** [search]; [self] is the address of [self.patterns], the result the
    address of the returned list. *)
Definition search (self : nat) (query : string) (max_results : Z) : M nat :=
  let query_lower := lower query in
  scored_patterns ← alloc (Scored []);
  patterns ← patterns_at self;
  for_each patterns (λ pattern,
    let score := Landing.score query_lower pattern in
    if 0 <? score then
      l ← scored_at scored_patterns;
      store scored_patterns (Scored (l ++ [(pattern, score)]))
    else mret ());;
  l ← scored_at scored_patterns;
  store scored_patterns (Scored (sorted_by snd true l));;
  l ← scored_at scored_patterns;
  top ← alloc (Scored (slice_to max_results l));
  l ← scored_at top;
  alloc (Patterns (l.*1)).

Definition get_pattern (self : nat) (name : string) : M (option Landing.LandingPattern) :=
  patterns ← patterns_at self;
  mret (Landing.get_pattern patterns name).

(** [a or b] with [b] evaluated only when [a] is [None]. *)
Definition or_else (a b : M (option Landing.LandingPattern))
  : M (option Landing.LandingPattern) :=
  x ← a;
  match x with
  | Some _ => mret x
  | None => b
  end.

Definition recommend (self : nat) (product_type goal audience : string)
  : M (option Landing.LandingPattern) :=
  let goal_lower := lower goal in
  let product_lower := lower product_type in
  if in_list goal_lower ["signup"; "register"; "newsletter"] then
    or_else (get_pattern self "Minimal Single CTA") (get_pattern self "Hero + Features")
  else if in_list goal_lower ["purchase"; "buy"; "order"] then
    or_else (get_pattern self "Product Showcase") (get_pattern self "Hero + Features")
  else if in_list goal_lower ["demo"; "trial"] then
    or_else (get_pattern self "Interactive Demo") (get_pattern self "Video-First")
  else if str_in "pricing" goal_lower then
    get_pattern self "Pricing Preview"
  else if in_list product_lower ["b2b"; "enterprise"; "saas"] then
    or_else (get_pattern self "Comparison Table") (get_pattern self "Trust Badges")
  else
    get_pattern self "Hero + Features".

(** [generate_structure] reads its argument only. *)
Definition generate_structure (self : nat) (pattern : Landing.LandingPattern)
  : M Landing.Structure :=
  mret (Landing.generate_structure pattern).

End LandingObj.

(** *** codegen.py on list objects *)

Module CodegenObj.

Inductive cell :=
| Snippets (l : list Codegen.ComponentSnippet)
| Scored (l : list (Codegen.ComponentSnippet * Z)).

#[local] Abbreviation M := (Obj.M (C:=cell)).

Definition as_snippets (c : cell) : option (list Codegen.ComponentSnippet) :=
  match c with
  | Snippets l => Some l
  | _ => None
  end.

Definition snippets_at : nat → M (list Codegen.ComponentSnippet) := read as_snippets.

Definition as_scored (c : cell) : option (list (Codegen.ComponentSnippet * Z)) :=
  match c with
  | Scored l => Some l
  | _ => None
  end.

Definition scored_at : nat → M (list (Codegen.ComponentSnippet * Z)) := read as_scored.

Definition search_components (self : nat) (query : string)
    (framework category : option string) : M nat :=
  let query_lower := lower query in
  results ← alloc (Scored []);
  snippets ← snippets_at self;
  for_each snippets (λ snippet,
    if negb (Codegen.passes framework category snippet) then mret ()
    else
      let score := Codegen.score query_lower snippet in
      if 0 <? score then
        l ← scored_at results;
        store results (Scored (l ++ [(snippet, score)]))
      else mret ());;
  l ← scored_at results;
  store results (Scored (sorted_by snd true l));;
  l ← scored_at results;
  alloc (Snippets (l.*1)).

End CodegenObj.

(** *** tech_stack.py on list objects *)

Module TechStackObj.

Inductive cell :=
| Practices (l : list TechStack.TechBestPractice)
| Tips (l : list TechStack.PerformanceTip)
| Recommendations (l : list TechStack.StackRecommendation).

#[local] Abbreviation M := (Obj.M (C:=cell)).

Definition as_practices (c : cell) : option (list TechStack.TechBestPractice) :=
  match c with
  | Practices l => Some l
  | _ => None
  end.

Definition practices_at : nat → M (list TechStack.TechBestPractice) := read as_practices.

Definition as_tips (c : cell) : option (list TechStack.PerformanceTip) :=
  match c with
  | Tips l => Some l
  | _ => None
  end.

Definition tips_at : nat → M (list TechStack.PerformanceTip) := read as_tips.

Definition as_recommendations (c : cell) : option (list TechStack.StackRecommendation) :=
  match c with
  | Recommendations l => Some l
  | _ => None
  end.

Definition recommendations_at : nat → M (list TechStack.StackRecommendation) := read as_recommendations.

(** [search_practices]; [self] is the address of [self.practices]. *)
Definition search_practices (self : nat) (stack : string)
    (query category : option string) (max_results : Z) : M nat :=
  let stack_lower := lower stack in
  filtered_practices ← alloc (Practices []);
  practices ← practices_at self;
  for_each practices (λ practice,
    if TechStack.kept stack_lower query category practice then
      l ← practices_at filtered_practices;
      store filtered_practices (Practices (l ++ [practice]))
    else mret ());;
  recommendations ← alloc (Recommendations []);
  l ← practices_at filtered_practices;
  top ← alloc (Practices (slice_to max_results l));
  l ← practices_at top;
  for_each l (λ practice,
    let priority := TechStack._determine_priority practice in
    let context := TechStack._get_context practice in
    let alternatives := TechStack._get_alternatives practice in
    let resources := TechStack._get_resources practice in
    r ← recommendations_at recommendations;
    store recommendations
      (Recommendations
         (r ++ [ {| TechStack.rec_practice := practice;
                    TechStack.priority := priority;
                    TechStack.context := context;
                    TechStack.alternatives := alternatives;
                    TechStack.resources := resources |} ])));;
  mret recommendations.

(** [get_performance_tips]; [self] is the address of
    [self.performance_tips].  The list [tips] is sorted in place and
    returned. *)
Definition get_performance_tips (self : nat) (stack : string)
    (impact effort : option string) : M nat :=
  let stack_lower := lower stack in
  tips ← alloc (Tips []);
  performance_tips ← tips_at self;
  tip ← for_fold performance_tips None (λ _ tip,
    if negb (String.eqb (lower (TechStack.TechStack_value (TechStack.tip_stack tip)))
                        stack_lower)
    then mret (Some tip)
    else if truthy impact &&
            negb (String.eqb (lower (TechStack.impact tip)) (lower (default "" impact)))
    then mret (Some tip)
    else if truthy effort &&
            negb (String.eqb (lower (TechStack.effort tip)) (lower (default "" effort)))
    then mret (Some tip)
    else
      l ← tips_at tips;
      store tips (Tips (l ++ [tip]));;
      mret (Some tip));
  l ← tips_at tips;
  sorted ← lift (sort_with
                   (λ t, match tip with
                         | Some tip =>
                             Ok (default 3 (TechStack.impact_order
                                              !! lower (TechStack.impact tip)))
                         | None => Raise (NameError "tip")
                         end)
                   false l);
  store tips (Tips sorted);;
  mret tips.

Definition get_quick_wins (self : nat) (stack : string) : M nat :=
  tips ← get_performance_tips self stack None None;
  l ← tips_at tips;
  alloc (Tips (List.filter
                 (λ tip, String.eqb (lower (TechStack.impact tip)) "high" &&
                         String.eqb (lower (TechStack.effort tip)) "low") l)).

End TechStackObj.

(** *** ux_guide.py on list objects *)

Module UXGuideObj.

Inductive cell :=
| Guidelines (l : list UXGuide.UXGuideline)
| Scored (l : list UXGuide.scored)
| Recommendations (l : list UXGuide.UXRecommendation)
| Domains (l : list UXGuide.UXDomain)
| Lines (l : list string).

#[local] Abbreviation M := (Obj.M (C:=cell)).

Definition as_guidelines (c : cell) : option (list UXGuide.UXGuideline) :=
  match c with
  | Guidelines l => Some l
  | _ => None
  end.

Definition guidelines_at : nat → M (list UXGuide.UXGuideline) := read as_guidelines.

Definition as_scored (c : cell) : option (list UXGuide.scored) :=
  match c with
  | Scored l => Some l
  | _ => None
  end.

Definition scored_at : nat → M (list UXGuide.scored) := read as_scored.

Definition as_recommendations (c : cell) : option (list UXGuide.UXRecommendation) :=
  match c with
  | Recommendations l => Some l
  | _ => None
  end.

Definition recommendations_at : nat → M (list UXGuide.UXRecommendation) := read as_recommendations.

Definition as_domains (c : cell) : option (list UXGuide.UXDomain) :=
  match c with
  | Domains l => Some l
  | _ => None
  end.

Definition domains_at : nat → M (list UXGuide.UXDomain) := read as_domains.

Definition as_lines (c : cell) : option (list string) :=
  match c with
  | Lines l => Some l
  | _ => None
  end.

Definition lines_at : nat → M (list string) := read as_lines.

(** [search]; [self] is the address of [self.guidelines]. *)
Definition search (self : nat) (query : string) (domain : option string)
    (max_results : Z) : M nat :=
  let query_lower := lower query in
  scored_guidelines ← alloc (Scored []);
  guidelines ← guidelines_at self;
  for_each guidelines (λ guideline,
    if negb (UXGuide.in_domain domain guideline) then mret ()
    else
      let score := UXGuide.score query_lower guideline in
      if 0 <? score then
        priority ← lift (UXGuide._determine_priority guideline);
        let effort := UXGuide.complexity guideline in
        let user_impact := UXGuide._determine_user_impact guideline in
        l ← scored_at scored_guidelines;
        store scored_guidelines
          (Scored (l ++ [(guideline, score, priority, effort, user_impact)]))
      else mret ());;
  l ← scored_at scored_guidelines;
  store scored_guidelines (Scored (sorted_by UXGuide.scored_score true l));;
  recommendations ← alloc (Recommendations []);
  l ← scored_at scored_guidelines;
  top ← alloc (Scored (slice_to max_results l));
  l ← scored_at top;
  for_each l (λ '(guideline, score, priority, effort, user_impact),
    r ← recommendations_at recommendations;
    store recommendations
      (Recommendations
         (r ++ [ {| UXGuide.guideline := guideline;
                    UXGuide.priority := priority;
                    UXGuide.implementation_effort := effort;
                    UXGuide.user_impact := user_impact;
                    UXGuide.resources := UXGuide._get_resources guideline |} ])));;
  mret recommendations.

(** A dictionary from keys to list objects, in insertion order. *)
Definition dict (K : Type) : Type := list (K * nat).

Fixpoint dict_get {K} `{EqDecision K} (d : dict K) (k : K) : option nat :=
  match d with
  | [] => None
  | (k', a) :: rest => if decide (k' = k) then Some a else dict_get rest k
  end.

(** Every list object of the dictionary has an address that is not
    below [n]. *)
Definition owned {K} (n : nat) (d : dict K) : Prop :=
  Forall (λ entry, (n ≤ entry.2)%nat) d.

(** [domain_groups[k]] on a [defaultdict(list)]: a missing key gets a new
    empty list. *)
Definition groups_item (domain_groups : dict UXGuide.UXDomain) (k : UXGuide.UXDomain)
  : M (dict UXGuide.UXDomain * nat) :=
  match dict_get domain_groups k with
  | Some a => mret (domain_groups, a)
  | None => a ← alloc (Recommendations []); mret (domain_groups ++ [(k, a)], a)
  end.

(** [l.pop(0)] on a list of domains. *)
Definition pop_domain (a : nat) : M UXGuide.UXDomain :=
  l ← domains_at a;
  match l with
  | d :: rest => store a (Domains rest);; mret d
  | [] => raise (TypeError "pop from empty list")
  end.

(** [l.pop(0)] on a list of recommendations. *)
Definition pop_recommendation (a : nat) : M UXGuide.UXRecommendation :=
  l ← recommendations_at a;
  match l with
  | r :: rest => store a (Recommendations rest);; mret r
  | [] => raise (TypeError "pop from empty list")
  end.

(** One turn of the grouping loop:
    [domain_groups[rec.guideline.domain].append(rec)]. *)
Definition group_turn (domain_groups : dict UXGuide.UXDomain)
    (rec : UXGuide.UXRecommendation) : M (dict UXGuide.UXDomain) :=
  '(domain_groups, group) ←
    groups_item domain_groups (UXGuide.domain (UXGuide.guideline rec));
  g ← recommendations_at group;
  store group (Recommendations (g ++ [rec]));;
  mret domain_groups.

(** The test of the [while] loop:
    [len(result) < max_results and domains]. *)
Definition draw_test (result domains : nat) (max_results : Z) : M bool :=
  r ← recommendations_at result;
  ds ← domains_at domains;
  mret ((Z.of_nat (length r) <? max_results) && negb (bool_decide (ds = []))).

(** The body of the [while] loop. *)
Definition draw_turn (result domains : nat) (domain_groups : dict UXGuide.UXDomain)
  : M (dict UXGuide.UXDomain) :=
  domain ← pop_domain domains;
  '(domain_groups, group) ← groups_item domain_groups domain;
  g ← recommendations_at group;
  match g with
  | [] => mret domain_groups
  | _ :: _ =>
      rec ← pop_recommendation group;
      r ← recommendations_at result;
      store result (Recommendations (r ++ [rec]));;
      mret domain_groups
  end.

(** [get_quick_wins]; [shuffle] is the outcome of [random.shuffle]. *)
Definition get_quick_wins (shuffle : list UXGuide.UXDomain → list UXGuide.UXDomain)
    (self : nat) (max_results : Z) : M nat :=
  quick_wins ← alloc (Recommendations []);
  guidelines ← guidelines_at self;
  for_each guidelines (λ guideline,
    if String.eqb (UXGuide.complexity guideline) "low" then
      let user_impact := UXGuide._determine_user_impact guideline in
      if in_list user_impact ["high"; "medium"] then
        l ← recommendations_at quick_wins;
        store quick_wins
          (Recommendations
             (l ++ [ {| UXGuide.guideline := guideline;
                        UXGuide.priority := "high";
                        UXGuide.implementation_effort := "low";
                        UXGuide.user_impact := user_impact;
                        UXGuide.resources := UXGuide._get_resources guideline |} ]))
      else mret ()
    else mret ());;
  l ← recommendations_at quick_wins;
  domain_groups ← for_fold l [] group_turn;
  result ← alloc (Recommendations []);
  domains ← alloc (Domains (domain_groups.*1));
  l ← domains_at domains;
  store domains (Domains (shuffle l));;
  l ← domains_at domains;
  (* every turn pops a domain: [len(domains)] turns are enough *)
  while (length l) domain_groups
        (draw_test result domains max_results) (draw_turn result domains);;
  mret result.

(** The dictionary and the cells that hold the groups [G], the list of the
    first group at the address [base]. *)
Fixpoint addresses (base : nat) (G : UXGuide.groups) : dict UXGuide.UXDomain :=
  match G with
  | [] => []
  | (d, _) :: G' => (d, base) :: addresses (S base) G'
  end.

Definition cells (G : UXGuide.groups) : list cell :=
  (λ g, Recommendations g.2) <$> G.

(** [get_checklist]: the dictionary from domain values to list objects. *)
Definition get_checklist (self : nat) (domains : option (list string))
  : M (dict string) :=
  guidelines ← guidelines_at self;
  for_fold guidelines [] (λ checklist guideline,
    let domain := UXGuide.value (UXGuide.domain guideline) in
    if match domains with
       | Some (d :: ds) => negb (in_list domain (d :: ds))
       | _ => false
       end
    then mret checklist
    else
      '(checklist, a) ←
        match dict_get checklist domain with
        | Some a => mret (checklist, a)
        | None => a ← alloc (Lines []); mret (checklist ++ [(domain, a)], a)
        end;
      l ← lines_at a;
      store a (Lines (l ++ ["[ ] " +:+ UXGuide.best_practice guideline]));;
      mret checklist).

End UXGuideObj.

(** ** Shapes used by the statements on the parsers, generators and listings *)

(** *** landing.py *)

(** The type the loop of [_infer_section_type] finds in a table of
    patterns for a lower-cased name. *)
Definition first_type (table : list (string * list string)) (name_lower : string)
  : string :=
  match List.find (λ entry, existsb (λ pattern, str_in pattern name_lower) entry.2)
                  table with
  | Some (type_name, _) => type_name
  | None => "content"
  end.

(** The nineteen patterns of [type_map] that decide a type.  Each of the
    thirteen others contains a pattern that stands in an earlier place of
    the table: "video_hero" (under "hero" and again under "demo"),
    "split_hero" and "dark_hero" contain "hero"; "features",
    "zigzag_features" and "dark_features" contain "feature";
    "pricing_plans" contains "pricing"; "comparison_table" contains
    "comparison"; "faq_categories" contains "faq"; "stats_dashboard"
    contains "stats"; "contact_cta" and "repeating_ctas" contain "cta". *)
Definition deciding_patterns : list (string * list string) :=
  [ ("hero", ["hero"; "single_cta"]);
    ("features", ["feature"]);
    ("pricing", ["pricing"; "plans"]);
    ("testimonials", ["testimonials"; "social_proof"; "reviews"]);
    ("comparison", ["comparison"]);
    ("faq", ["faq"; "questions"]);
    ("demo", ["interactive_demo"; "product_gallery"]);
    ("stats", ["trust_badges"; "stats"]);
    ("cta", ["cta"]);
    ("story", ["story_sections"; "timeline"; "narrative"]) ].

(** A row of landing_patterns.csv with four section names, and a row
    that has no sections column. *)
Definition landing_sample_row : gmap string string :=
  list_to_map [ ("name", "Video-First");
                ("category", "video");
                ("description", "Lead with a product video");
                ("sections", "video_hero, key_features ,social_proof,contact_cta");
                ("best_for", "B2B,SaaS");
                ("keywords", "video,demo") ].

Definition bare_row : gmap string string :=
  list_to_map [ ("name", "Plain"); ("description", "No sections column") ].

(** *** codegen.py *)

(** The test of the loop of [generate_component]: the snippet has the
    name, in any letter case, and the framework. *)
Definition names (component_name : string) (framework : Codegen.Framework)
    (s : Codegen.ComponentSnippet) : bool :=
  String.eqb (lower (Codegen.name s)) (lower component_name) &&
  bool_decide (Codegen.framework s = framework).

(** The component [generate_component] builds from a snippet and the
    code it ends up with. *)
Definition component_of (snippet : Codegen.ComponentSnippet) (code : string)
    (framework : Codegen.Framework) : Codegen.GeneratedComponent :=
  {| Codegen.component_code := code;
     Codegen.imports := Codegen._extract_imports code framework;
     Codegen.styles := Codegen._extract_styles code framework;
     Codegen.component_dependencies := Codegen.dependencies snippet;
     Codegen.component_description := Codegen.description snippet;
     Codegen.usage_example := Codegen.preview snippet |}.

(** A snippet of the framework is stored under exactly the name [n]. *)
Definition stored (snippets : list Codegen.ComponentSnippet)
    (framework : Codegen.Framework) (n : string) : bool :=
  existsb (λ s, String.eqb (Codegen.name s) n &&
                bool_decide (Codegen.framework s = framework)) snippets.

(** One turn of the inner loop of [generate_from_design_system]. *)
Definition component_step (snippets : list Codegen.ComponentSnippet)
    (design_system : Codegen.DesignSystem) (framework : Codegen.Framework)
    (components : gmap string Codegen.GeneratedComponent)
    (snippet : Codegen.ComponentSnippet) : gmap string Codegen.GeneratedComponent :=
  match Codegen.generate_component snippets (Codegen.name snippet) framework
          (Some design_system) with
  | Some component => <[Codegen.name snippet := component]> components
  | None => components
  end.

(** The snippets [get_available_components] files under the key [k]. *)
Definition filed (framework : option Codegen.Framework) (k : string)
    (s : Codegen.ComponentSnippet) : bool :=
  match framework with
  | Some f => bool_decide (Codegen.framework s = f)
  | None => true
  end && String.eqb (Codegen.value (Codegen.category s)) k.

(** One turn of the loop of [get_available_components]. *)
Definition available_step (framework : option Codegen.Framework)
    (components : gmap string (list string)) (snippet : Codegen.ComponentSnippet)
  : gmap string (list string) :=
  if match framework with
     | Some f => bool_decide (Codegen.framework snippet ≠ f)
     | None => false
     end
  then components
  else
    let category := Codegen.value (Codegen.category snippet) in
    let components :=
      if bool_decide (components !! category = None)
      then <[category := []]> components else components in
    <[category := default [] (components !! category) ++ [Codegen.name snippet]]>
      components.

(** A design system with a primary colour only. *)
Definition red_design : Codegen.DesignSystem :=
  {| Codegen.truth := true;
     Codegen.colors := {[ "primary" := "#ff0000" ]} |}.

(** *** ux_guide.py *)

(** [d.get(k)] on a dictionary kept in insertion order. *)
Definition value_of {B} (k : string) (d : list (string * B)) : option B :=
  snd <$> List.find (λ kv, String.eqb kv.1 k) d.

(** One turn of a loop that files [entry x] under [key x] unless it skips
    [x]: the loops of [get_checklist] and [get_anti_patterns]. *)
Definition group_step {A B} (key : A → string) (entry : A → B) (skip : A → bool)
    (groups : list (string * list B)) (x : A) : list (string * list B) :=
  if skip x then groups
  else if existsb (λ kv, String.eqb kv.1 (key x)) groups
  then (λ kv, if String.eqb kv.1 (key x) then (kv.1, kv.2 ++ [entry x]) else kv)
         <$> groups
  else groups ++ [(key x, [entry x])].

(** The test [get_checklist] makes on a guideline for the [domains] asked
    for: [None] and the empty list ask for every domain. *)
Definition asked (domains : option (list string)) (guideline : UXGuide.UXGuideline)
  : bool :=
  match domains with
  | Some (d :: ds) => in_list (UXGuide.value (UXGuide.domain guideline)) (d :: ds)
  | _ => true
  end.

(** The line of the checklist and the entry of the anti-patterns for a
    guideline. *)
Definition checklist_entry (guideline : UXGuide.UXGuideline) : string :=
  "[ ] " +:+ UXGuide.best_practice guideline.

Definition anti_pattern_entry (guideline : UXGuide.UXGuideline)
  : UXGuide.AntiPatternEntry :=
  {| UXGuide.entry_anti_pattern := UXGuide.anti_pattern guideline;
     UXGuide.entry_best_practice := UXGuide.best_practice guideline;
     UXGuide.entry_impact := UXGuide.impact guideline |}.

(** ** The data files as they are read *)

Module Csv.

(** A cell of a line.  [None] is what [csv.DictReader] puts (its
    [restval]) under a column for which the line has no cell: a line
    shorter than the header. *)
Definition cell := option string.

(** A line, under the column names of the header.  The cells of a line
    longer than the header go under the key [None], which no loader
    reads. *)
Definition row := gmap string cell.

(** What [for row in reader] goes through: the lines read, and the
    exception, if any, that ends the reading before the end of the file
    (bytes that are not UTF-8 raise a [UnicodeDecodeError], which is a
    [ValueError]; [open] may fail as well, with no line read). *)
Record reader := {
  rows : list row;
  failure : option exn
}.

(** [row[k]] *)
Definition getitem (line : row) (k : string) : result cell :=
  match line !! k with
  | Some c => Ok c
  | None => Raise (KeyError k)
  end.

(** [row.get(k, d)] and [row.get(k)] *)
Definition get (line : row) (k d : string) : cell := default (Some d) (line !! k).

Definition get_or_None (line : row) (k : string) : cell := default None (line !! k).

(** [c.method(...)] for a method of [str]: [None] has none of them. *)
Definition str_method (method : string) (c : cell) : result string :=
  match c with
  | Some s => Ok s
  | None =>
      Raise (AttributeError ("'NoneType' object has no attribute '" +:+ method +:+ "'"))
  end.

(** [Enum(c)]: the [lookup] by value of the enumeration named [enum]. *)
Definition member {E} (lookup : string → result E) (enum : string) (c : cell)
  : result E :=
  match c with
  | Some v => lookup v
  | None => Raise (ValueError ("None is not a valid " +:+ enum))
  end.

(** [f"{c}"] *)
Definition format (c : cell) : string := default "None" c.

(** A line that has all its cells, and a file of such lines that is read
    to its end. *)
Definition complete (cells : gmap string string) : row := Some <$> cells.

Definition complete_file (rows : list (gmap string string)) : reader :=
  {| rows := complete <$> rows; failure := None |}.

(** The outcome of a loop over the lines: the exception that ended the
    reading, or the store. *)
Definition outcome {A} (file : reader) (store : A) : result A :=
  match failure file with
  | Some e => Raise e
  | None => Ok store
  end.

End Csv.

(** *** landing.py *)

Module LandingFile.

(** A [LandingPattern] as [_parse_pattern] builds it: [name],
    [description] and [complexity] are the cells of the line as they
    are. *)
Record LandingPattern := {
  name : Csv.cell;
  category : Landing.LandingCategory;
  description : Csv.cell;
  sections : list Landing.LandingSection;
  cta_strategy : Landing.CTAStrategy;
  best_for : list string;
  conversion_tips : list string;
  complexity : Csv.cell;
  keywords : list string
}.

(** A pattern whose fields are all text. *)
Definition of_pattern (p : Landing.LandingPattern) : LandingPattern :=
  {| name := Some (Landing.name p);
     category := Landing.category p;
     description := Some (Landing.description p);
     sections := Landing.sections p;
     cta_strategy := Landing.cta_strategy p;
     best_for := Landing.best_for p;
     conversion_tips := Landing.conversion_tips p;
     complexity := Some (Landing.complexity p);
     keywords := Landing.keywords p |}.

(** The [try] body of [_parse_pattern].  [sections_raw.split] and, in
    [_get_cta_variations], [best_for.lower] are the first calls on their
    cells. *)
Definition parse_pattern_body (row : Csv.row) : result LandingPattern :=
  sections_raw ← Csv.str_method "split" (Csv.get row "sections" "");
  let section_names := strip <$> split "," sections_raw in
  let sections := Landing.parse_sections 0 section_names in
  best_for ← Csv.str_method "lower" (Csv.get row "best_for" "");
  let cta_strategy :=
    {| Landing.primary_placement :=
         match section_names with s :: _ => s | [] => "hero" end;
       Landing.secondary_placements := [];
       Landing.style := "button";
       Landing.urgency := "medium";
       Landing.text_variations := Landing._get_cta_variations best_for |} in
  name ← Csv.getitem row "name";
  category ← Csv.member Landing.LandingCategory_of "LandingCategory"
               (Csv.get row "category" "classic");
  description ← Csv.getitem row "description";
  mret {| name := name;
          category := category;
          description := description;
          sections := sections;
          cta_strategy := cta_strategy;
          best_for := split "," best_for;
          conversion_tips :=
            if truthy (Csv.get_or_None row "conversion_tips")
            then split "," (default "" (Csv.get row "conversion_tips" "")) else [];
          complexity := Csv.get row "complexity" "medium";
          keywords :=
            if truthy (Csv.get_or_None row "keywords")
            then split "," (default "" (Csv.get row "keywords" "")) else [] |}.

Definition _parse_pattern (row : Csv.row) : option LandingPattern * list string :=
  match parse_pattern_body row with
  | Ok pattern => (Some pattern, [])
  | Raise e => (None, ["Warning: Failed to parse pattern: " +:+ exn_str e])
  end.

Fixpoint load_rows (rows : list Csv.row) (patterns : list LandingPattern)
    (out : list string) : list LandingPattern * list string :=
  match rows with
  | [] => (patterns, out)
  | row :: rest =>
      let '(pattern, printed) := _parse_pattern row in
      match pattern with
      | Some p => load_rows rest (patterns ++ [p]) (out ++ printed)
      | None => load_rows rest patterns (out ++ printed)
      end
  end.

(** [_load_patterns]: [csv] is [None] when landing_patterns.csv does not
    exist.  The result is the store, or the exception that ended the
    reading, and the printed lines. *)
Definition _load_patterns (csv : option Csv.reader)
  : result (list LandingPattern) * list string :=
  match csv with
  | None => (Ok (of_pattern <$> Landing._get_default_patterns), [])
  | Some file =>
      let '(patterns, out) := load_rows (Csv.rows file) [] [] in
      (Csv.outcome file patterns, out)
  end.

End LandingFile.

(** *** ux_guide.py *)

Module UXGuideFile.

(** A [UXGuideline] as the loader builds it: every field but the domain is
    the cell of the line as it is. *)
Record UXGuideline := {
  domain : UXGuide.UXDomain;
  topic : Csv.cell;
  best_practice : Csv.cell;
  anti_pattern : Csv.cell;
  example : Csv.cell;
  impact : Csv.cell;
  complexity : Csv.cell
}.

Definition of_guideline (g : UXGuide.UXGuideline) : UXGuideline :=
  {| domain := UXGuide.domain g;
     topic := Some (UXGuide.topic g);
     best_practice := Some (UXGuide.best_practice g);
     anti_pattern := Some (UXGuide.anti_pattern g);
     example := Some (UXGuide.example g);
     impact := Some (UXGuide.impact g);
     complexity := Some (UXGuide.complexity g) |}.

(** The [try] body of the row loop of [_load_guidelines]. *)
Definition parse_guideline (row : Csv.row) : result UXGuideline :=
  domain ← (Csv.getitem row "domain" ≫= Csv.member UXGuide.UXDomain_of "UXDomain");
  topic ← Csv.getitem row "topic";
  best_practice ← Csv.getitem row "best_practice";
  anti_pattern ← Csv.getitem row "anti_pattern";
  example ← Csv.getitem row "example";
  impact ← Csv.getitem row "impact";
  complexity ← Csv.getitem row "complexity";
  mret {| domain := domain; topic := topic; best_practice := best_practice;
          anti_pattern := anti_pattern; example := example; impact := impact;
          complexity := complexity |}.

Fixpoint load_rows (rows : list Csv.row) (guidelines : list UXGuideline)
    (out : list string) : list UXGuideline * list string :=
  match rows with
  | [] => (guidelines, out)
  | row :: rest =>
      match parse_guideline row with
      | Ok guideline => load_rows rest (guidelines ++ [guideline]) out
      | Raise e =>
          load_rows rest guidelines
            (out ++ ["Warning: Failed to parse UX guideline: " +:+ exn_str e])
      end
  end.

(** [_load_guidelines]: [csv] is [None] when ux_guidelines.csv does not
    exist. *)
Definition _load_guidelines (csv : option Csv.reader)
  : result (list UXGuideline) * list string :=
  match csv with
  | None => (Ok (of_guideline <$> UXGuide._get_default_guidelines), [])
  | Some file =>
      let '(guidelines, out) := load_rows (Csv.rows file) [] [] in
      (Csv.outcome file guidelines, out)
  end.

End UXGuideFile.

(** *** codegen.py *)

Module CodegenFile.

(** A [ComponentSnippet] as the loader builds it: [name], [code],
    [preview] and [description] are the cells of the line as they are. *)
Record ComponentSnippet := {
  name : Csv.cell;
  category : Codegen.ComponentCategory;
  framework : Codegen.Framework;
  code : Csv.cell;
  dependencies : list string;
  props : gmap string string;
  preview : Csv.cell;
  description : Csv.cell
}.

Definition of_snippet (s : Codegen.ComponentSnippet) : ComponentSnippet :=
  {| name := Some (Codegen.name s);
     category := Codegen.category s;
     framework := Codegen.framework s;
     code := Some (Codegen.code s);
     dependencies := Codegen.dependencies s;
     props := Codegen.props s;
     preview := Some (Codegen.preview s);
     description := Some (Codegen.description s) |}.

(** The [try] body of the row loop of [_load_snippets].
    [row["dependencies"].split] and, in [_parse_props], [props_str.split]
    are calls on their cells. *)
Definition parse_snippet (row : Csv.row) : result ComponentSnippet :=
  name ← Csv.getitem row "name";
  category ← (Csv.getitem row "category"
              ≫= Csv.member Codegen.ComponentCategory_of "ComponentCategory");
  framework ← (Csv.getitem row "framework" ≫= Csv.member Codegen.Framework_of "Framework");
  code ← Csv.getitem row "code";
  dependencies ← (Csv.getitem row "dependencies" ≫= Csv.str_method "split");
  props ← (Csv.getitem row "props" ≫= Csv.str_method "split");
  mret {| name := name;
          category := category;
          framework := framework;
          code := code;
          dependencies := split ";" dependencies;
          props := Codegen._parse_props props;
          preview := Csv.get row "preview" "";
          description := Csv.get row "description" "" |}.

Fixpoint load_rows (rows : list Csv.row) (snippets : list ComponentSnippet)
    (out : list string) : list ComponentSnippet * list string :=
  match rows with
  | [] => (snippets, out)
  | row :: rest =>
      match parse_snippet row with
      | Ok snippet => load_rows rest (snippets ++ [snippet]) out
      | Raise e =>
          load_rows rest snippets
            (out ++ ["Warning: Failed to parse snippet: " +:+ exn_str e])
      end
  end.

(** [_load_snippets]: [csv] is [None] when components.csv does not exist. *)
Definition _load_snippets (csv : option Csv.reader)
  : result (list ComponentSnippet) * list string :=
  match csv with
  | None => (Ok (of_snippet <$> Codegen._get_default_snippets), [])
  | Some file =>
      let '(snippets, out) := load_rows (Csv.rows file) [] [] in
      (Csv.outcome file snippets, out)
  end.

(** A [GeneratedComponent] built from such a snippet. *)
Record GeneratedComponent := {
  component_code : string;
  imports : list string;
  styles : string;
  component_dependencies : list string;
  component_description : Csv.cell;
  usage_example : Csv.cell
}.

Definition of_component (c : Codegen.GeneratedComponent) : GeneratedComponent :=
  {| component_code := Codegen.component_code c;
     imports := Codegen.imports c;
     styles := Codegen.styles c;
     component_dependencies := Codegen.component_dependencies c;
     component_description := Some (Codegen.component_description c);
     usage_example := Some (Codegen.usage_example c) |}.

(** The loop of [generate_component]: [s.name.lower()] comes first in the
    test of each snippet the loop reaches. *)
Fixpoint find_snippet (snippets : list ComponentSnippet) (component_name : string)
    (framework' : Codegen.Framework) : result (option ComponentSnippet) :=
  match snippets with
  | [] => Ok None
  | s :: rest =>
      name ← Csv.str_method "lower" (name s);
      if String.eqb (lower name) (lower component_name) &&
         bool_decide (framework s = framework')
      then Ok (Some s)
      else find_snippet rest component_name framework'
  end.

(** [_apply_design_tokens] on the code cell: the two f-strings render a
    [None] as the text "None". *)
Definition _apply_design_tokens (code : Csv.cell) (design_system : Codegen.DesignSystem)
    (framework' : Codegen.Framework) : Csv.cell :=
  let colors := Codegen.colors design_system in
  if bool_decide (colors ≠ ∅) then
    let primary := default "#000000" (colors !! "primary") in
    let secondary := default "#666666" (colors !! "secondary") in
    if bool_decide (framework' = Codegen.TAILWIND) then
      Some ("/* Apply these colors in tailwind.config.js:" +:+ nl
            +:+ " * primary: '" +:+ primary +:+ "'" +:+ nl
            +:+ " * secondary: '" +:+ secondary +:+ "'" +:+ nl
            +:+ " */" +:+ nl +:+ nl +:+ Csv.format code)
    else if bool_decide (framework' ∈ [Codegen.REACT; Codegen.NEXTJS]) then
      Some ("/* Use these CSS variables:" +:+ nl
            +:+ " * --color-primary: " +:+ primary +:+ nl
            +:+ " * --color-secondary: " +:+ secondary +:+ nl
            +:+ " */" +:+ nl +:+ nl +:+ Csv.format code)
    else code
  else code.

(** [generate_component]: [code.split], in [_extract_imports], is the
    first call on the code. *)
Definition generate_component (snippets : list ComponentSnippet)
    (component_name : string) (framework' : Codegen.Framework)
    (design_system : option Codegen.DesignSystem)
  : result (option GeneratedComponent) :=
  found ← find_snippet snippets component_name framework';
  match found with
  | None => Ok None
  | Some snippet =>
      let code :=
        match design_system with
        | Some ds =>
            if Codegen.truth ds then _apply_design_tokens (code snippet) ds framework'
            else code snippet
        | None => code snippet
        end in
      code ← Csv.str_method "split" code;
      mret (Some {| component_code := code;
                    imports := Codegen._extract_imports code framework';
                    styles := Codegen._extract_styles code framework';
                    component_dependencies := dependencies snippet;
                    component_description := description snippet;
                    usage_example := preview snippet |})
  end.

(** [get_code_generator()] builds a generator on the default data
    directory; [csv] is its components.csv, if there is one. *)
Definition get_code_generator (csv : option Csv.reader)
  : result (list ComponentSnippet) * list string :=
  _load_snippets csv.

(** [generate_component_snippet]: the generator is built before the [try],
    which holds the lookup of the framework only. *)
Definition generate_component_snippet (csv : option Csv.reader)
    (component_name framework' : string) (design_system : option Codegen.DesignSystem)
  : result (option GeneratedComponent) * list string :=
  let '(generator, out) := get_code_generator csv in
  (snippets ← generator;
   match Codegen.Framework_of (lower framework') with
   | Raise (ValueError _) => Ok None
   | Raise e => Raise e
   | Ok fw_enum => generate_component snippets component_name fw_enum design_system
   end,
   out).

End CodegenFile.

(** *** tech_stack.py *)

Module tech_stack.

(** Python compiles the text of a module before it runs any of it, and a
    call with a positional argument after a keyword argument is refused
    then, wherever it stands.  In tech_stack.py the second call of
    [_get_default_patterns] is such a call. *)
Definition compile : result () :=
  if existsb (TechStack.positional_follows_keyword false) TechStack.default_pattern_calls
  then Raise (SyntaxError "positional argument follows keyword argument")
  else Ok ().

(** [import super_dev.design.tech_stack], which comes before any use of
    the module. *)
Definition import_module : result () := compile.

(** [TechStackEngine(data_dir)] and the methods of the engine, as a client
    of the module reaches them. *)
Definition TechStackEngine (dir : TechStack.data_dir)
  : result (TechStack.engine * list string) :=
  import_module ;; TechStack._load_data dir.

Definition search_practices (dir : TechStack.data_dir) (stack : string)
    (query category : option string) (max_results : Z)
  : result (list TechStack.StackRecommendation) :=
  '(self, _) ← TechStackEngine dir;
  mret (TechStack.search_practices (TechStack.practices self) stack query category
          max_results).

Definition get_performance_tips (dir : TechStack.data_dir) (stack : string)
    (impact effort : option string) : result (list TechStack.PerformanceTip) :=
  '(self, _) ← TechStackEngine dir;
  TechStack.get_performance_tips (TechStack.performance_tips self) stack impact effort.

End tech_stack.

(** *** Shapes used by the statements on the files *)

(** Text of ASCII characters, on which [lower], [strip], [title] and
    [repr] do what Python's do. *)
Definition is_ascii (s : string) : bool :=
  forallb (λ c, (nat_of_ascii c <? 128)%nat) (list_ascii_of_string s).

Definition ascii_names (names : list string) : bool := forallb is_ascii names.

(** An optional filter that is ASCII text when it is given. *)
Definition ascii_filter (o : option string) : bool := from_option is_ascii true o.

(** The line has a cell, possibly [None], under each of the [columns]. *)
Definition has_cells (columns : list string) (row : Csv.row) : bool :=
  forallb (λ c, bool_decide (is_Some (row !! c))) columns.

(** The line has a text under each of the [columns]. *)
Definition has_texts (columns : list string) (row : Csv.row) : bool :=
  forallb (λ c, bool_decide (is_Some (Csv.get_or_None row c))) columns.

Definition is_text (c : Csv.cell) : bool := bool_decide (is_Some c).

(** The cell holds the value of a member. *)
Definition member_cell {E} (value : E → string) (members : list E) (c : Csv.cell)
  : bool :=
  match c with
  | Some v => Rows.known value members v
  | None => false
  end.

(** The lines the three loaders accept: the columns read with [row[...]]
    are in the header, the enum cells hold the value of a member, and the
    cells on which a method is called are not [None]. *)
Definition landing_line (row : Csv.row) : bool :=
  is_text (Csv.get row "sections" "") &&
  is_text (Csv.get row "best_for" "") &&
  has_cells ["name"; "description"] row &&
  member_cell Landing.value Landing.LandingCategory_members
              (Csv.get row "category" "classic").

Definition ux_line (row : Csv.row) : bool :=
  has_cells ["domain"; "topic"; "best_practice"; "anti_pattern"; "example";
             "impact"; "complexity"] row &&
  member_cell (UXGuide.value ∘ snd) UXGuide.UXDomain_members
              (Csv.get_or_None row "domain").

Definition snippet_line (row : Csv.row) : bool :=
  has_cells ["name"; "category"; "framework"; "code"; "dependencies"; "props"] row &&
  member_cell Codegen.value Codegen.ComponentCategory_members
              (Csv.get_or_None row "category") &&
  member_cell Codegen.Framework_value Codegen.Framework_members
              (Csv.get_or_None row "framework") &&
  is_text (Csv.get_or_None row "dependencies") &&
  is_text (Csv.get_or_None row "props").

(** The lines that are well-formed: a text under every required column
    and the value of a member in every enum cell. *)
Definition well_formed_landing_line (row : Csv.row) : bool :=
  has_texts ["name"; "description"] row &&
  member_cell Landing.value Landing.LandingCategory_members
              (Csv.get row "category" "classic").

Definition well_formed_ux_line (row : Csv.row) : bool :=
  has_texts ["domain"; "topic"; "best_practice"; "anti_pattern"; "example";
             "impact"; "complexity"] row &&
  member_cell (UXGuide.value ∘ snd) UXGuide.UXDomain_members
              (Csv.get_or_None row "domain").

Definition well_formed_snippet_line (row : Csv.row) : bool :=
  has_texts ["name"; "category"; "framework"; "code"; "dependencies"; "props"] row &&
  member_cell Codegen.value Codegen.ComponentCategory_members
              (Csv.get_or_None row "category") &&
  member_cell Codegen.Framework_value Codegen.Framework_members
              (Csv.get_or_None row "framework").

(** Loading skips the lines that are not [well_formed] and nothing else,
    and does not raise: the store holds exactly the records of the
    well-formed lines. *)
Definition skips_malformed {A} (parse : Csv.row → result A)
    (well_formed : Csv.row → bool) (file : Csv.reader)
    (loaded : result (list A) * list string) : Prop :=
  loaded.1 = Ok (omap (Rows.ok ∘ parse) (List.filter well_formed (Csv.rows file))).

(** What a loader does with a file, for its parser [parse] and the lines
    [accepted] it loads: the records of the accepted lines in file order
    when the file is read to its end, and the exception of the reading
    otherwise; one warning for each other line, in file order, the
    [message] of the loader followed by the text of the exception. *)
Definition loads_lines {A} (parse : Csv.row → result A) (accepted : Csv.row → bool)
    (message : string) (file : Csv.reader) (loaded : result (list A) * list string)
  : Prop :=
  (∀ row, Rows.is_ok (parse row) = accepted row) ∧
  loaded.1 = Csv.outcome file
               (omap (Rows.ok ∘ parse) (List.filter accepted (Csv.rows file))) ∧
  loaded.2 = Rows.warnings message parse (Csv.rows file) ∧
  length loaded.2 = length (List.filter (negb ∘ accepted) (Csv.rows file)).

(** A file of ux_guidelines.csv with one line that lacks its last two
    cells, and one whose reading stops after its first line at a byte that
    is not UTF-8. *)
Definition short_line : Csv.row :=
  list_to_map [("domain", Some "Forms"); ("topic", Some "Labels");
               ("best_practice", Some "Label every field");
               ("anti_pattern", Some "Placeholder as label");
               ("example", Some "Email label above the input");
               ("impact", None); ("complexity", None)].

Definition short_file : Csv.reader :=
  {| Csv.rows := [short_line]; Csv.failure := None |}.

Definition undecodable_file : Csv.reader :=
  {| Csv.rows := [Csv.complete (default ∅ (Rows.ux_sample !! 0%nat))];
     Csv.failure :=
       Some (ValueError "'utf-8' codec can't decode byte 0xff in position 120: invalid start byte") |}.

(** * Properties *)

(** ** Facts about the Python primitives *)

Section loops.
Context {X Y : Type}.

(** A loop that appends [f x] for the elements that pass [P] builds
    the filtered, mapped list. *)
Lemma fold_left_snoc_if (body : list Y → X → list Y) (P : X → bool) (f : X → Y) :
  (∀ acc x, body acc x = if P x then acc ++ [f x] else acc) →
  ∀ l acc, fold_left body l acc = acc ++ map f (List.filter P l).
Proof.
  intros Hbody l. induction l as [|x l IH]; intros acc; simpl.
  - by rewrite app_nil_r.
  - rewrite Hbody, IH. destruct (P x); simpl; [|done].
    by rewrite <- app_assoc.
Qed.

Lemma fold_left_snoc (body : list Y → X → list Y) (f : X → Y) :
  (∀ acc x, body acc x = acc ++ [f x]) →
  ∀ l acc, fold_left body l acc = acc ++ map f l.
Proof.
  intros Hbody l. induction l as [|x l IH]; intros acc; simpl.
  - by rewrite app_nil_r.
  - rewrite Hbody, IH. by rewrite <- app_assoc.
Qed.
End loops.

Section sorting.
Context {A : Type} (key : A → Z).

Lemma insert_by_perm x l : insert_by key x l ≡ₚ x :: l.
Proof.
  induction l as [|y l IH]; simpl; [done|].
  destruct (key x <=? key y); [done|].
  rewrite IH. apply Permutation_swap.
Qed.

Lemma sort_asc_perm l : sort_asc key l ≡ₚ l.
Proof.
  induction l as [|x l IH]; simpl; [done|].
  by rewrite insert_by_perm, IH.
Qed.

Lemma sorted_by_perm reverse l : sorted_by key reverse l ≡ₚ l.
Proof.
  unfold sorted_by. destruct reverse; [|apply sort_asc_perm].
  rewrite <- (Permutation_rev (sort_asc key (rev l))), sort_asc_perm.
  symmetry. apply Permutation_rev.
Qed.

Lemma insert_by_sorted x l :
  StronglySorted (ascending key) l → StronglySorted (ascending key) (insert_by key x l).
Proof.
  induction 1 as [|y l Hl IH Hy]; simpl.
  - repeat constructor.
  - destruct (Z.leb_spec (key x) (key y)) as [Hxy|Hxy].
    + constructor; [by constructor|].
      constructor; [done|].
      eapply Forall_impl; [exact Hy|]. unfold ascending. intros z ?. lia.
    + constructor; [done|].
      rewrite insert_by_perm. constructor; [|done]. unfold ascending. lia.
Qed.

Lemma sort_asc_sorted l : StronglySorted (ascending key) (sort_asc key l).
Proof.
  induction l as [|x l IH]; simpl; [constructor|]. by apply insert_by_sorted.
Qed.

Lemma StronglySorted_rev_flip (R : A → A → Prop) l :
  StronglySorted R l → StronglySorted (flip R) (rev l).
Proof.
  induction 1 as [|x l Hl IH Hx]; simpl; [constructor|].
  apply StronglySorted_app_2; [|done|repeat constructor].
  intros a b Ha Hb. apply list_elem_of_singleton in Hb as ->.
  apply list_elem_of_In, in_rev, list_elem_of_In in Ha. unfold flip.
  rewrite Forall_forall in Hx. by apply Hx.
Qed.

(** With [reverse=True] the keys of the result never increase. *)
Lemma sorted_by_reverse_sorted l :
  StronglySorted (descending key) (sorted_by key true l).
Proof.
  unfold sorted_by. apply (StronglySorted_rev_flip (ascending key)), sort_asc_sorted.
Qed.

(** Stability: the elements of one key keep their input order. *)
Lemma insert_by_stable s x l :
  List.filter (has_key key s) (insert_by key x l) = List.filter (has_key key s) (x :: l).
Proof.
  induction l as [|y l IH]; [done|].
  cbn [insert_by]. destruct (Z.leb_spec (key x) (key y)) as [Hxy|Hxy]; [done|].
  cbn [List.filter] in *. rewrite IH. unfold has_key.
  destruct (Z.eqb_spec (key x) s), (Z.eqb_spec (key y) s); try done. lia.
Qed.

Lemma sort_asc_stable s l :
  List.filter (has_key key s) (sort_asc key l) = List.filter (has_key key s) l.
Proof.
  induction l as [|x l IH]; [done|].
  cbn [sort_asc]. rewrite insert_by_stable. cbn [List.filter]. by rewrite IH.
Qed.

Lemma sorted_by_stable reverse s l :
  List.filter (has_key key s) (sorted_by key reverse l) = List.filter (has_key key s) l.
Proof.
  unfold sorted_by. destruct reverse; [|apply sort_asc_stable].
  by rewrite filter_rev, sort_asc_stable, filter_rev, rev_involutive.
Qed.

Lemma filter_all (P : A → bool) l :
  (∀ x, x ∈ l → P x = true) → List.filter P l = l.
Proof.
  induction l as [|x l IH]; intros H; [done|]. simpl.
  rewrite H by left. f_equal. apply IH. intros y Hy. apply H. by right.
Qed.

(** A key that is the same for every element leaves the list as it is. *)
Lemma sorted_by_constant_key reverse c l :
  (∀ x, x ∈ l → key x = c) → sorted_by key reverse l = l.
Proof.
  intros Hc.
  rewrite <- (filter_all (has_key key c) (sorted_by key reverse l)).
  - rewrite sorted_by_stable. apply filter_all.
    intros x Hx. unfold has_key. apply Z.eqb_eq. by apply Hc.
  - intros x Hx. unfold has_key. apply Z.eqb_eq. apply Hc.
    by rewrite <- (sorted_by_perm reverse l).
Qed.
End sorting.

Section slicing.
Context {A : Type}.

Lemma slice_to_prefix (k : Z) (l : list A) : slice_to k l `prefix_of` l.
Proof. unfold slice_to. destruct (k <? 0); apply prefix_take. Qed.

Lemma slice_to_length (k : Z) (l : list A) :
  0 <= k → (length (slice_to k l) ≤ Z.to_nat k)%nat.
Proof.
  intros Hk. unfold slice_to. destruct (Z.ltb_spec k 0); [lia|].
  rewrite length_take. lia.
Qed.

Lemma slice_to_negative_length (k : Z) (l : list A) :
  k < 0 → length (slice_to k l) = Z.to_nat (Z.of_nat (length l) + k).
Proof.
  intros Hk. unfold slice_to. destruct (Z.ltb_spec k 0); [|lia].
  rewrite length_take. lia.
Qed.

Lemma filter_prefix (P : A → bool) (l1 l2 : list A) :
  l1 `prefix_of` l2 → List.filter P l1 `prefix_of` List.filter P l2.
Proof. intros [k ->]. rewrite List.filter_app. by eexists. Qed.

Lemma StronglySorted_prefix (R : A → A → Prop) (l1 l2 : list A) :
  l1 `prefix_of` l2 → StronglySorted R l2 → StronglySorted R l1.
Proof. intros [k ->] H. by apply StronglySorted_app_1_l in H. Qed.
End slicing.

Section sorting_maps.
Context {A B : Type} (f : A → B) (key : B → Z).

Lemma insert_by_fmap x l :
  insert_by key (f x) (f <$> l) = f <$> insert_by (key ∘ f) x l.
Proof.
  induction l as [|y l IH]; [done|]. cbn.
  destruct (key (f x) <=? key (f y)); [done|]. cbn. by rewrite IH.
Qed.

Lemma sort_asc_fmap l : sort_asc key (f <$> l) = f <$> sort_asc (key ∘ f) l.
Proof.
  induction l as [|x l IH]; [done|]. cbn [sort_asc fmap list_fmap].
  fold (fmap (M:=list) f l). by rewrite IH, insert_by_fmap.
Qed.

(** Sorting decorated elements is decorating the sorted elements. *)
Lemma sorted_by_fmap reverse l :
  sorted_by key reverse (f <$> l) = f <$> sorted_by (key ∘ f) reverse l.
Proof.
  unfold sorted_by. destruct reverse; [|apply sort_asc_fmap].
  change (rev (f <$> l)) with (rev (map f l)).
  rewrite <- map_rev.
  change (map f (rev l)) with (f <$> rev l).
  rewrite sort_asc_fmap.
  change (f <$> sort_asc (key ∘ f) (rev l)) with (map f (sort_asc (key ∘ f) (rev l))).
  by rewrite map_rev.
Qed.

Lemma slice_to_fmap (k : Z) (l : list A) : slice_to k (f <$> l) = f <$> slice_to k l.
Proof.
  unfold slice_to. rewrite length_fmap. destruct (k <? 0); by rewrite fmap_take.
Qed.
End sorting_maps.

Lemma sorted_by_ext {A} (key key' : A → Z) reverse (l : list A) :
  (∀ x, key x = key' x) → sorted_by key reverse l = sorted_by key' reverse l.
Proof.
  intros Hk.
  assert (Hins : ∀ x l, insert_by key x l = insert_by key' x l).
  { intros x l0. induction l0 as [|y l0 IH]; [done|]. cbn. by rewrite !Hk, IH. }
  assert (Hsort : ∀ l, sort_asc key l = sort_asc key' l).
  { intros l0. induction l0 as [|y l0 IH]; [done|]. cbn. by rewrite IH, Hins. }
  unfold sorted_by. destruct reverse; by rewrite Hsort.
Qed.

Section ranked_facts.
Context {A : Type} (score : A → Z).

(** A loop that appends [(x, score x)] for the guarded elements of
    positive score, then a sort on the second component, ranks the
    guarded elements. *)
Lemma scored_loop_ranked (guard : A → bool)
    (body : list (A * Z) → A → list (A * Z)) (l : list A) :
  (∀ acc x, body acc x =
            if guard x && (0 <? score x) then acc ++ [(x, score x)] else acc) →
  (sorted_by snd true (fold_left body l [])).*1 = ranked score (List.filter guard l).
Proof.
  intros Hbody.
  rewrite (fold_left_snoc_if body (λ x, guard x && (0 <? score x))
             (λ x, (x, score x)) Hbody).
  cbn [app].
  change (map ?g ?l0) with (g <$> l0).
  rewrite (sorted_by_fmap (λ x, (x, score x)) snd).
  rewrite <- list_fmap_compose.
  unfold ranked. rewrite (sorted_by_ext (snd ∘ _) score) by done.
  rewrite list_fmap_id. f_equal.
  induction l as [|x l IH]; [done|]. cbn.
  destruct (guard x); cbn; by rewrite IH.
Qed.

Lemma ranked_sorted l : StronglySorted (descending score) (ranked score l).
Proof. apply sorted_by_reverse_sorted. Qed.

Lemma ranked_positive l : Forall (λ x, 0 < score x) (ranked score l).
Proof.
  apply Forall_forall. intros x Hx. unfold ranked in Hx.
  rewrite sorted_by_perm in Hx.
  apply list_elem_of_In, filter_In in Hx as [_ Hx]. lia.
Qed.

Lemma ranked_elem_of x l : x ∈ ranked score l → x ∈ l.
Proof.
  unfold ranked. rewrite sorted_by_perm.
  intros Hx. apply list_elem_of_In, filter_In in Hx as [Hx _].
  by apply list_elem_of_In.
Qed.

(** Among the records of one score, the ranking keeps the store order. *)
Lemma ranked_stable s l :
  List.filter (has_key score s) (ranked score l) =
  if 0 <? s then List.filter (has_key score s) l else [].
Proof.
  unfold ranked. rewrite sorted_by_stable.
  induction l as [|x l IH]; [by destruct (0 <? s)|].
  cbn [List.filter]. unfold has_key in *.
  destruct (Z.ltb_spec 0 (score x)), (Z.eqb_spec (score x) s), (Z.ltb_spec 0 s);
    cbn [List.filter]; try lia;
    repeat match goal with
           | |- context [score x =? s] => destruct (Z.eqb_spec (score x) s); try lia
           end;
    by rewrite ?IH.
Qed.

Lemma ranked_stable_prefix s l r :
  r `prefix_of` ranked score l →
  List.filter (has_key score s) r `prefix_of` List.filter (has_key score s) l.
Proof.
  intros Hr. apply (filter_prefix (has_key score s)) in Hr.
  rewrite ranked_stable in Hr. destruct (0 <? s); [done|].
  destruct Hr as [k Hk]. apply eq_sym, app_eq_nil in Hk as [-> _].
  apply prefix_nil.
Qed.
End ranked_facts.

(** ** The engines *)

(** *** Landing patterns *)

Lemma Landing_search_ranked patterns query max_results :
  Landing.search patterns query max_results =
  slice_to max_results (ranked (Landing.score (lower query)) patterns).
Proof.
  unfold Landing.search. rewrite <- slice_to_fmap.
  rewrite (scored_loop_ranked (Landing.score (lower query)) (λ _, true)).
  - f_equal. f_equal. apply filter_all. done.
  - intros acc x. cbn. done.
Qed.

(** The query "minimal" on the default store: the name match (10), the
    category match (5) and the keyword match (3) put "Minimal Single CTA"
    first, and "Hero + Features" has no match at all. *)
Example Landing_search_minimal :
  Landing.name <$> Landing.search Landing._get_default_patterns "minimal" 5
    = ["Minimal Single CTA"] ∧
  Landing.score "minimal" <$> Landing._get_default_patterns = [0; 18].
Proof. by vm_compute. Qed.

(** The empty query is contained in every string: every pattern matches. *)
Example Landing_search_empty_query :
  Landing.name <$> Landing.search Landing._get_default_patterns "" 5
    = ["Hero + Features"; "Minimal Single CTA"] ∧
  Landing.score "" <$> Landing._get_default_patterns = [33; 33].
Proof. by vm_compute. Qed.

(** *** Component snippets *)

Lemma Codegen_search_components_ranked snippets query framework category :
  Codegen.search_components snippets query framework category =
  ranked (Codegen.score (lower query))
         (List.filter (Codegen.passes framework category) snippets).
Proof.
  unfold Codegen.search_components.
  apply (scored_loop_ranked (Codegen.score (lower query))).
  intros acc x. by destruct (Codegen.passes framework category x).
Qed.

(** *** Tech-stack practices *)

Lemma TechStack_search_practices_filtered practices stack query category max_results :
  TechStack.search_practices practices stack query category max_results =
  recommendation_of <$>
    slice_to max_results
      (List.filter (TechStack.kept (lower stack) query category) practices).
Proof.
  unfold TechStack.search_practices.
  rewrite (fold_left_snoc _ recommendation_of) by done.
  rewrite (fold_left_snoc_if _ (TechStack.kept (lower stack) query category) id) by done.
  cbn [app]. by rewrite map_id.
Qed.

(** *** UX guidelines *)

Lemma UXGuide_determine_priority_raises guideline :
  UXGuide._determine_priority guideline = Raise (AttributeError "A11y").
Proof. reflexivity. Qed.

Lemma UXGuide_search_loop_cases query domain guidelines acc :
  UXGuide.search_loop (lower query) domain guidelines acc =
  if existsb (matched query domain) guidelines
  then Raise (AttributeError "A11y") else Ok acc.
Proof.
  revert acc. induction guidelines as [|g gs IH]; intros acc; [done|].
  cbn [UXGuide.search_loop existsb]. unfold matched at 1.
  destruct (UXGuide.in_domain domain g); cbn [negb andb orb]; [|apply IH].
  destruct (0 <? UXGuide.score (lower query) g); cbn [orb]; [done|apply IH].
Qed.

(** [search] raises as soon as one guideline matches, and returns the empty
    list otherwise. *)
Lemma UXGuide_search_cases guidelines query domain max_results :
  UXGuide.search guidelines query domain max_results =
  if existsb (matched query domain) guidelines
  then Raise (AttributeError "A11y") else Ok [].
Proof.
  unfold UXGuide.search. rewrite UXGuide_search_loop_cases.
  destruct (existsb _ _); [reflexivity|].
  cbn. unfold slice_to. destruct (max_results <? 0); cbn; by rewrite take_nil.
Qed.

Lemma UXGuide_search_matched_raises guidelines query domain max_results guideline :
  guideline ∈ guidelines →
  matched query domain guideline = true →
  UXGuide.search guidelines query domain max_results = Raise (AttributeError "A11y").
Proof.
  intros Hin Hm. rewrite UXGuide_search_cases.
  destruct (existsb _ _) eqn:Hex; [done|].
  apply not_true_iff_false in Hex. exfalso. apply Hex.
  apply existsb_exists. exists guideline. split; [by apply list_elem_of_In|done].
Qed.

(** *** Performance tips *)

Lemma TechStack_tips_loop_filter performance_tips stack_lower impact effort :
  TechStack.tips_loop performance_tips stack_lower impact effort =
  (List.filter (tip_kept stack_lower impact effort) performance_tips,
   last performance_tips).
Proof.
  unfold TechStack.tips_loop.
  assert (Hgen : ∀ l acc (seen : list TechStack.PerformanceTip),
    fold_left
      (λ '(tips, _) tip,
         if negb (String.eqb (lower (TechStack.TechStack_value (TechStack.tip_stack tip)))
                             stack_lower)
         then (tips, Some tip)
         else if truthy impact &&
                 negb (String.eqb (lower (TechStack.impact tip)) (lower (default "" impact)))
         then (tips, Some tip)
         else if truthy effort &&
                 negb (String.eqb (lower (TechStack.effort tip)) (lower (default "" effort)))
         then (tips, Some tip)
         else (tips ++ [tip], Some tip))
      l (acc, last seen) =
    (acc ++ List.filter (tip_kept stack_lower impact effort) l, last (seen ++ l))).
  { induction l as [|tip l IH]; intros acc seen.
    - cbn. by rewrite !app_nil_r.
    - cbn [fold_left List.filter]. unfold tip_kept at 1.
      replace (seen ++ tip :: l) with ((seen ++ [tip]) ++ l) by by rewrite <- app_assoc.
      destruct (String.eqb _ stack_lower); cbn [negb andb];
        [|rewrite <- (last_snoc tip seen); apply IH].
      destruct (truthy impact && _); cbn [negb andb];
        [rewrite <- (last_snoc tip seen); apply IH|].
      destruct (truthy effort && _); cbn [negb andb];
        [rewrite <- (last_snoc tip seen); apply IH|].
      rewrite <- (last_snoc tip seen), IH. by rewrite <- app_assoc. }
  exact (Hgen performance_tips [] []).
Qed.

Lemma mapM_constant_key {A} (c : Z) (l : list A) :
  mapM (λ _ : A, Ok c) l = Ok (replicate (length l) c).
Proof. induction l as [|x l IH]; [done|]. cbn. by rewrite IH. Qed.

(** Sorting with a key that returns the same value for every element. *)
Lemma sort_with_constant_key {A} (c : Z) reverse (l : list A) :
  sort_with (λ _, Ok c) reverse l = Ok l.
Proof.
  unfold sort_with. rewrite mapM_constant_key. cbn.
  rewrite (sorted_by_constant_key snd reverse c).
  - by rewrite fst_zip by by rewrite length_replicate.
  - intros [x k] Hx. apply (list_elem_of_fmap_2 snd) in Hx.
    rewrite snd_zip in Hx by by rewrite length_replicate.
    by apply elem_of_replicate in Hx as [-> _].
Qed.

Lemma TechStack_get_performance_tips_filter performance_tips stack impact effort :
  TechStack.get_performance_tips performance_tips stack impact effort =
  Ok (List.filter (tip_kept (lower stack) impact effort) performance_tips).
Proof.
  unfold TechStack.get_performance_tips. rewrite TechStack_tips_loop_filter.
  destruct (last performance_tips) as [tip|] eqn:Hlast.
  - apply sort_with_constant_key.
  - apply last_None in Hlast as ->. reflexivity.
Qed.

(** * The claims *)

(** C1.  [UXGuideEngine.search] does not produce the priority of a matched
    guideline: [_determine_priority] reads [UXDomain.A11y], the enum member
    is named [A11Y], and the lookup raises [AttributeError] for every
    guideline.  On the default store the query "color" matches the A11y
    guideline (score 10) and [search] raises instead of returning the
    recommendation with priority "critical". *)
Theorem C1_search_raises_on_matched_guideline :
  existsb (matched "color" None) UXGuide._get_default_guidelines = true ∧
  UXGuide.search UXGuide._get_default_guidelines "color" None 5
    = Raise (AttributeError "A11y") ∧
  ∀ guideline, UXGuide._determine_priority guideline = Raise (AttributeError "A11y").
Proof. split; [|split]; [by vm_compute | by vm_compute | done]. Qed.

(** C2.  A [TechStackEngine] built without tech_patterns.csv does not get
    the default pattern list: the second [TechPattern(...)] call of
    [_get_default_patterns] passes [pros[...]] and [cons[...]] as
    positional arguments after keyword arguments, a [SyntaxError]. *)
Theorem C2_default_patterns_fail practices_csv performance_csv :
  TechStack._load_data
    {| TechStack.tech_practices_csv := practices_csv;
       TechStack.tech_patterns_csv := None;
       TechStack.tech_performance_csv := performance_csv |}
  = Raise (SyntaxError "positional argument follows keyword argument").
Proof.
  unfold TechStack._load_data. cbn [TechStack.tech_practices_csv
    TechStack.tech_patterns_csv TechStack.tech_performance_csv].
  destruct practices_csv as [rows|];
    [destruct (TechStack._load_practices rows [] [])|]; reflexivity.
Qed.

(** The other three engines do fall back to a non-empty default store
    without printing a warning. *)
Lemma default_stores_of_the_other_engines :
  (Landing._load_patterns None = (Landing._get_default_patterns, []) ∧
   length Landing._get_default_patterns = 2%nat) ∧
  (Codegen._load_snippets None = (Codegen._get_default_snippets, []) ∧
   length Codegen._get_default_snippets = 3%nat) ∧
  (UXGuide._load_guidelines None = (UXGuide._get_default_guidelines, []) ∧
   length UXGuide._get_default_guidelines = 3%nat).
Proof. done. Qed.

(** Their default records have a complexity among low, medium, high. *)
Lemma default_stores_complexity :
  Forall (λ p, in_list (Landing.complexity p) ["low"; "medium"; "high"] = true)
         Landing._get_default_patterns ∧
  Forall (λ g, in_list (UXGuide.complexity g) ["low"; "medium"; "high"] = true)
         UXGuide._get_default_guidelines ∧
  Forall (λ p, in_list (TechStack.complexity p) ["low"; "medium"; "high"] = true)
         TechStack._get_default_practices.
Proof. repeat split; repeat constructor. Qed.

(** What the body of [get_performance_tips] computes, as it is written:
    the key of the final sort reads the loop variable [tip], not its
    argument, so every element gets the same key and the stable sort moves
    nothing.  On a store with a medium-impact React tip before a
    high-impact one the body keeps medium before high. *)
Lemma get_performance_tips_body_keeps_the_order :
  (∀ performance_tips stack impact effort,
     TechStack.get_performance_tips performance_tips stack impact effort =
     Ok (List.filter (tip_kept (lower stack) impact effort) performance_tips)) ∧
  (TechStack.impact <$> Samples.react_tips = ["medium"; "high"] ∧
   TechStack.get_performance_tips Samples.react_tips "React" None None =
   Ok Samples.react_tips).
Proof.
  split; [apply TechStack_get_performance_tips_filter|]. by vm_compute.
Qed.

(** C5.  [TechStackEngine.get_performance_tips] returns nothing.
    tech_stack.py does not compile: the second [TechPattern(...)] call of
    [_get_default_patterns] has positional arguments after keyword
    arguments.  So the import of the module raises [SyntaxError], no
    engine is built, whatever data files there are, and no call of
    [get_performance_tips] is reached. *)
Theorem C5_performance_tips_are_never_returned dir stack impact effort :
  tech_stack.import_module
    = Raise (SyntaxError "positional argument follows keyword argument") ∧
  tech_stack.TechStackEngine dir
    = Raise (SyntaxError "positional argument follows keyword argument") ∧
  tech_stack.get_performance_tips dir stack impact effort
    = Raise (SyntaxError "positional argument follows keyword argument").
Proof. by split; [|split]. Qed.

(** What the body of [search_practices] computes, as it is written: it
    has no sort, and with the query "load" the two React practices of
    [Samples.react_practices], which score 5 and 10, come in that order. *)
Lemma search_practices_body_does_not_sort :
  (TechStack.score (lower "load") ∘ TechStack.rec_practice) <$>
    TechStack.search_practices Samples.react_practices "React" (Some "load") None 5
    = [5; 10] ∧
  ¬ StronglySorted (descending (TechStack.score (lower "load") ∘ TechStack.rec_practice))
      (TechStack.search_practices Samples.react_practices "React" (Some "load") None 5).
Proof.
  split; [by vm_compute|].
  intros H. apply StronglySorted_inv in H as [_ H].
  apply Forall_inv in H. vm_compute in H. by apply H.
Qed.

(** C3.  [LandingPatternGenerator.search] and
    [CodeGenerator.search_components] return their results sorted by
    non-increasing score, and every returned record has a positive score.
    The other two searches return no ranked result.
    [UXGuideEngine.search] raises [AttributeError] as soon as one
    guideline matches, and returns the empty list otherwise: on the
    default store the query "images" raises.  And no call of
    [TechStackEngine.search_practices] is reached, since the import of
    tech_stack.py raises [SyntaxError]. *)
Theorem C3_two_searches_return_no_ranking :
  (∀ patterns query max_results,
     let result := Landing.search patterns query max_results in
     StronglySorted (descending (Landing.score (lower query))) result ∧
     Forall (λ p, 0 < Landing.score (lower query) p) result) ∧
  (∀ snippets query framework category,
     let result := Codegen.search_components snippets query framework category in
     StronglySorted (descending (Codegen.score (lower query))) result ∧
     Forall (λ s, 0 < Codegen.score (lower query) s) result) ∧
  (∀ guidelines query domain max_results,
     UXGuide.search guidelines query domain max_results
     = if existsb (matched query domain) guidelines
       then Raise (AttributeError "A11y") else Ok []) ∧
  UXGuide.search UXGuide._get_default_guidelines "images" None 5
    = Raise (AttributeError "A11y") ∧
  (∀ dir stack query category max_results,
     tech_stack.search_practices dir stack query category max_results
     = Raise (SyntaxError "positional argument follows keyword argument")).
Proof.
  split; [|split; [|split; [|split]]].
  - intros patterns query k result. subst result.
    rewrite Landing_search_ranked. split.
    + eapply StronglySorted_prefix; [apply slice_to_prefix|apply ranked_sorted].
    + destruct (slice_to_prefix k (ranked (Landing.score (lower query)) patterns))
        as [rest Hrest].
      pose proof (ranked_positive (Landing.score (lower query)) patterns) as H.
      rewrite Hrest in H. by apply Forall_app in H as [H _].
  - intros snippets query framework category result. subst result.
    rewrite Codegen_search_components_ranked. split.
    + apply ranked_sorted.
    + apply ranked_positive.
  - apply UXGuide_search_cases.
  - by vm_compute.
  - done.
Qed.

(** C4, as stated, fails twice.  [search_components] takes no cap and
    returns all six matching snippets of a six-row store; and with
    [max_results = -1] the slice [[:max_results]] of [search] keeps all
    matches but the last, here one pattern, where a cap of -1 allows
    none. *)
Lemma C4_cap_exceeded :
  length (Codegen.search_components Samples.six_buttons "button" None None) = 6%nat ∧
  length (Landing.search Landing._get_default_patterns "" (-1)) = 1%nat ∧
  ¬ (Z.of_nat (length (Landing.search Landing._get_default_patterns "" (-1)))
     <= Z.max 0 (-1)).
Proof.
  split; [by vm_compute|]. split; [by vm_compute|].
  vm_compute. intros H. by apply H.
Qed.

(** C4, amended.  For a cap [max_results >= 0], [LandingPatternGenerator.search],
    [TechStackEngine.search_practices] and [UXGuideEngine.search] (when it
    returns) return at most [max_results] records.
    [CodeGenerator.search_components] has no cap: it returns every snippet
    that passes the filters with a positive score. *)
Theorem C4_capped_by_slice max_results :
  0 <= max_results →
  (∀ patterns query,
     Z.of_nat (length (Landing.search patterns query max_results)) <= max_results) ∧
  (∀ practices stack query category,
     Z.of_nat (length (TechStack.search_practices practices stack query category
                         max_results)) <= max_results) ∧
  (∀ guidelines query domain,
     match UXGuide.search guidelines query domain max_results with
     | Ok result => Z.of_nat (length result) <= max_results
     | Raise _ => True
     end) ∧
  (∀ snippets query framework category,
     Codegen.search_components snippets query framework category ≡ₚ
     List.filter (λ s, 0 <? Codegen.score (lower query) s)
                 (List.filter (Codegen.passes framework category) snippets)).
Proof.
  intros Hk. repeat split.
  - intros patterns query. rewrite Landing_search_ranked.
    pose proof (slice_to_length max_results
                  (ranked (Landing.score (lower query)) patterns) Hk). lia.
  - intros practices stack query category.
    rewrite TechStack_search_practices_filtered, length_fmap.
    pose proof (slice_to_length max_results
                  (List.filter (TechStack.kept (lower stack) query category) practices)
                  Hk). lia.
  - intros guidelines query domain. rewrite UXGuide_search_cases.
    destruct (existsb _ _); [done|]. cbn. lia.
  - intros snippets query framework category.
    rewrite Codegen_search_components_ranked. apply sorted_by_perm.
Qed.

(** C4, amended, at the cap 5 on the default landing patterns. *)
Lemma C4_capped_by_slice_witness :
  0 <= 5 ∧
  Z.of_nat (length (Landing.search Landing._get_default_patterns "" 5)) <= 5.
Proof.
  split; [lia|].
  apply (C4_capped_by_slice 5); lia.
Defined.

(** With a negative cap the slice drops the last [-max_results] matches. *)
Lemma Landing_search_negative_cap patterns query max_results :
  max_results < 0 →
  length (Landing.search patterns query max_results) =
  Z.to_nat (Z.of_nat (length (ranked (Landing.score (lower query)) patterns))
            + max_results).
Proof.
  intros Hk. rewrite Landing_search_ranked. by apply slice_to_negative_length.
Qed.

(** C9.  Among the records of one score, the results of a search keep the
    store order: for every score [s], the records of score [s] in the
    result are an initial segment of the records of score [s] in the store
    (in the candidates that pass the filters, where the search has any).
    [search_practices] does not sort at all and keeps the store order of
    all its results. *)
Theorem C9_equal_scores_keep_store_order :
  (∀ patterns query max_results s,
     List.filter (has_key (Landing.score (lower query)) s)
                 (Landing.search patterns query max_results)
     `prefix_of` List.filter (has_key (Landing.score (lower query)) s) patterns) ∧
  (∀ snippets query framework category s,
     List.filter (has_key (Codegen.score (lower query)) s)
                 (Codegen.search_components snippets query framework category)
     `prefix_of`
     List.filter (has_key (Codegen.score (lower query)) s)
                 (List.filter (Codegen.passes framework category) snippets)) ∧
  (∀ practices stack query category max_results,
     TechStack.rec_practice <$>
       TechStack.search_practices practices stack query category max_results
     `prefix_of`
     List.filter (TechStack.kept (lower stack) query category) practices) ∧
  (∀ guidelines query domain max_results s,
     match UXGuide.search guidelines query domain max_results with
     | Ok result =>
         List.filter (has_key (UXGuide.score (lower query)) s)
                     (UXGuide.guideline <$> result)
         `prefix_of`
         List.filter (has_key (UXGuide.score (lower query)) s) guidelines
     | Raise _ => True
     end).
Proof.
  repeat split.
  - intros patterns query k s. rewrite Landing_search_ranked.
    apply ranked_stable_prefix, slice_to_prefix.
  - intros snippets query framework category s.
    rewrite Codegen_search_components_ranked.
    by apply ranked_stable_prefix.
  - intros practices stack query category k.
    rewrite TechStack_search_practices_filtered, <- list_fmap_compose.
    match goal with
    | |- ?f <$> ?l `prefix_of` _ => replace (f <$> l) with l by (symmetry; apply list_fmap_id)
    end.
    apply slice_to_prefix.
  - intros guidelines query domain k s. rewrite UXGuide_search_cases.
    destruct (existsb _ _); [done|]. apply prefix_nil.
Qed.

(** *** The goal routing of landing patterns *)

Lemma Landing_get_pattern_first patterns n :
  match Landing.get_pattern patterns n with
  | Some p => Routing.first_named patterns n p
  | None => Routing.absent patterns n
  end.
Proof.
  induction patterns as [|q patterns IH]; cbn [Landing.get_pattern].
  - constructor.
  - destruct (String.eqb_spec (lower (Landing.name q)) (lower n)) as [Heq|Hne].
    + exists [], patterns. by repeat split.
    + destruct (Landing.get_pattern patterns n) as [p|].
      * destruct IH as (before & after & -> & Hname & Hbefore).
        exists (q :: before), after. repeat split; [done|]. by constructor.
      * by constructor.
Qed.

Lemma Landing_or_else_routed patterns preferred fallback :
  Routing.routed patterns preferred (Some fallback)
    (or_else (Landing.get_pattern patterns preferred)
             (Landing.get_pattern patterns fallback)).
Proof.
  pose proof (Landing_get_pattern_first patterns preferred) as Hp.
  pose proof (Landing_get_pattern_first patterns fallback) as Hf.
  unfold Routing.routed, or_else.
  destruct (Landing.get_pattern patterns preferred) as [p|]; [by left|].
  destruct (Landing.get_pattern patterns fallback) as [p|]; [by right|done].
Qed.

Lemma Landing_get_pattern_routed patterns preferred :
  Routing.routed patterns preferred None (Landing.get_pattern patterns preferred).
Proof.
  pose proof (Landing_get_pattern_first patterns preferred) as Hp.
  unfold Routing.routed.
  destruct (Landing.get_pattern patterns preferred) as [p|]; [by left|done].
Qed.

(** C6, as stated, fails: the goal "signup now" contains the goal word
    "signup" and the default store has "Minimal Single CTA", but [recommend]
    compares the whole goal with the goal words and, for a product type
    outside its list, returns the default "Hero + Features". *)
Lemma C6_goal_containing_a_goal_word :
  str_in "signup" (lower "signup now") = true ∧
  Landing.name <$> Landing.get_pattern Landing._get_default_patterns "Minimal Single CTA"
    = Some "Minimal Single CTA" ∧
  Landing.name <$> Landing.recommend Landing._get_default_patterns "Mobile" "signup now" "B2C"
    = Some "Hero + Features".
Proof. by vm_compute. Qed.

(** C6, amended.  [recommend] follows the fixed table
    [Routing.decision_table], in which a goal word selects its row when the
    lower-cased goal is equal to it (containment is used for "pricing"
    only): the result is the first pattern with the preferred name; if that
    name is absent and the row has a fallback name, the first pattern with
    the fallback name; and [None] when neither is in the store.  The rows
    for "pricing" and for no match have no fallback.  In particular
    [recommend(goal="signup", product_type="SaaS")] returns the pattern named
    "Minimal Single CTA" if present, else the one named "Hero + Features". *)
Theorem C6_recommend_follows_table :
  (∀ patterns product_type goal audience,
     Routing.routed patterns
       (Routing.decision_table (lower goal) (lower product_type)).1
       (Routing.decision_table (lower goal) (lower product_type)).2
       (Landing.recommend patterns product_type goal audience)) ∧
  (∀ patterns audience,
     Routing.routed patterns "Minimal Single CTA" (Some "Hero + Features")
       (Landing.recommend patterns "SaaS" "signup" audience)).
Proof.
  split.
  - intros patterns product_type goal audience.
    unfold Landing.recommend, Routing.decision_table.
    repeat match goal with
           | |- context [if ?b then _ else _] => destruct b
           end;
      cbn [fst snd];
      first [apply Landing_or_else_routed | apply Landing_get_pattern_routed].
  - intros patterns audience. apply Landing_or_else_routed.
Qed.

(** *** Quick wins *)

Lemma UXGuide_quick_wins_of_filter guidelines :
  UXGuide.quick_wins_of guidelines = quick_win_of <$> List.filter is_quick_win guidelines.
Proof.
  unfold UXGuide.quick_wins_of.
  rewrite (fold_left_snoc_if _ is_quick_win quick_win_of); [done|].
  intros acc g. unfold is_quick_win.
  destruct (String.eqb _ "low"); cbn [andb]; [|done].
  by destruct (in_list _ _).
Qed.

Section groups.
Implicit Types (G : UXGuide.groups) (d : UXGuide.UXDomain).

Lemma groups_get_set G d d' l :
  UXGuide.groups_get (UXGuide.groups_set G d l) d' =
  if decide (d = d') then l else UXGuide.groups_get G d'.
Proof.
  induction G as [|[k l'] G IH]; cbn.
  - repeat case_decide; congruence.
  - destruct (decide (k = d)) as [->|Hkd]; cbn.
    + repeat case_decide; congruence.
    + rewrite IH. repeat case_decide; congruence.
Qed.

Lemma groups_set_keys G d l :
  (UXGuide.groups_set G d l).*1 = if decide (d ∈ G.*1) then G.*1 else G.*1 ++ [d].
Proof.
  induction G as [|[k l'] G IH]; cbn.
  - case_decide as H; [by apply elem_of_nil in H|done].
  - destruct (decide (k = d)) as [->|Hkd]; cbn.
    + rewrite decide_True by left. done.
    + rewrite IH. destruct (decide (d ∈ G.*1)) as [Hin|Hnin].
      * rewrite decide_True by by right. done.
      * rewrite decide_False; [done|].
        intros [?|?]%elem_of_cons; congruence.
Qed.

Lemma groups_set_keys_NoDup G d l : NoDup G.*1 → NoDup (UXGuide.groups_set G d l).*1.
Proof.
  intros HG. rewrite groups_set_keys. case_decide as Hd; [done|].
  apply NoDup_app. repeat split; [done| |apply NoDup_singleton].
  intros x Hx ->%list_elem_of_singleton. done.
Qed.

Lemma group_by_domain_ok (P : UXGuide.UXRecommendation → Prop) quick_wins :
  Forall P quick_wins →
  groups_hold P (UXGuide.group_by_domain quick_wins) ∧
  NoDup (UXGuide.group_by_domain quick_wins).*1.
Proof.
  unfold UXGuide.group_by_domain. intros HP.
  assert (Hgen : ∀ G, groups_hold P G → NoDup G.*1 →
    let G' := fold_left
      (λ domain_groups rec,
         let d := UXGuide.domain (UXGuide.guideline rec) in
         UXGuide.groups_set domain_groups d
           (UXGuide.groups_get domain_groups d ++ [rec]))
      quick_wins G in
    groups_hold P G' ∧ NoDup G'.*1).
  { induction HP as [|rec l Hrec Hl IH]; intros G HG Hnd; [done|].
    cbn [fold_left]. apply IH.
    - intros d. rewrite groups_get_set. case_decide as Hd; [|apply HG].
      apply Forall_app. split; [subst d; apply HG|]. by repeat constructor.
    - by apply groups_set_keys_NoDup. }
  apply Hgen; [|constructor]. intros d. constructor.
Qed.

Lemma draw_ok (P : UXGuide.UXRecommendation → Prop) max_results domains G result :
  groups_hold P G →
  NoDup domains →
  Forall P result →
  NoDup (UXGuide.domain ∘ UXGuide.guideline <$> result) →
  (∀ d, d ∈ domains → d ∉ UXGuide.domain ∘ UXGuide.guideline <$> result) →
  let out := UXGuide.draw max_results domains G result in
  Forall P out ∧
  NoDup (UXGuide.domain ∘ UXGuide.guideline <$> out) ∧
  (length out ≤ length result `max` Z.to_nat max_results)%nat.
Proof.
  revert G result.
  induction domains as [|d domains IH]; intros G result HG Hnd HP Hres Hfresh; cbn.
  - repeat split; [done..|lia].
  - destruct (Z.ltb_spec (Z.of_nat (length result)) max_results) as [Hlt|Hge];
      [|repeat split; [done..|lia]].
    apply NoDup_cons in Hnd as [Hd Hnd].
    pose proof (HG d) as HGd.
    destruct (UXGuide.groups_get G d) as [|rec rest] eqn:Hget.
    + apply IH; [done..|]. intros d' Hd'. apply Hfresh. by right.
    + apply Forall_cons in HGd as [[Hdom Hrec] Hrest].
      edestruct (IH (UXGuide.groups_set G d rest) (result ++ [rec]))
        as (H1 & H2 & H3).
      * intros d'. rewrite groups_get_set. case_decide as Hdd; [by subst d'|apply HG].
      * done.
      * apply Forall_app. by repeat constructor.
      * rewrite fmap_app. apply NoDup_app. repeat split; [done| |apply NoDup_singleton].
        intros x Hx ->%list_elem_of_singleton. cbn in Hx. rewrite Hdom in Hx.
        by apply (Hfresh d); [left|].
      * intros d' Hd'. rewrite fmap_app. cbn. rewrite Hdom.
        intros [Hin|Heq]%elem_of_app.
        { by apply (Hfresh d'); [right|]. }
        apply list_elem_of_singleton in Heq as ->. done.
      * repeat split; [done..|]. rewrite length_app in H3. cbn in H3. lia.
Qed.
End groups.

(** C7.  Whatever permutation of the group keys [random.shuffle] produces,
    [get_quick_wins] returns at most [max_results] recommendations (none for
    a cap below 1), each built from a guideline of the store with complexity
    "low" and derived user impact "high" or "medium", and no two of them
    share a domain. *)
Theorem C7_quick_wins (shuffle : list UXGuide.UXDomain → list UXGuide.UXDomain)
    guidelines max_results :
  (∀ domains, shuffle domains ≡ₚ domains) →
  let result := UXGuide.get_quick_wins shuffle guidelines max_results in
  (length result ≤ Z.to_nat max_results)%nat ∧
  Forall (λ rec,
            UXGuide.guideline rec ∈ guidelines ∧
            UXGuide.complexity (UXGuide.guideline rec) = "low" ∧
            UXGuide.user_impact rec = UXGuide._determine_user_impact (UXGuide.guideline rec) ∧
            (UXGuide.user_impact rec = "high" ∨ UXGuide.user_impact rec = "medium"))
         result ∧
  NoDup (UXGuide.domain ∘ UXGuide.guideline <$> result).
Proof.
  intros Hshuffle result. subst result. unfold UXGuide.get_quick_wins.
  set (P := λ rec : UXGuide.UXRecommendation,
              UXGuide.guideline rec ∈ guidelines ∧
              UXGuide.complexity (UXGuide.guideline rec) = "low" ∧
              UXGuide.user_impact rec = UXGuide._determine_user_impact (UXGuide.guideline rec) ∧
              (UXGuide.user_impact rec = "high" ∨ UXGuide.user_impact rec = "medium")).
  assert (HP : Forall P (UXGuide.quick_wins_of guidelines)).
  { rewrite UXGuide_quick_wins_of_filter. apply Forall_fmap, Forall_forall.
    intros g Hg. apply list_elem_of_In, filter_In in Hg as [Hin Hqw].
    unfold is_quick_win in Hqw. apply andb_true_iff in Hqw as [Hlow Himpact].
    apply String.eqb_eq in Hlow.
    repeat split; [by apply list_elem_of_In|done|].
    cbn. unfold in_list in Himpact. cbn in Himpact.
    destruct (String.eqb_spec (UXGuide._determine_user_impact g) "high"); [by left|].
    destruct (String.eqb_spec (UXGuide._determine_user_impact g) "medium"); [by right|].
    done. }
  destruct (group_by_domain_ok P _ HP) as [HG Hkeys].
  destruct (draw_ok P max_results
              (shuffle (UXGuide.group_by_domain (UXGuide.quick_wins_of guidelines)).*1)
              (UXGuide.group_by_domain (UXGuide.quick_wins_of guidelines)) [])
    as (H1 & H2 & H3); [done| |constructor|constructor| |].
  - by rewrite Hshuffle.
  - intros d _ Hd. by apply elem_of_nil in Hd.
  - repeat split; [|done..]. cbn in H3. lia.
Qed.

(** C7 with the reversal of the keys as the shuffle, on the default
    guidelines and the cap 5. *)
Lemma C7_quick_wins_witness :
  (∀ domains : list UXGuide.UXDomain, rev domains ≡ₚ domains) ∧
  (length (UXGuide.get_quick_wins (@rev _) UXGuide._get_default_guidelines 5) ≤ Z.to_nat 5)%nat.
Proof.
  split.
  - intros domains. symmetry. apply Permutation_rev.
  - apply (C7_quick_wins (@rev _) UXGuide._get_default_guidelines 5).
    intros domains. symmetry. apply Permutation_rev.
Defined.

(** *** Loading rows *)

Import Rows.

Lemma is_Some_bool {A} (o : option A) :
  bool_decide (is_Some o) = match o with Some _ => true | None => false end.
Proof.
  destruct o.
  - apply bool_decide_eq_true_2. by eexists.
  - apply bool_decide_eq_false_2. by intros [? ?].
Qed.

Lemma find_is_Some_existsb {A} (f : A → bool) (l : list A) :
  bool_decide (is_Some (List.find f l)) = existsb f l.
Proof.
  rewrite is_Some_bool.
  induction l as [|x l IH]; [done|]. cbn. by destruct (f x).
Qed.

Lemma getitem_is_ok row k : is_ok (getitem row k) = bool_decide (is_Some (row !! k)).
Proof. rewrite is_Some_bool. unfold getitem. by destruct (row !! k). Qed.

Lemma LandingCategory_of_is_ok v :
  is_ok (Landing.LandingCategory_of v) =
  known Landing.value Landing.LandingCategory_members v.
Proof.
  unfold Landing.LandingCategory_of, known. rewrite <- find_is_Some_existsb, is_Some_bool.
  by destruct (List.find _ _).
Qed.

Lemma UXDomain_of_is_ok v :
  is_ok (UXGuide.UXDomain_of v) =
  known (UXGuide.value ∘ snd) UXGuide.UXDomain_members v.
Proof.
  unfold UXGuide.UXDomain_of, known. rewrite <- find_is_Some_existsb, is_Some_bool.
  by destruct (List.find _ _).
Qed.

Lemma TechStack_of_is_ok v :
  is_ok (TechStack.TechStack_of v) =
  known TechStack.TechStack_value TechStack.TechStack_members v.
Proof.
  unfold TechStack.TechStack_of, known. rewrite <- find_is_Some_existsb, is_Some_bool.
  by destruct (List.find _ _).
Qed.

Lemma PracticeCategory_of_is_ok v :
  is_ok (TechStack.PracticeCategory_of v) =
  known TechStack.value TechStack.PracticeCategory_members v.
Proof.
  unfold TechStack.PracticeCategory_of, known. rewrite <- find_is_Some_existsb, is_Some_bool.
  by destruct (List.find _ _).
Qed.

(** Case analysis on the cells a parser reads. *)
Ltac cells row :=
  repeat match goal with
         | |- context [row !! ?k] =>
             let v := fresh "cell" in
             let H := fresh "Hcell" in
             destruct (row !! k) as [v|] eqn:H; cbn
         end.

Lemma Landing_parse_pattern_well_formed row :
  is_ok (Landing.parse_pattern_body row) = landing_row row.
Proof.
  unfold Landing.parse_pattern_body, landing_row, has_columns.
  rewrite <- LandingCategory_of_is_ok.
  cbn [forallb]. rewrite <- !getitem_is_ok. unfold getitem.
  destruct (row !! "name"); cbn; [|done].
  destruct (Landing.LandingCategory_of _); cbn; [|by rewrite andb_false_r].
  by destruct (row !! "description").
Qed.

Lemma UXGuide_parse_guideline_well_formed row :
  is_ok (UXGuide.parse_guideline row) = ux_row row.
Proof.
  unfold UXGuide.parse_guideline, ux_row, has_columns, known_cell.
  cbn [forallb]. rewrite <- !getitem_is_ok. unfold getitem.
  destruct (row !! "domain") as [v|]; [|done].
  rewrite <- UXDomain_of_is_ok. cbn -[UXGuide.UXDomain_of].
  destruct (UXGuide.UXDomain_of v); cbn; [|by rewrite !andb_false_r].
  cells row; done.
Qed.

Lemma TechStack_parse_practice_well_formed row :
  is_ok (TechStack.parse_practice row) = practice_row row.
Proof.
  unfold TechStack.parse_practice, practice_row, has_columns, known_cell.
  cbn [forallb]. rewrite <- !getitem_is_ok. unfold getitem.
  destruct (row !! "stack") as [v|]; [|done].
  rewrite <- TechStack_of_is_ok.
  destruct (row !! "category") as [c|];
    [|by cbn -[TechStack.TechStack_of]; destruct (TechStack.TechStack_of v);
         cbn; rewrite ?andb_false_r].
  rewrite <- PracticeCategory_of_is_ok.
  cbn -[TechStack.TechStack_of TechStack.PracticeCategory_of].
  destruct (TechStack.TechStack_of v); cbn -[TechStack.PracticeCategory_of];
    [|by rewrite !andb_false_r].
  destruct (TechStack.PracticeCategory_of c); cbn; [|by rewrite !andb_false_r].
  cells row; done.
Qed.

Lemma TechStack_parse_pattern_well_formed row :
  is_ok (TechStack.parse_pattern row) = pattern_row row.
Proof.
  unfold TechStack.parse_pattern, pattern_row, has_columns, known_cell.
  cbn [forallb]. rewrite <- !getitem_is_ok. unfold getitem.
  destruct (row !! "stack") as [v|]; [|done].
  rewrite <- TechStack_of_is_ok. cbn -[TechStack.TechStack_of].
  destruct (TechStack.TechStack_of v); cbn; [|by rewrite !andb_false_r].
  cells row; done.
Qed.

Lemma TechStack_parse_tip_well_formed row :
  is_ok (TechStack.parse_tip row) = tip_row row.
Proof.
  unfold TechStack.parse_tip, tip_row, has_columns, known_cell.
  cbn [forallb]. rewrite <- !getitem_is_ok. unfold getitem.
  destruct (row !! "stack") as [v|]; [|done].
  rewrite <- TechStack_of_is_ok. cbn -[TechStack.TechStack_of].
  destruct (TechStack.TechStack_of v); cbn; [|by rewrite !andb_false_r].
  cells row; done.
Qed.

Lemma Framework_of_is_ok v :
  is_ok (Codegen.Framework_of v) =
  known Codegen.Framework_value Codegen.Framework_members v.
Proof.
  unfold Codegen.Framework_of, known. rewrite <- find_is_Some_existsb, is_Some_bool.
  by destruct (List.find _ _).
Qed.

Lemma ComponentCategory_of_is_ok v :
  is_ok (Codegen.ComponentCategory_of v) =
  known Codegen.value Codegen.ComponentCategory_members v.
Proof.
  unfold Codegen.ComponentCategory_of, known.
  rewrite <- find_is_Some_existsb, is_Some_bool.
  by destruct (List.find _ _).
Qed.

Lemma Codegen_parse_snippet_well_formed row :
  is_ok (Codegen.parse_snippet row) = snippet_row row.
Proof.
  unfold Codegen.parse_snippet, snippet_row, has_columns, known_cell.
  cbn [forallb]. rewrite <- !getitem_is_ok. unfold getitem.
  destruct (row !! "name") as [n|]; [|done].
  destruct (row !! "category") as [c|]; [|done].
  rewrite <- ComponentCategory_of_is_ok.
  destruct (row !! "framework") as [f|];
    [|by cbn -[Codegen.ComponentCategory_of];
         destruct (Codegen.ComponentCategory_of c); cbn; rewrite ?andb_false_r].
  rewrite <- Framework_of_is_ok.
  cbn -[Codegen.ComponentCategory_of Codegen.Framework_of].
  destruct (Codegen.ComponentCategory_of c); cbn -[Codegen.Framework_of];
    [|by rewrite !andb_false_r].
  destruct (Codegen.Framework_of f); cbn; [|by rewrite !andb_false_r].
  cells row; done.
Qed.

Lemma Codegen_load_rows_parsed rows store out :
  Codegen.load_rows rows store out =
  (store ++ omap (ok ∘ Codegen.parse_snippet) rows,
   out ++ warnings "Warning: Failed to parse snippet: " Codegen.parse_snippet rows).
Proof.
  revert store out. induction rows as [|row rows IH]; intros store out.
  - cbn. by rewrite !app_nil_r.
  - cbn [Codegen.load_rows omap list_omap warnings].
    fold (omap (ok ∘ Codegen.parse_snippet) rows).
    fold (warnings "Warning: Failed to parse snippet: " Codegen.parse_snippet rows).
    cbn [compose].
    destruct (Codegen.parse_snippet row); cbn [ok]; rewrite IH.
    + by rewrite <- app_assoc.
    + by rewrite <- app_assoc.
Qed.

Lemma Landing_load_rows_parsed rows store out :
  Landing.load_rows rows store out =
  (store ++ omap (ok ∘ Landing.parse_pattern_body) rows,
   out ++ warnings "Warning: Failed to parse pattern: " Landing.parse_pattern_body rows).
Proof.
  revert store out. induction rows as [|row rows IH]; intros store out.
  - cbn. by rewrite !app_nil_r.
  - cbn [Landing.load_rows omap list_omap warnings]. unfold Landing._parse_pattern.
    fold (omap (ok ∘ Landing.parse_pattern_body) rows).
    fold (warnings "Warning: Failed to parse pattern: " Landing.parse_pattern_body rows).
    cbn [compose].
    destruct (Landing.parse_pattern_body row); cbn [ok]; rewrite IH.
    + by rewrite app_nil_r, <- app_assoc.
    + by rewrite <- app_assoc.
Qed.

Lemma UXGuide_load_rows_parsed rows store out :
  UXGuide.load_rows rows store out =
  (store ++ omap (ok ∘ UXGuide.parse_guideline) rows,
   out ++ warnings "Warning: Failed to parse UX guideline: " UXGuide.parse_guideline rows).
Proof.
  revert store out. induction rows as [|row rows IH]; intros store out.
  - cbn. by rewrite !app_nil_r.
  - cbn [UXGuide.load_rows omap list_omap warnings].
    fold (omap (ok ∘ UXGuide.parse_guideline) rows).
    fold (warnings "Warning: Failed to parse UX guideline: " UXGuide.parse_guideline rows).
    cbn [compose].
    destruct (UXGuide.parse_guideline row); cbn [ok]; rewrite IH.
    + by rewrite <- app_assoc.
    + by rewrite <- app_assoc.
Qed.

Lemma TechStack_load_rows_parsed {A} (parse : gmap string string → result A)
    what rows store out :
  TechStack.load_rows parse what rows store out =
  (store ++ omap (ok ∘ parse) rows,
   out ++ warnings ("Warning: Failed to parse " +:+ what +:+ ": ") parse rows).
Proof.
  revert store out. induction rows as [|row rows IH]; intros store out.
  - cbn. by rewrite !app_nil_r.
  - cbn [TechStack.load_rows omap list_omap warnings].
    fold (omap (ok ∘ parse) rows).
    fold (warnings ("Warning: Failed to parse " +:+ what +:+ ": ") parse rows).
    cbn [compose].
    destruct (parse row); cbn [ok]; rewrite IH.
    + by rewrite <- app_assoc.
    + by rewrite <- app_assoc.
Qed.

Lemma warnings_cons {R A} message (parse : R → result A) row rows :
  warnings message parse (row :: rows) =
  match parse row with
  | Ok _ => warnings message parse rows
  | Raise e => (message +:+ exn_str e) :: warnings message parse rows
  end.
Proof. unfold warnings. cbn. by destruct (parse row). Qed.

Lemma omap_ok_cons {R A} (parse : R → result A) row rows :
  omap (ok ∘ parse) (row :: rows) =
  match parse row with
  | Ok a => a :: omap (ok ∘ parse) rows
  | Raise _ => omap (ok ∘ parse) rows
  end.
Proof. cbn. by destruct (parse row). Qed.

(** What a loop that skips the rejected rows leaves in the store. *)
Lemma omap_ok_well_formed {R A} (parse : R → result A) (well_formed : R → bool) rows :
  (∀ row, is_ok (parse row) = well_formed row) →
  omap (ok ∘ parse) rows = omap (ok ∘ parse) (List.filter well_formed rows) ∧
  length (omap (ok ∘ parse) rows) = length (List.filter well_formed rows) ∧
  length (warnings "" parse rows) = length (List.filter (negb ∘ well_formed) rows).
Proof.
  intros Hwf. induction rows as [|row rows (IH1 & IH2 & IH3)]; [done|].
  rewrite omap_ok_cons, warnings_cons.
  cbn [List.filter compose]. rewrite <- (Hwf row).
  destruct (parse row) as [a|e] eqn:Hrow; cbn [is_ok negb length].
  - rewrite omap_ok_cons, Hrow. cbn [length]. by rewrite <- IH1, IH2, IH3.
  - by rewrite <- IH1, IH2, IH3.
Qed.

Lemma warnings_length {R A} message (parse : R → result A) rows :
  length (warnings message parse rows) = length (warnings "" parse rows).
Proof.
  induction rows as [|row rows IH]; [done|].
  rewrite !warnings_cons. destruct (parse row); cbn [length]; by rewrite ?IH.
Qed.

(** On rows whose cells are all text, a row fails to parse exactly when
    it is without one of the required columns or has an enum cell that is
    not the value of a member; the loop over such rows leaves the records
    parsed from the well-formed rows, one per such row and in file order,
    and one warning line per rejected row.  This holds for the loops of
    the six loaders, as they are written. *)
Lemma rows_of_text_are_loaded (rows : list (gmap string string)) :
  loads Landing.parse_pattern_body landing_row rows (Landing._load_patterns (Some rows)) ∧
  loads UXGuide.parse_guideline ux_row rows (UXGuide._load_guidelines (Some rows)) ∧
  loads TechStack.parse_practice practice_row rows (TechStack._load_practices rows [] []) ∧
  loads TechStack.parse_pattern pattern_row rows (TechStack._load_patterns rows [] []) ∧
  loads TechStack.parse_tip tip_row rows (TechStack._load_performance rows [] []) ∧
  loads Codegen.parse_snippet snippet_row rows (Codegen._load_snippets (Some rows)).
Proof.
  unfold loads. repeat apply conj.
  all: try first
    [ apply Landing_parse_pattern_well_formed
    | apply UXGuide_parse_guideline_well_formed
    | apply TechStack_parse_practice_well_formed
    | apply TechStack_parse_pattern_well_formed
    | apply TechStack_parse_tip_well_formed
    | apply Codegen_parse_snippet_well_formed ].
  all: unfold TechStack._load_practices, TechStack._load_patterns,
         TechStack._load_performance;
       cbn [Landing._load_patterns UXGuide._load_guidelines Codegen._load_snippets];
       rewrite ?Landing_load_rows_parsed, ?UXGuide_load_rows_parsed,
         ?TechStack_load_rows_parsed, ?Codegen_load_rows_parsed;
       cbn [fst snd app]; rewrite ?warnings_length.
  all: first
    [ apply (omap_ok_well_formed _ _ rows Landing_parse_pattern_well_formed)
    | apply (omap_ok_well_formed _ _ rows UXGuide_parse_guideline_well_formed)
    | apply (omap_ok_well_formed _ _ rows TechStack_parse_practice_well_formed)
    | apply (omap_ok_well_formed _ _ rows TechStack_parse_pattern_well_formed)
    | apply (omap_ok_well_formed _ _ rows TechStack_parse_tip_well_formed)
    | apply (omap_ok_well_formed _ _ rows Codegen_parse_snippet_well_formed) ].
Qed.

(** Four rows of ux_guidelines.csv, the second with the unknown domain
    "Gestures" and the third without a topic: the first and the fourth are
    loaded, and two warnings are printed. *)
Lemma UXGuide_load_sample :
  UXGuide.topic <$> (UXGuide._load_guidelines (Some ux_sample)).1 = ["Labels"; "Messages"] ∧
  (UXGuide._load_guidelines (Some ux_sample)).2 =
    [ "Warning: Failed to parse UX guideline: 'Gestures' is not a valid UXDomain";
      "Warning: Failed to parse UX guideline: 'topic'" ].
Proof. by vm_compute. Qed.


(** ** Loading the files *)

Section files.

Lemma lookup_complete cells k : Csv.complete cells !! k = Some <$> (cells !! k).
Proof. apply lookup_fmap. Qed.

(** Case analysis on the cells a parser reads. *)
Ltac line_cells row :=
  repeat match goal with
         | |- context [row !! ?k] =>
             let c := fresh "cell" in
             let H := fresh "Hcell" in
             destruct (row !! k) as [[c|]|] eqn:H; cbn
         end.

Lemma UXGuideFile_parse_guideline_accepted row :
  is_ok (UXGuideFile.parse_guideline row) = ux_line row.
Proof.
  unfold UXGuideFile.parse_guideline, ux_line, has_cells.
  unfold Csv.getitem, Csv.get_or_None. cbn [forallb]. rewrite !is_Some_bool.
  destruct (row !! "domain") as [[v|]|]; cbn -[UXGuide.UXDomain_of known];
    [|by rewrite ?andb_false_r|done].
  rewrite <- UXDomain_of_is_ok.
  destruct (UXGuide.UXDomain_of v); cbn; [|by rewrite !andb_false_r].
  line_cells row; done.
Qed.

Lemma LandingFile_parse_pattern_accepted row :
  is_ok (LandingFile.parse_pattern_body row) = landing_line row.
Proof.
  unfold LandingFile.parse_pattern_body, landing_line, has_cells, is_text.
  unfold Csv.getitem, Csv.get. cbn [forallb]. rewrite !is_Some_bool.
  destruct (row !! "sections") as [[sections|]|]; cbn -[Landing.LandingCategory_of known];
    try done.
  all: destruct (row !! "best_for") as [[best_for|]|]; cbn -[Landing.LandingCategory_of known];
    try done.
  all: destruct (row !! "name") as [name|]; cbn -[Landing.LandingCategory_of known];
    try done.
  all: destruct (row !! "category") as [[category|]|]; cbn -[Landing.LandingCategory_of known];
    rewrite ?andb_false_r; try done.
  all: rewrite <- LandingCategory_of_is_ok;
    destruct (Landing.LandingCategory_of _); cbn; rewrite ?andb_false_r; try done.
  all: by destruct (row !! "description").
Qed.

Lemma CodegenFile_parse_snippet_accepted row :
  is_ok (CodegenFile.parse_snippet row) = snippet_line row.
Proof.
  unfold CodegenFile.parse_snippet, snippet_line, has_cells, is_text.
  unfold Csv.getitem, Csv.get_or_None. cbn [forallb]. rewrite !is_Some_bool.
  destruct (row !! "name") as [name|]; cbn -[Codegen.ComponentCategory_of Codegen.Framework_of known];
    [|done].
  destruct (row !! "category") as [[c|]|];
    cbn -[Codegen.ComponentCategory_of Codegen.Framework_of known]; [|by rewrite ?andb_false_r|done].
  rewrite <- ComponentCategory_of_is_ok.
  destruct (Codegen.ComponentCategory_of c);
    cbn -[Codegen.Framework_of known]; [|by rewrite ?andb_false_r].
  destruct (row !! "framework") as [[f|]|];
    cbn -[Codegen.Framework_of known]; [|by rewrite ?andb_false_r|done].
  rewrite <- Framework_of_is_ok.
  destruct (Codegen.Framework_of f); cbn; [|by rewrite ?andb_false_r].
  line_cells row; done.
Qed.

Lemma LandingFile_load_rows_parsed rows store out :
  LandingFile.load_rows rows store out =
  (store ++ omap (ok ∘ LandingFile.parse_pattern_body) rows,
   out ++ warnings "Warning: Failed to parse pattern: " LandingFile.parse_pattern_body rows).
Proof.
  revert store out. induction rows as [|row rows IH]; intros store out.
  - cbn. by rewrite !app_nil_r.
  - rewrite omap_ok_cons, warnings_cons.
    cbn [LandingFile.load_rows]. unfold LandingFile._parse_pattern.
    destruct (LandingFile.parse_pattern_body row); rewrite IH.
    + by rewrite app_nil_r, <- app_assoc.
    + by rewrite <- app_assoc.
Qed.

Lemma UXGuideFile_load_rows_parsed rows store out :
  UXGuideFile.load_rows rows store out =
  (store ++ omap (ok ∘ UXGuideFile.parse_guideline) rows,
   out ++ warnings "Warning: Failed to parse UX guideline: " UXGuideFile.parse_guideline
            rows).
Proof.
  revert store out. induction rows as [|row rows IH]; intros store out.
  - cbn. by rewrite !app_nil_r.
  - rewrite omap_ok_cons, warnings_cons. cbn [UXGuideFile.load_rows].
    destruct (UXGuideFile.parse_guideline row); rewrite IH; by rewrite <- app_assoc.
Qed.

Lemma CodegenFile_load_rows_parsed rows store out :
  CodegenFile.load_rows rows store out =
  (store ++ omap (ok ∘ CodegenFile.parse_snippet) rows,
   out ++ warnings "Warning: Failed to parse snippet: " CodegenFile.parse_snippet rows).
Proof.
  revert store out. induction rows as [|row rows IH]; intros store out.
  - cbn. by rewrite !app_nil_r.
  - rewrite omap_ok_cons, warnings_cons. cbn [CodegenFile.load_rows].
    destruct (CodegenFile.parse_snippet row); rewrite IH; by rewrite <- app_assoc.
Qed.

(** A loader that goes through the lines of a file with [parse]. *)
Lemma loads_lines_parsed {A} (parse : Csv.row → result A) accepted message file :
  (∀ row, is_ok (parse row) = accepted row) →
  loads_lines parse accepted message file
    (Csv.outcome file (omap (ok ∘ parse) (Csv.rows file)),
     warnings message parse (Csv.rows file)).
Proof.
  intros Haccepted.
  destruct (omap_ok_well_formed parse accepted (Csv.rows file) Haccepted)
    as (Hstore & _ & Hout).
  split; [done|]. cbn [fst snd]. split; [by rewrite <- Hstore|]. split; [done|].
  by rewrite warnings_length.
Qed.

(** On lines that have all their cells the parsers are the parsers of the
    rows of text. *)
Lemma UXGuideFile_parse_complete cells :
  UXGuideFile.parse_guideline (Csv.complete cells)
  = UXGuideFile.of_guideline <$> UXGuide.parse_guideline cells.
Proof.
  unfold UXGuideFile.parse_guideline, UXGuide.parse_guideline, Csv.getitem, getitem.
  rewrite !lookup_complete.
  destruct (cells !! "domain") as [v|]; cbn -[UXGuide.UXDomain_of]; [|done].
  destruct (UXGuide.UXDomain_of v); cbn; [|done].
  repeat match goal with
         | |- context [cells !! ?k] => destruct (cells !! k); cbn; [|done]
         end.
  done.
Qed.

Lemma CodegenFile_parse_complete cells :
  CodegenFile.parse_snippet (Csv.complete cells)
  = CodegenFile.of_snippet <$> Codegen.parse_snippet cells.
Proof.
  unfold CodegenFile.parse_snippet, Codegen.parse_snippet, Csv.getitem, getitem,
    Csv.get, get.
  rewrite !lookup_complete.
  destruct (cells !! "name"); cbn -[Codegen.ComponentCategory_of Codegen.Framework_of];
    [|done].
  destruct (cells !! "category") as [c|];
    cbn -[Codegen.ComponentCategory_of Codegen.Framework_of]; [|done].
  destruct (Codegen.ComponentCategory_of c); cbn -[Codegen.Framework_of]; [|done].
  destruct (cells !! "framework") as [f|]; cbn -[Codegen.Framework_of]; [|done].
  destruct (Codegen.Framework_of f); cbn; [|done].
  destruct (cells !! "code"); cbn; [|done].
  destruct (cells !! "dependencies"); cbn; [|done].
  destruct (cells !! "props"); cbn; [|done].
  unfold CodegenFile.of_snippet. cbn.
  by destruct (cells !! "preview"), (cells !! "description").
Qed.

Lemma LandingFile_parse_complete cells :
  LandingFile.parse_pattern_body (Csv.complete cells)
  = LandingFile.of_pattern <$> Landing.parse_pattern_body cells.
Proof.
  unfold LandingFile.parse_pattern_body, Landing.parse_pattern_body, Csv.getitem, getitem,
    Csv.get, Csv.get_or_None, get.
  rewrite !lookup_complete.
  destruct (cells !! "sections") as [sections|]; cbn -[Landing.LandingCategory_of].
  all: destruct (cells !! "best_for") as [best_for|]; cbn -[Landing.LandingCategory_of].
  all: destruct (cells !! "name") as [name|]; cbn -[Landing.LandingCategory_of]; [|done].
  all: destruct (cells !! "category") as [category|]; cbn -[Landing.LandingCategory_of].
  all: destruct (Landing.LandingCategory_of _); cbn; [|done].
  all: destruct (cells !! "description"); cbn; [|done].
  all: unfold LandingFile.of_pattern; cbn.
  all: by destruct (cells !! "conversion_tips"), (cells !! "complexity"),
            (cells !! "keywords").
Qed.

(** A file of complete lines that is read to its end is loaded as its rows
    of text are. *)
Lemma omap_ok_complete {A B} (parse : gmap string string → result A)
    (parse' : Csv.row → result B) (f : A → B) rows :
  (∀ cells, parse' (Csv.complete cells) = f <$> parse cells) →
  ∀ message,
    omap (ok ∘ parse') (Csv.complete <$> rows) = f <$> omap (ok ∘ parse) rows ∧
    warnings message parse' (Csv.complete <$> rows) = warnings message parse rows.
Proof.
  intros Hparse message. induction rows as [|cells rows [IH1 IH2]]; [done|].
  cbn [fmap list_fmap]. rewrite !omap_ok_cons, !warnings_cons, Hparse.
  fold (Csv.complete <$> rows).
  destruct (parse cells); cbn; by rewrite ?IH1, ?IH2.
Qed.

Lemma LandingFile_load_complete rows :
  LandingFile._load_patterns (Some (Csv.complete_file rows))
  = (Ok (LandingFile.of_pattern <$> (Landing._load_patterns (Some rows)).1),
     (Landing._load_patterns (Some rows)).2).
Proof.
  cbn [LandingFile._load_patterns Landing._load_patterns Csv.complete_file Csv.rows].
  rewrite LandingFile_load_rows_parsed, Landing_load_rows_parsed. cbn [fst snd app].
  by destruct (omap_ok_complete _ _ _ rows LandingFile_parse_complete
                 "Warning: Failed to parse pattern: ") as [-> ->].
Qed.

Lemma UXGuideFile_load_complete rows :
  UXGuideFile._load_guidelines (Some (Csv.complete_file rows))
  = (Ok (UXGuideFile.of_guideline <$> (UXGuide._load_guidelines (Some rows)).1),
     (UXGuide._load_guidelines (Some rows)).2).
Proof.
  cbn [UXGuideFile._load_guidelines UXGuide._load_guidelines Csv.complete_file Csv.rows].
  rewrite UXGuideFile_load_rows_parsed, UXGuide_load_rows_parsed. cbn [fst snd app].
  by destruct (omap_ok_complete _ _ _ rows UXGuideFile_parse_complete
                 "Warning: Failed to parse UX guideline: ") as [-> ->].
Qed.

Lemma CodegenFile_load_complete rows :
  CodegenFile._load_snippets (Some (Csv.complete_file rows))
  = (Ok (CodegenFile.of_snippet <$> (Codegen._load_snippets (Some rows)).1),
     (Codegen._load_snippets (Some rows)).2).
Proof.
  cbn [CodegenFile._load_snippets Codegen._load_snippets Csv.complete_file Csv.rows].
  rewrite CodegenFile_load_rows_parsed, Codegen_load_rows_parsed. cbn [fst snd app].
  by destruct (omap_ok_complete _ _ _ rows CodegenFile_parse_complete
                 "Warning: Failed to parse snippet: ") as [-> ->].
Qed.

Lemma filter_complete (f g : Csv.row → bool) rows :
  (∀ cells, f (Csv.complete cells) = g (Csv.complete cells)) →
  List.filter f (Csv.complete <$> rows) = List.filter g (Csv.complete <$> rows).
Proof.
  intros Hfg. induction rows as [|cells rows IH]; [done|].
  cbn [fmap list_fmap List.filter]. fold (Csv.complete <$> rows).
  by rewrite Hfg, IH.
Qed.

Lemma has_cells_complete columns cells :
  has_cells columns (Csv.complete cells) = has_texts columns (Csv.complete cells).
Proof.
  unfold has_cells, has_texts, Csv.get_or_None.
  induction columns as [|c columns IH]; [done|]. cbn [forallb]. rewrite IH. f_equal.
  rewrite !lookup_complete, !is_Some_bool. by destruct (cells !! c).
Qed.

Lemma accepted_complete cells :
  landing_line (Csv.complete cells) = well_formed_landing_line (Csv.complete cells) ∧
  ux_line (Csv.complete cells) = well_formed_ux_line (Csv.complete cells) ∧
  snippet_line (Csv.complete cells) = well_formed_snippet_line (Csv.complete cells).
Proof.
  unfold landing_line, ux_line, snippet_line, well_formed_landing_line,
    well_formed_ux_line, well_formed_snippet_line, is_text.
  rewrite <- !has_cells_complete. split; [|split].
  - unfold Csv.get. rewrite !lookup_complete, !is_Some_bool.
    by destruct (cells !! "sections"), (cells !! "best_for").
  - done.
  - unfold has_cells, Csv.get_or_None. cbn [forallb].
    rewrite !lookup_complete, !is_Some_bool.
    destruct (cells !! "dependencies"), (cells !! "props"); cbn;
      by rewrite ?andb_true_r, ?andb_false_r.
Qed.

End files.

(** C8, as stated, fails twice.  A line of ux_guidelines.csv without its
    last two cells has no impact and no complexity, and it is loaded, with
    [None] in these two fields and without a warning.  And when the
    reading of the file stops at a byte that is not UTF-8, the exception
    is raised to the caller, after the first line was loaded. *)
Lemma C8_short_line_and_read_error :
  (well_formed_ux_line short_line = false ∧
   UXGuideFile._load_guidelines (Some short_file)
   = (Ok [ {| UXGuideFile.domain := UXGuide.FORMS;
              UXGuideFile.topic := Some "Labels";
              UXGuideFile.best_practice := Some "Label every field";
              UXGuideFile.anti_pattern := Some "Placeholder as label";
              UXGuideFile.example := Some "Email label above the input";
              UXGuideFile.impact := None;
              UXGuideFile.complexity := None |} ], []) ∧
   ¬ skips_malformed UXGuideFile.parse_guideline well_formed_ux_line short_file
       (UXGuideFile._load_guidelines (Some short_file))) ∧
  (Forall (λ row, well_formed_ux_line row = true) (Csv.rows undecodable_file) ∧
   (UXGuideFile._load_guidelines (Some undecodable_file)).1
   = Raise (ValueError
       "'utf-8' codec can't decode byte 0xff in position 120: invalid start byte") ∧
   ¬ skips_malformed UXGuideFile.parse_guideline well_formed_ux_line undecodable_file
       (UXGuideFile._load_guidelines (Some undecodable_file))).
Proof.
  split; (split; [|split]).
  - by vm_compute.
  - by vm_compute.
  - intros H. vm_compute in H. discriminate H.
  - repeat constructor.
  - by vm_compute.
  - intros H. vm_compute in H. discriminate H.
Qed.

(** C8, amended.  Each loader (landing patterns, UX guidelines,
    components) accepts the lines that have the columns it indexes, the
    value of a member in each enum cell, and a text in each cell on which
    it calls a method; it prints one warning for each other line.  When
    the file is read to its end the store holds the records of the
    accepted lines in file order, and otherwise the exception of the
    reading is raised.  On a file whose lines all have their cells and
    that is read to its end, the accepted lines are the well-formed ones:
    the store holds exactly their records. *)
Theorem C8_accepted_lines_are_loaded (file : Csv.reader)
    (rows : list (gmap string string)) :
  (loads_lines LandingFile.parse_pattern_body landing_line
     "Warning: Failed to parse pattern: " file
     (LandingFile._load_patterns (Some file)) ∧
   loads_lines UXGuideFile.parse_guideline ux_line
     "Warning: Failed to parse UX guideline: " file
     (UXGuideFile._load_guidelines (Some file)) ∧
   loads_lines CodegenFile.parse_snippet snippet_line
     "Warning: Failed to parse snippet: " file
     (CodegenFile._load_snippets (Some file))) ∧
  (skips_malformed LandingFile.parse_pattern_body well_formed_landing_line
     (Csv.complete_file rows) (LandingFile._load_patterns (Some (Csv.complete_file rows))) ∧
   skips_malformed UXGuideFile.parse_guideline well_formed_ux_line
     (Csv.complete_file rows) (UXGuideFile._load_guidelines (Some (Csv.complete_file rows))) ∧
   skips_malformed CodegenFile.parse_snippet well_formed_snippet_line
     (Csv.complete_file rows) (CodegenFile._load_snippets (Some (Csv.complete_file rows)))).
Proof.
  assert (∀ file,
    loads_lines LandingFile.parse_pattern_body landing_line
      "Warning: Failed to parse pattern: " file
      (LandingFile._load_patterns (Some file)) ∧
    loads_lines UXGuideFile.parse_guideline ux_line
      "Warning: Failed to parse UX guideline: " file
      (UXGuideFile._load_guidelines (Some file)) ∧
    loads_lines CodegenFile.parse_snippet snippet_line
      "Warning: Failed to parse snippet: " file
      (CodegenFile._load_snippets (Some file))) as Hloads.
  { clear file. intros file.
    cbn [LandingFile._load_patterns UXGuideFile._load_guidelines
         CodegenFile._load_snippets].
    rewrite LandingFile_load_rows_parsed, UXGuideFile_load_rows_parsed,
      CodegenFile_load_rows_parsed. cbn [app].
    split; [|split]; apply loads_lines_parsed.
    - apply LandingFile_parse_pattern_accepted.
    - apply UXGuideFile_parse_guideline_accepted.
    - apply CodegenFile_parse_snippet_accepted. }
  split; [apply Hloads|].
  destruct (Hloads (Csv.complete_file rows))
    as ((_ & Hlanding & _) & (_ & Hux & _) & (_ & Hsnippets & _)).
  unfold skips_malformed. rewrite Hlanding, Hux, Hsnippets.
  unfold Csv.outcome. cbn [Csv.complete_file Csv.failure Csv.rows].
  split; [|split]; do 2 f_equal; apply filter_complete; intros cells;
    apply accepted_complete.
Qed.

(** ** Frame: the cells a method does not own *)

Section local_rules.
Context {C : Type}.
#[local] Abbreviation M := (Obj.M (C:=C)).
Implicit Types (h : heap (C:=C)) (n a : nat).

Lemma local_weaken n {A} (m : M A) (Q R : A → Prop) :
  local n m Q → (∀ x, Q x → R x) → local n m R.
Proof.
  intros Hm HQR h Hh. destruct (Hm h Hh) as (H1 & H2 & H3).
  repeat split; [done..|]. destruct (m h).1; [by apply HQR|done].
Qed.

Lemma local_ret n {A} (x : A) (Q : A → Prop) : Q x → local (C:=C) n (mret x) Q.
Proof. intros HQ h Hh. by repeat split. Qed.

Lemma local_raise n {A} e (Q : A → Prop) : local (C:=C) n (raise e) Q.
Proof. intros h Hh. by repeat split. Qed.

Lemma local_lift n {A} (r : result A) (Q : A → Prop) :
  (∀ x, r = Ok x → Q x) → local (C:=C) n (lift r) Q.
Proof. intros HQ h Hh. repeat split; [done..|]. cbn. destruct r; [by apply HQ|done]. Qed.

Lemma local_bind n {A B} (m : M A) (f : A → M B) (Q : A → Prop) (R : B → Prop) :
  local n m Q → (∀ x, Q x → local n (f x) R) → local n (m ≫= f) R.
Proof.
  intros Hm Hf h Hh. destruct (Hm h Hh) as (H1 & H2 & H3).
  unfold mbind, M_bind. destruct (m h) as [[x|e] h'] eqn:Hmh; cbn in *.
  - destruct (Hf x H3 h') as (H4 & H5 & H6); [lia|].
    repeat split; [congruence|lia|done].
  - by repeat split.
Qed.

(** A new object gets an address that is not below [n]. *)
Lemma local_alloc n (c : C) : local n (alloc c) (λ a, (n ≤ a)%nat).
Proof.
  intros h Hh. unfold alloc. cbn [fst snd]. split; [|split].
  - by rewrite take_app_le.
  - rewrite length_app. lia.
  - done.
Qed.

Lemma local_load n a (Q : C → Prop) : (∀ c, Q c) → local n (load a) Q.
Proof.
  intros HQ h Hh. repeat split; [done..|]. cbn. repeat case_match; simplify_eq; done.
Qed.

(** An update in place of an object that is not below [n]. *)
Lemma local_store n a (c : C) (Q : unit → Prop) :
  (n ≤ a)%nat → Q () → local n (store a c) Q.
Proof.
  intros Ha HQ h Hh. unfold store. cbn [fst snd]. split; [|split].
  - rewrite take_insert. case_decide; [lia|done].
  - by rewrite length_insert.
  - done.
Qed.

Lemma local_read n {Y} (proj : C → option (list Y)) a (Q : list Y → Prop) :
  (∀ l, Q l) → local n (read proj a) Q.
Proof.
  intros HQ. unfold read.
  eapply local_bind; [apply (local_load _ _ (λ _, True)); done|]. intros c _.
  destruct (proj c); [by apply local_ret|apply local_raise].
Qed.

Lemma local_for_fold n {X S} (I : S → Prop) (l : list X) (s : S) (body : S → X → M S) :
  I s → (∀ s x, I s → local n (body s x) I) → local n (for_fold l s body) I.
Proof.
  intros Hs Hbody. revert s Hs. induction l as [|x l IH]; intros s Hs; cbn.
  - by apply local_ret.
  - eapply local_bind; [by apply Hbody|]. intros s' Hs'. by apply IH.
Qed.

Lemma local_for_each n {X} (l : list X) (body : X → M unit) (Q : unit → Prop) :
  (∀ x, local n (body x) (λ _, True)) → Q () → local n (for_each l body) Q.
Proof.
  intros Hbody HQ. unfold for_each.
  eapply local_weaken; [apply (local_for_fold n (λ _, True)); [done|by intros]|].
  by intros [].
Qed.

Lemma local_while n {S} (I : S → Prop) fuel (s : S) (cond : M bool) (body : S → M S) :
  I s → local n cond (λ _, True) → (∀ s, I s → local n (body s) I) →
  local n (while fuel s cond body) I.
Proof.
  intros Hs Hcond Hbody. revert s Hs.
  induction fuel as [|fuel IH]; intros s Hs; cbn.
  - by apply local_ret.
  - eapply local_bind; [exact Hcond|]. intros [] _; [|by apply local_ret].
    eapply local_bind; [by apply Hbody|]. intros s' Hs'. by apply IH.
Qed.

(** What [local] gives for the heap the method is called on: every cell
    that existed is still there, unchanged. *)
Lemma local_prefix {A} (m : M A) h :
  local (length h) m (λ _, True) → h `prefix_of` (m h).2.
Proof.
  intros Hm. destruct (Hm h) as (H1 & _ & _); [done|].
  rewrite firstn_all in H1.
  pose proof (prefix_take (m h).2 (length h)) as Hp. by rewrite H1 in Hp.
Qed.
End local_rules.

Create HintDb local.

#[local] Hint Extern 1 (local _ _ _) => (apply local_read; done) : local.

(** One step of a method body. *)
Ltac local_step :=
  lazymatch goal with
  | |- local _ (mbind _ (alloc _)) _ =>
      eapply local_bind; [apply local_alloc|cbn beta; intros ? ?]
  | |- local _ (mbind _ _) _ =>
      eapply (local_bind _ _ _ (λ _, True)); [|cbn beta; intros ? _]
  | |- local _ (mret _) _ => apply local_ret; try done
  | |- local _ (raise _) _ => apply local_raise
  | |- local _ (lift _) _ => apply local_lift; try done
  | |- local _ (alloc _) _ =>
      eapply local_weaken; [apply local_alloc|try done]
  | |- local _ (load _) _ => apply local_load; try done
  | |- local _ (read _ _) _ => apply local_read; try done
  | |- local _ (store _ _) _ => apply local_store; [first [assumption|lia]|try done]
  | |- local _ (for_each _ _) _ => apply local_for_each; [intros ?|try done]
  | |- local _ (if ?b then _ else _) _ => destruct b
  | |- local _ (match ?x with _ => _ end) _ => destruct x
  | |- local _ (let _ := _ in _) _ => cbv zeta
  | |- local _ _ _ => apply local_read; try done
  end.

Ltac local_steps := repeat local_step.

(** *** Landing patterns *)

Lemma LandingObj_search_local n self query max_results :
  local n (LandingObj.search self query max_results) (λ _, True).
Proof.
  unfold LandingObj.search. local_steps; auto with local.
Qed.

Lemma LandingObj_get_pattern_local n self name :
  local n (LandingObj.get_pattern self name) (λ _, True).
Proof. unfold LandingObj.get_pattern. local_steps; auto with local. Qed.

#[local] Hint Resolve LandingObj_get_pattern_local : local.

Lemma LandingObj_or_else_local n a b :
  local n a (λ _, True) → local n b (λ _, True) →
  local n (LandingObj.or_else a b) (λ _, True).
Proof. intros Ha Hb. unfold LandingObj.or_else. local_steps; auto with local. Qed.

Lemma LandingObj_recommend_local n self product_type goal audience :
  local n (LandingObj.recommend self product_type goal audience) (λ _, True).
Proof.
  unfold LandingObj.recommend. local_steps;
    first [apply LandingObj_or_else_local|idtac]; auto with local.
Qed.

Lemma LandingObj_generate_structure_local n self pattern :
  local n (LandingObj.generate_structure self pattern) (λ _, True).
Proof. unfold LandingObj.generate_structure. local_steps. Qed.

(** *** Component snippets *)

Lemma CodegenObj_search_components_local n self query framework category :
  local n (CodegenObj.search_components self query framework category) (λ _, True).
Proof. unfold CodegenObj.search_components. local_steps; auto with local. Qed.

(** *** Tech-stack practices and tips *)

Lemma TechStackObj_search_practices_local n self stack query category max_results :
  local n (TechStackObj.search_practices self stack query category max_results)
        (λ _, True).
Proof. unfold TechStackObj.search_practices. local_steps; auto with local. Qed.

(** The list [get_performance_tips] sorts in place and returns is its own. *)
Lemma TechStackObj_get_performance_tips_local n self stack impact effort :
  local n (TechStackObj.get_performance_tips self stack impact effort)
        (λ tips, (n ≤ tips)%nat).
Proof.
  unfold TechStackObj.get_performance_tips. cbv zeta.
  eapply local_bind; [apply local_alloc|]. intros tips Htips.
  eapply (local_bind _ _ _ (λ _, True)); [auto with local|]. intros performance_tips _.
  eapply (local_bind _ _ _ (λ _, True)).
  { apply local_for_fold; [done|]. intros s tip _. local_steps; auto with local. }
  intros tip _. local_steps; auto with local.
Qed.

Lemma TechStackObj_get_quick_wins_local n self stack :
  local n (TechStackObj.get_quick_wins self stack) (λ _, True).
Proof.
  unfold TechStackObj.get_quick_wins.
  eapply local_bind; [apply TechStackObj_get_performance_tips_local|].
  intros tips Htips. local_steps; auto with local.
Qed.

(** *** UX guidelines *)

Lemma UXGuideObj_search_local n self query domain max_results :
  local n (UXGuideObj.search self query domain max_results) (λ _, True).
Proof. unfold UXGuideObj.search. local_steps; auto with local. Qed.

Lemma dict_get_owned {K} `{EqDecision K} n (d : UXGuideObj.dict K) k a :
  UXGuideObj.owned n d → UXGuideObj.dict_get d k = Some a → (n ≤ a)%nat.
Proof.
  induction 1 as [|[k' a'] d Ha Hd IH]; cbn; [done|].
  case_decide; [|done]. by intros [= <-].
Qed.

Lemma UXGuideObj_groups_item_local n domain_groups k :
  UXGuideObj.owned n domain_groups →
  local n (UXGuideObj.groups_item domain_groups k)
        (λ r, UXGuideObj.owned n r.1 ∧ (n ≤ r.2)%nat).
Proof.
  intros Hd. unfold UXGuideObj.groups_item.
  destruct (UXGuideObj.dict_get domain_groups k) as [a|] eqn:Hget.
  - apply local_ret. split; [done|]. by eapply dict_get_owned.
  - eapply local_bind; [apply local_alloc|]. intros a Ha.
    apply local_ret. split; [|done]. apply Forall_app. by repeat constructor.
Qed.

Lemma UXGuideObj_pop_domain_local n a :
  (n ≤ a)%nat → local n (UXGuideObj.pop_domain a) (λ _, True).
Proof. intros Ha. unfold UXGuideObj.pop_domain. local_steps; auto with local. Qed.

Lemma UXGuideObj_pop_recommendation_local n a :
  (n ≤ a)%nat → local n (UXGuideObj.pop_recommendation a) (λ _, True).
Proof. intros Ha. unfold UXGuideObj.pop_recommendation. local_steps; auto with local. Qed.

Lemma UXGuideObj_group_turn_local n domain_groups rec :
  UXGuideObj.owned n domain_groups →
  local n (UXGuideObj.group_turn domain_groups rec) (UXGuideObj.owned n).
Proof.
  intros Hd. unfold UXGuideObj.group_turn.
  eapply local_bind; [by apply UXGuideObj_groups_item_local|].
  intros [d' group] [Hd' Hgroup]. cbn in Hd', Hgroup.
  local_steps; auto with local.
Qed.

Lemma UXGuideObj_draw_test_local n result domains max_results :
  local n (UXGuideObj.draw_test result domains max_results) (λ _, True).
Proof. unfold UXGuideObj.draw_test. local_steps; auto with local. Qed.

Lemma UXGuideObj_draw_turn_local n result domains domain_groups :
  (n ≤ result)%nat → (n ≤ domains)%nat →
  UXGuideObj.owned n domain_groups →
  local n (UXGuideObj.draw_turn result domains domain_groups) (UXGuideObj.owned n).
Proof.
  intros Hresult Hdomains Hd. unfold UXGuideObj.draw_turn.
  eapply (local_bind _ _ _ (λ _, True)); [by apply UXGuideObj_pop_domain_local|].
  intros domain _.
  eapply local_bind; [by apply UXGuideObj_groups_item_local|].
  intros [d' group] [Hd' Hgroup]. cbn in Hd', Hgroup.
  eapply (local_bind _ _ _ (λ _, True)); [auto with local|]. intros g _.
  destruct g as [|rec g]; [by apply local_ret|].
  eapply (local_bind _ _ _ (λ _, True)); [by apply UXGuideObj_pop_recommendation_local|].
  intros rec' _. local_steps; auto with local.
Qed.

Lemma UXGuideObj_get_quick_wins_local n shuffle self max_results :
  local n (UXGuideObj.get_quick_wins shuffle self max_results) (λ _, True).
Proof.
  unfold UXGuideObj.get_quick_wins.
  eapply local_bind; [apply local_alloc|]. intros quick_wins Hquick_wins.
  eapply (local_bind _ _ _ (λ _, True)); [auto with local|]. intros guidelines _.
  eapply (local_bind _ _ _ (λ _, True)); [local_steps; auto with local|]. intros _ _.
  eapply (local_bind _ _ _ (λ _, True)); [auto with local|]. intros l _.
  eapply (local_bind _ _ _ (UXGuideObj.owned n)).
  { apply local_for_fold; [constructor|]. intros d rec Hd.
    by apply UXGuideObj_group_turn_local. }
  intros domain_groups Hgroups.
  eapply local_bind; [apply local_alloc|]. intros result Hresult.
  eapply local_bind; [apply local_alloc|]. intros domains Hdomains.
  eapply (local_bind _ _ _ (λ _, True)); [auto with local|]. intros l0 _.
  eapply (local_bind _ _ _ (λ _, True)); [local_steps|]. intros _ _.
  eapply (local_bind _ _ _ (λ _, True)); [auto with local|]. intros l1 _.
  eapply (local_bind _ _ _ (λ _, True)); [|intros; by apply local_ret].
  eapply local_weaken; [|done].
  apply (local_while n (UXGuideObj.owned n));
    [done|apply UXGuideObj_draw_test_local|].
  intros d Hd. by apply UXGuideObj_draw_turn_local.
Qed.

Lemma UXGuideObj_get_checklist_local n self domains :
  local n (UXGuideObj.get_checklist self domains) (λ _, True).
Proof.
  unfold UXGuideObj.get_checklist.
  eapply (local_bind _ _ _ (λ _, True)); [auto with local|]. intros guidelines _.
  eapply local_weaken; [|done].
  apply (local_for_fold n (UXGuideObj.owned n)); [constructor|]. intros checklist guideline Hc.
  cbv zeta. match goal with |- local _ (if ?b then _ else _) _ => destruct b end;
    [by apply local_ret|].
  eapply (local_bind _ _ _ (λ r, UXGuideObj.owned n r.1 ∧ (n ≤ r.2)%nat)).
  { destruct (UXGuideObj.dict_get checklist _) as [a|] eqn:Hget.
    - apply local_ret. split; [done|]. by eapply dict_get_owned.
    - eapply local_bind; [apply local_alloc|]. intros a Ha.
      apply local_ret. split; [|done]. apply Forall_app. by repeat constructor. }
  intros [checklist' a] [Hc' Ha]. cbn in Hc', Ha.
  local_steps; auto with local.
Qed.

(** Every cell that exists when a method is called is there, with the
    same list, when the method has returned or raised. *)
Lemma prefix_keeps_cells {C} (h h' : heap (C:=C)) a c :
  h `prefix_of` h' → h !! a = Some c → h' !! a = Some c.
Proof. intros Hp Ha. by eapply prefix_lookup_Some. Qed.

(** ** Runs: what the methods on list objects compute *)

Section runs.
Context {C : Type}.
#[local] Abbreviation M := (Obj.M (C:=C)).
Implicit Types (h t : list C) (a k : nat).

Lemma run_bind {A B} (m : M A) (f : A → M B) h x h' :
  m h = (Ok x, h') → (m ≫= f) h = f x h'.
Proof. intros Hm. unfold mbind, M_bind. by rewrite Hm. Qed.

Lemma run_bind_raise {A B} (m : M A) (f : A → M B) h e h' :
  m h = (Raise e, h') → (m ≫= f) h = (Raise e, h').
Proof. intros Hm. unfold mbind, M_bind. by rewrite Hm. Qed.

Lemma run_alloc h t c a :
  a = (length h + length t)%nat →
  alloc c (h ++ t) = (Ok a, h ++ (t ++ [c])).
Proof. intros ->. unfold alloc. by rewrite length_app, app_assoc. Qed.

(** Reading a list the caller owns. *)
Lemma run_read_old {Y} (proj : C → option (list Y)) h t a c l :
  h !! a = Some c → proj c = Some l → read proj a (h ++ t) = (Ok l, h ++ t).
Proof.
  intros Ha Hc. unfold read, load, mbind, M_bind, heap in *.
  rewrite (lookup_app_l_Some _ _ _ _ Ha). by rewrite Hc.
Qed.

(** Reading and updating a list the method has created. *)
Lemma run_read {Y} (proj : C → option (list Y)) h t a k c l :
  a = (length h + k)%nat → t !! k = Some c → proj c = Some l →
  read proj a (h ++ t) = (Ok l, h ++ t).
Proof.
  intros -> Hk Hc. unfold read, load, mbind, M_bind, heap in *.
  rewrite lookup_app_r by lia.
  replace (length h + k - length h)%nat with k by lia.
  by rewrite Hk, Hc.
Qed.

Lemma run_store h t a k c :
  a = (length h + k)%nat →
  store a c (h ++ t) = (Ok (), h ++ <[k := c]> t).
Proof.
  intros ->. unfold store, heap in *. rewrite insert_app_r_alt by lia.
  by replace (length h + k - length h)%nat with k by lia.
Qed.

(** A loop that appends [f x] to the list at [a] for the elements that
    pass [P]. *)
Lemma run_append_loop {X Y} (proj : C → option (list Y)) (inj : list Y → C)
    (P : X → bool) (f : X → Y) (body : X → M unit) h a k :
  a = (length h + k)%nat →
  (∀ l, proj (inj l) = Some l) →
  (∀ x, body x =
        if P x then l ← read proj a; store a (inj (l ++ [f x])) else mret ()) →
  ∀ l t acc,
    t !! k = Some (inj acc) →
    for_each l body (h ++ t) =
    (Ok (), h ++ <[k := inj (acc ++ map f (List.filter P l))]> t).
Proof.
  intros Ha Hproj Hbody l. unfold for_each, heap in *.
  induction l as [|x l IH]; intros t acc Ht.
  - cbn. by rewrite app_nil_r, list_insert_id.
  - cbn [for_fold List.filter]. rewrite Hbody. destruct (P x).
    + erewrite run_bind; last first.
      { erewrite run_bind; [|by eapply run_read]. by apply run_store. }
      rewrite (IH _ (acc ++ [f x])).
      * rewrite list_insert_insert_eq. cbn [map]. by rewrite <- app_assoc.
      * apply list_lookup_insert_eq. by eapply lookup_lt_Some.
    + erewrite run_bind; [|done]. by apply IH.
Qed.
End runs.

(** *** Landing patterns *)

(** [search] on a store [patterns] at [self]: three new lists, the last
    one the result, with the patterns the function [Landing.search] gives. *)
Lemma LandingObj_search_run (h : heap) self patterns query max_results :
  h !! self = Some (LandingObj.Patterns patterns) →
  LandingObj.search self query max_results h =
  (Ok (length h + 2)%nat,
   h ++ [ LandingObj.Scored
            (sorted_by snd true
               ((λ p, (p, Landing.score (lower query) p)) <$>
                  List.filter (λ p, 0 <? Landing.score (lower query) p) patterns));
          LandingObj.Scored
            (slice_to max_results
               (sorted_by snd true
                  ((λ p, (p, Landing.score (lower query) p)) <$>
                     List.filter (λ p, 0 <? Landing.score (lower query) p) patterns)));
          LandingObj.Patterns (Landing.search patterns query max_results) ]).
Proof.
  intros Hself. unfold LandingObj.search. cbv zeta.
  rewrite <- (app_nil_r h) at 1.
  erewrite run_bind; [|by apply run_alloc]. cbn [app length].
  erewrite run_bind; [|by eapply run_read_old].
  erewrite run_bind; last first.
  { eapply (run_append_loop LandingObj.as_scored LandingObj.Scored
              (λ p, 0 <? Landing.score (lower query) p)
              (λ p, (p, Landing.score (lower query) p)) _ h _ 0);
      [done|done|done|done]. }
  cbn [app list_insert].
  erewrite run_bind; [|by eapply (run_read _ _ _ _ 0)].
  erewrite run_bind; [|by apply (run_store _ _ _ 0)].
  cbn [list_insert].
  erewrite run_bind; [|by eapply (run_read _ _ _ _ 0)].
  erewrite run_bind; [|by apply run_alloc]. cbn [app length].
  erewrite run_bind; [|by eapply (run_read _ _ _ _ 1)].
  rewrite run_alloc with (a := (length h + 2)%nat) by done. cbn [app].
  do 4 f_equal. unfold Landing.search.
  rewrite (fold_left_snoc_if _ (λ p, 0 <? Landing.score (lower query) p)
             (λ p, (p, Landing.score (lower query) p))) by done.
  done.
Qed.

Lemma LandingObj_get_pattern_run (h : heap) self patterns name :
  h !! self = Some (LandingObj.Patterns patterns) →
  LandingObj.get_pattern self name h = (Ok (Landing.get_pattern patterns name), h).
Proof.
  intros Hself. unfold LandingObj.get_pattern.
  rewrite <- (app_nil_r h) at 1.
  erewrite run_bind; [|by eapply run_read_old]. by rewrite app_nil_r.
Qed.

Lemma LandingObj_or_else_run (h : heap) a b x y :
  a h = (Ok x, h) → b h = (Ok y, h) →
  LandingObj.or_else a b h = (Ok (or_else x y), h).
Proof.
  intros Ha Hb. unfold LandingObj.or_else.
  erewrite run_bind; [|done]. by destruct x.
Qed.

(** [recommend] reads the store and creates no list. *)
Lemma LandingObj_recommend_run (h : heap) self patterns product_type goal audience :
  h !! self = Some (LandingObj.Patterns patterns) →
  LandingObj.recommend self product_type goal audience h =
  (Ok (Landing.recommend patterns product_type goal audience), h).
Proof.
  intros Hself. unfold LandingObj.recommend, Landing.recommend. cbv zeta.
  repeat match goal with |- context [if ?b then _ else _] => destruct b end;
    first [ apply LandingObj_or_else_run; by apply LandingObj_get_pattern_run
          | by apply LandingObj_get_pattern_run ].
Qed.

(** *** Component snippets *)

Lemma CodegenObj_search_components_run (h : heap) self snippets query framework category :
  h !! self = Some (CodegenObj.Snippets snippets) →
  ∃ t,
    CodegenObj.search_components self query framework category h =
      (Ok (length h + 1)%nat, h ++ t) ∧
    t !! 1%nat = Some (CodegenObj.Snippets
                         (Codegen.search_components snippets query framework category)).
Proof.
  intros Hself. eexists. unfold CodegenObj.search_components. cbv zeta.
  rewrite <- (app_nil_r h) at 1.
  erewrite run_bind; [|by apply run_alloc]. cbn [app length].
  erewrite run_bind; [|by eapply run_read_old].
  erewrite run_bind; last first.
  { eapply (run_append_loop CodegenObj.as_scored CodegenObj.Scored
              (λ s, Codegen.passes framework category s &&
                    (0 <? Codegen.score (lower query) s))
              (λ s, (s, Codegen.score (lower query) s)) _ h _ 0);
      [done|done| |done].
    intros s. by destruct (Codegen.passes framework category s). }
  cbn [app list_insert].
  erewrite run_bind; [|by eapply (run_read _ _ _ _ 0)].
  erewrite run_bind; [|by apply (run_store _ _ _ 0)].
  cbn [list_insert].
  erewrite run_bind; [|by eapply (run_read _ _ _ _ 0)].
  rewrite run_alloc with (a := (length h + 1)%nat) by done. cbn [app].
  split; [done|]. cbn. do 2 f_equal. unfold Codegen.search_components.
  rewrite (fold_left_snoc_if _ (λ s, Codegen.passes framework category s &&
                                     (0 <? Codegen.score (lower query) s))
             (λ s, (s, Codegen.score (lower query) s))); [done|].
  intros acc s. by destruct (Codegen.passes framework category s).
Qed.

(** *** Tech-stack practices and tips *)

Lemma TechStackObj_search_practices_run (h : heap) self practices stack query category
    max_results :
  h !! self = Some (TechStackObj.Practices practices) →
  ∃ t,
    TechStackObj.search_practices self stack query category max_results h =
      (Ok (length h + 1)%nat, h ++ t) ∧
    t !! 1%nat = Some (TechStackObj.Recommendations
                         (TechStack.search_practices practices stack query category
                            max_results)).
Proof.
  intros Hself. eexists. unfold TechStackObj.search_practices. cbv zeta.
  rewrite <- (app_nil_r h) at 1.
  erewrite run_bind; [|by apply run_alloc]. cbn [app length].
  erewrite run_bind; [|by eapply run_read_old].
  erewrite run_bind; last first.
  { eapply (run_append_loop TechStackObj.as_practices TechStackObj.Practices
              (TechStack.kept (lower stack) query category) id _ h _ 0);
      [done|done|done|done]. }
  cbn [app list_insert].
  erewrite run_bind; [|by apply run_alloc]. cbn [app length].
  erewrite run_bind; [|by eapply (run_read _ _ _ _ 0)].
  erewrite run_bind; [|by apply run_alloc]. cbn [app length].
  erewrite run_bind; [|by eapply (run_read _ _ _ _ 2)].
  erewrite run_bind; last first.
  { eapply (run_append_loop TechStackObj.as_recommendations TechStackObj.Recommendations
              (λ _, true) recommendation_of _ h _ 1);
      [done|done|done|done]. }
  cbn [app list_insert]. split; [done|]. cbn. do 2 f_equal.
  rewrite TechStack_search_practices_filtered, map_id.
  rewrite (filter_all (λ _, true)) by done. done.
Qed.

(** The filter loop of [get_performance_tips] on the list at [a]. *)
Lemma TechStackObj_tips_loop_run (h : heap) a k stack_lower impact effort
    (body : option TechStack.PerformanceTip → TechStack.PerformanceTip →
            Obj.M (C:=TechStackObj.cell) (option TechStack.PerformanceTip)) :
  a = (length h + k)%nat →
  (∀ s tip, body s tip =
     if tip_kept stack_lower impact effort tip
     then l ← TechStackObj.tips_at a;
          store a (TechStackObj.Tips (l ++ [tip]));; mret (Some tip)
     else mret (Some tip)) →
  ∀ performance_tips t acc s,
    t !! k = Some (TechStackObj.Tips acc) →
    for_fold performance_tips s body (h ++ t) =
    (Ok (match last performance_tips with Some tip => Some tip | None => s end),
     h ++ <[k := TechStackObj.Tips
                   (acc ++ List.filter (tip_kept stack_lower impact effort)
                                       performance_tips)]> t).
Proof.
  intros Ha Hbody performance_tips. unfold heap in *.
  induction performance_tips as [|tip l IH]; intros t acc s Ht.
  - cbn. by rewrite app_nil_r, list_insert_id.
  - cbn [for_fold List.filter]. rewrite Hbody.
    destruct (tip_kept stack_lower impact effort tip).
    + erewrite run_bind; last first.
      { erewrite run_bind; [|by eapply run_read].
        erewrite run_bind; [|by apply run_store]. done. }
      rewrite (IH _ (acc ++ [tip])).
      * rewrite list_insert_insert_eq, <- app_assoc. cbn [app].
        rewrite last_cons. by destruct (last l).
      * apply list_lookup_insert_eq. by eapply lookup_lt_Some.
    + erewrite run_bind; [|done]. rewrite (IH _ acc) by done.
      rewrite last_cons. by destruct (last l).
Qed.

(** [get_performance_tips] returns the address of the one list it has
    created, sorted in place; its elements are those the function gives. *)
Lemma TechStackObj_get_performance_tips_run (h : heap) self performance_tips stack
    impact effort :
  h !! self = Some (TechStackObj.Tips performance_tips) →
  ∃ tips,
    TechStack.get_performance_tips performance_tips stack impact effort = Ok tips ∧
    TechStackObj.get_performance_tips self stack impact effort h =
      (Ok (length h), h ++ [TechStackObj.Tips tips]).
Proof.
  intros Hself. eexists. split; [apply TechStack_get_performance_tips_filter|].
  unfold TechStackObj.get_performance_tips. cbv zeta.
  rewrite <- (app_nil_r h) at 1.
  erewrite run_bind; [|by apply run_alloc]. cbn [app length].
  erewrite run_bind; [|by eapply run_read_old].
  erewrite run_bind; last first.
  { eapply (TechStackObj_tips_loop_run h _ 0 (lower stack) impact effort);
      [done| |done].
    intros s tip. unfold tip_kept.
    destruct (String.eqb _ (lower stack)); cbn [negb andb]; [|done].
    destruct (truthy impact && _); cbn [negb andb]; [done|].
    by destruct (truthy effort && _). }
  cbn [app list_insert].
  erewrite run_bind; [|by eapply (run_read _ _ _ _ 0)].
  pose proof (TechStack_get_performance_tips_filter performance_tips stack impact effort)
    as Hpure.
  unfold TechStack.get_performance_tips in Hpure.
  rewrite TechStack_tips_loop_filter in Hpure.
  erewrite run_bind; last first.
  { unfold lift. f_equal.
    destruct (last performance_tips); exact Hpure. }
  erewrite run_bind; [|by apply (run_store _ _ _ 0)].
  cbn. by rewrite Nat.add_0_r.
Qed.

Lemma TechStackObj_get_quick_wins_run (h : heap) self performance_tips stack :
  h !! self = Some (TechStackObj.Tips performance_tips) →
  ∃ tips t,
    TechStack.get_quick_wins performance_tips stack = Ok tips ∧
    TechStackObj.get_quick_wins self stack h = (Ok (length h + 1)%nat, h ++ t) ∧
    t !! 1%nat = Some (TechStackObj.Tips tips).
Proof.
  intros Hself.
  destruct (TechStackObj_get_performance_tips_run h self performance_tips stack None None
              Hself) as (tips & Hpure & Hrun).
  eexists _, _. unfold TechStack.get_quick_wins, TechStackObj.get_quick_wins.
  rewrite Hpure. split; [done|].
  erewrite run_bind; [|exact Hrun].
  erewrite run_bind; [|by eapply (run_read _ _ _ _ 0); [by rewrite Nat.add_0_r|..]].
  rewrite run_alloc with (a := (length h + 1)%nat) by done. done.
Qed.

(** *** UX guidelines *)

(** The scoring loop of [search] stops at the first matched guideline,
    before anything is appended. *)
Lemma UXGuideObj_search_loop_run (h : heap) t query domain guidelines
    (body : UXGuide.UXGuideline → Obj.M (C:=UXGuideObj.cell) unit) :
  (∀ g, body g =
     if matched query domain g
     then priority ← lift (UXGuide._determine_priority g); body g
     else mret ()) →
  for_each guidelines body (h ++ t) =
  (if existsb (matched query domain) guidelines
   then Raise (AttributeError "A11y") else Ok (), h ++ t).
Proof.
  intros Hbody. unfold for_each.
  induction guidelines as [|g gs IH]; [done|].
  cbn [for_fold existsb]. rewrite Hbody.
  destruct (matched query domain g); cbn [orb].
  - reflexivity.
  - erewrite run_bind; [|done]. apply IH.
Qed.

Lemma UXGuideObj_search_run (h : heap) self guidelines query domain max_results :
  h !! self = Some (UXGuideObj.Guidelines guidelines) →
  ∃ t,
    UXGuideObj.search self query domain max_results h =
      (match UXGuide.search guidelines query domain max_results with
       | Ok _ => Ok (length h + 1)%nat
       | Raise e => Raise e
       end, h ++ t) ∧
    match UXGuide.search guidelines query domain max_results with
    | Ok result => t !! 1%nat = Some (UXGuideObj.Recommendations result)
    | Raise _ => True
    end.
Proof.
  intros Hself. rewrite UXGuide_search_cases.
  assert (Hbody : ∀ g,
    (if negb (UXGuide.in_domain domain g) then mret ()
     else
       let score := UXGuide.score (lower query) g in
       if 0 <? score then
         priority ← lift (UXGuide._determine_priority g);
         let effort := UXGuide.complexity g in
         let user_impact := UXGuide._determine_user_impact g in
         l ← UXGuideObj.scored_at (length h);
         store (C:=UXGuideObj.cell) (length h)
           (UXGuideObj.Scored (l ++ [(g, score, priority, effort, user_impact)]))
       else mret ()) =
    (if matched query domain g
     then priority ← lift (UXGuide._determine_priority g);
          (if negb (UXGuide.in_domain domain g) then mret ()
           else
             let score := UXGuide.score (lower query) g in
             if 0 <? score then
               priority ← lift (UXGuide._determine_priority g);
               let effort := UXGuide.complexity g in
               let user_impact := UXGuide._determine_user_impact g in
               l ← UXGuideObj.scored_at (length h);
               store (C:=UXGuideObj.cell) (length h)
                 (UXGuideObj.Scored (l ++ [(g, score, priority, effort, user_impact)]))
             else mret ())
     else mret ())).
  { intros g. unfold matched.
    destruct (UXGuide.in_domain domain g); cbn [negb andb]; [|done].
    by destruct (0 <? UXGuide.score (lower query) g). }
  destruct (existsb (matched query domain) guidelines) eqn:Hex.
  - eexists. split; [|done].
    unfold UXGuideObj.search. cbv zeta.
    rewrite <- (app_nil_r h) at 1.
    erewrite run_bind; [|by apply run_alloc]. cbn [app length]. rewrite Nat.add_0_r.
    erewrite run_bind; [|by eapply run_read_old].
    erewrite run_bind_raise; [done|].
    erewrite (UXGuideObj_search_loop_run h _ query domain); [by rewrite Hex|].
    exact Hbody.
  - eexists.
    unfold UXGuideObj.search. cbv zeta.
    rewrite <- (app_nil_r h) at 1.
    erewrite run_bind; [|by apply run_alloc]. cbn [app length]. rewrite Nat.add_0_r.
    erewrite run_bind; [|by eapply run_read_old].
    erewrite run_bind; last first.
    { erewrite (UXGuideObj_search_loop_run h _ query domain); [by rewrite Hex|].
      exact Hbody. }
    erewrite run_bind; [|by eapply (run_read _ _ _ _ 0)].
    erewrite run_bind; [|by apply (run_store _ _ _ 0)].
    cbn [list_insert].
    erewrite run_bind; [|by apply run_alloc]. cbn [app length].
    erewrite run_bind; [|by eapply (run_read _ _ _ _ 0)].
    erewrite run_bind; [|by apply run_alloc]. cbn [app length].
    erewrite run_bind; [|by eapply (run_read _ _ _ _ 2)].
    assert (Hslice : slice_to max_results (@nil UXGuide.scored) = []).
    { unfold slice_to. destruct (max_results <? 0); apply take_nil. }
    cbn. rewrite Hslice. cbn. done.
Qed.

(** **** Quick wins on list objects *)

Section quick_wins_runs.
Implicit Types (G : UXGuide.groups) (D : UXGuideObj.dict UXGuide.UXDomain)
  (H post : list UXGuideObj.cell) (d : UXGuide.UXDomain).

Lemma dict_get_app_other D D' d :
  Forall (λ entry, entry.1 ≠ d) D →
  UXGuideObj.dict_get (D ++ D') d = UXGuideObj.dict_get D' d.
Proof.
  induction 1 as [|[k a] D Hk HD IH]; [done|]. cbn in *. by rewrite decide_False.
Qed.

Lemma addresses_keys base G : (UXGuideObj.addresses base G).*1 = G.*1.
Proof.
  revert base. induction G as [|[d l] G IH]; intros base; [done|].
  cbn. by rewrite IH.
Qed.

Lemma addresses_same_keys base G G' :
  G.*1 = G'.*1 → UXGuideObj.addresses base G = UXGuideObj.addresses base G'.
Proof.
  revert base G'. induction G as [|[d l] G IH]; intros base [|[d' l'] G'] Hk;
    try done.
  cbn in *. injection Hk as -> Hk. by rewrite (IH _ G').
Qed.

Lemma cells_length G : length (UXGuideObj.cells G) = length G.
Proof. unfold UXGuideObj.cells. by rewrite length_fmap. Qed.

Lemma groups_set_same_keys G d l :
  d ∈ G.*1 → (UXGuide.groups_set G d l).*1 = G.*1.
Proof. intros Hd. rewrite groups_set_keys. by rewrite decide_True. Qed.

Lemma cells_cons d l G :
  UXGuideObj.cells ((d, l) :: G) = UXGuideObj.Recommendations l :: UXGuideObj.cells G.
Proof. done. Qed.

(** One turn of the grouping loop, on the cells of the groups. *)
Lemma UXGuideObj_group_turn_run G rec : ∀ D H base,
  length H = base →
  Forall (λ entry, entry.1 ≠ UXGuide.domain (UXGuide.guideline rec)) D →
  UXGuideObj.group_turn (D ++ UXGuideObj.addresses base G) rec (H ++ UXGuideObj.cells G) =
  (Ok (D ++ UXGuideObj.addresses base (add_to_group G rec)),
   H ++ UXGuideObj.cells (add_to_group G rec)).
Proof.
  unfold add_to_group. set (d := UXGuide.domain (UXGuide.guideline rec)).
  induction G as [|[k l] G IH]; intros D H base Hbase HD.
  - unfold UXGuideObj.group_turn, UXGuideObj.groups_item. fold d.
    rewrite dict_get_app_other by done. cbn [UXGuideObj.addresses UXGuideObj.dict_get].
    cbn [UXGuideObj.cells fmap list_fmap].
    erewrite run_bind; last first.
    { erewrite run_bind; [|by apply run_alloc]. done. }
    cbn [app length]. rewrite Nat.add_0_r, Hbase.
    erewrite run_bind; [|by eapply (run_read _ _ _ _ 0); [by rewrite Nat.add_0_r|..]].
    erewrite run_bind; [|by apply (run_store _ _ _ 0); rewrite Nat.add_0_r].
    cbn. by rewrite app_nil_r.
  - cbn [UXGuide.groups_get UXGuide.groups_set].
    destruct (decide (k = d)) as [->|Hkd].
    + unfold UXGuideObj.group_turn, UXGuideObj.groups_item. fold d.
      rewrite dict_get_app_other by done.
      cbn [UXGuideObj.addresses UXGuideObj.dict_get]. rewrite decide_True by done.
      cbn [UXGuideObj.cells fmap list_fmap snd].
      erewrite run_bind; [|done]. cbv beta iota.
      erewrite run_bind; [|by eapply (run_read _ _ _ _ 0); [by rewrite Nat.add_0_r|..]].
      erewrite run_bind; [|by apply (run_store _ _ _ 0); rewrite Nat.add_0_r].
      done.
    + rewrite !cells_cons. cbn [UXGuideObj.addresses].
      replace (D ++ (k, base) :: UXGuideObj.addresses (S base) G)
        with ((D ++ [(k, base)]) ++ UXGuideObj.addresses (S base) G)
        by by rewrite <- app_assoc.
      replace (H ++ UXGuideObj.Recommendations l :: UXGuideObj.cells G)
        with ((H ++ [UXGuideObj.Recommendations l]) ++ UXGuideObj.cells G)
        by by rewrite <- app_assoc.
      rewrite (IH (D ++ [(k, base)]) (H ++ [UXGuideObj.Recommendations l]) (S base)).
      * by rewrite <- !app_assoc.
      * rewrite length_app. cbn. lia.
      * apply Forall_app. by repeat constructor.
Qed.

Lemma UXGuideObj_grouping_run quick_wins : ∀ G H base,
  length H = base →
  for_fold quick_wins (UXGuideObj.addresses base G) UXGuideObj.group_turn
           (H ++ UXGuideObj.cells G) =
  (Ok (UXGuideObj.addresses base (fold_left add_to_group quick_wins G)),
   H ++ UXGuideObj.cells (fold_left add_to_group quick_wins G)).
Proof.
  induction quick_wins as [|rec l IH]; intros G H base Hbase; [done|].
  cbn [for_fold fold_left].
  erewrite run_bind; [|by apply (UXGuideObj_group_turn_run G rec [] H base)].
  by apply IH.
Qed.

(** A key of the groups: its list object is at a known address, and an
    update in place of that list is an update of the group. *)
Lemma UXGuideObj_groups_item_run G d : ∀ D H post base,
  length H = base →
  Forall (λ entry, entry.1 ≠ d) D →
  d ∈ G.*1 →
  ∃ a,
    UXGuideObj.groups_item (D ++ UXGuideObj.addresses base G) d
      (H ++ UXGuideObj.cells G ++ post) =
      (Ok (D ++ UXGuideObj.addresses base G, a), H ++ UXGuideObj.cells G ++ post) ∧
    UXGuideObj.recommendations_at a (H ++ UXGuideObj.cells G ++ post) =
      (Ok (UXGuide.groups_get G d), H ++ UXGuideObj.cells G ++ post) ∧
    ∀ l, store a (UXGuideObj.Recommendations l) (H ++ UXGuideObj.cells G ++ post) =
         (Ok (), H ++ UXGuideObj.cells (UXGuide.groups_set G d l) ++ post).
Proof.
  induction G as [|[k l] G IH]; intros D H post base Hbase HD Hd.
  - by apply elem_of_nil in Hd.
  - cbn [UXGuide.groups_get UXGuide.groups_set].
    destruct (decide (k = d)) as [->|Hkd].
    + exists base. rewrite !cells_cons. cbn [app]. repeat split.
      * unfold UXGuideObj.groups_item. rewrite dict_get_app_other by done.
        cbn [UXGuideObj.addresses UXGuideObj.dict_get]. by rewrite decide_True.
      * by eapply (run_read _ _ _ _ 0); [by rewrite Nat.add_0_r|..].
      * intros l'. rewrite cells_cons. cbn [app].
        by rewrite (run_store H _ base 0) by by rewrite Nat.add_0_r.
    + assert (Hd' : d ∈ G.*1).
      { cbn in Hd. apply elem_of_cons in Hd as [?|?]; [congruence|done]. }
      destruct (IH (D ++ [(k, base)]) (H ++ [UXGuideObj.Recommendations l]) post (S base))
        as (a & Ha1 & Ha2 & Ha3); [rewrite length_app; cbn; lia| |done|].
      { apply Forall_app. by repeat constructor. }
      assert (Hcons : ∀ c : list UXGuideObj.cell,
                (H ++ [UXGuideObj.Recommendations l]) ++ c =
                H ++ UXGuideObj.Recommendations l :: c)
        by (intros c; by rewrite <- app_assoc).
      assert (HconsD : (D ++ [(k, base)]) ++ UXGuideObj.addresses (S base) G =
                       D ++ (k, base) :: UXGuideObj.addresses (S base) G)
        by by rewrite <- app_assoc.
      rewrite !Hcons in Ha1. rewrite !Hcons in Ha2. rewrite !HconsD in Ha1.
      exists a. rewrite !cells_cons. cbn [UXGuideObj.addresses app].
      split; [exact Ha1|split; [exact Ha2|]].
      intros l'. specialize (Ha3 l'). by rewrite !Hcons in Ha3.
Qed.

(** The test of the [while] loop on the result and domains lists. *)
Lemma UXGuideObj_draw_test_run G H base res ds max_results :
  length H = base →
  UXGuideObj.draw_test (base + length G) (S (base + length G)) max_results
    (H ++ UXGuideObj.cells G ++
       [UXGuideObj.Recommendations res; UXGuideObj.Domains ds]) =
  (Ok ((Z.of_nat (length res) <? max_results) && negb (bool_decide (ds = []))),
   H ++ UXGuideObj.cells G ++
     [UXGuideObj.Recommendations res; UXGuideObj.Domains ds]).
Proof.
  intros Hbase. unfold UXGuideObj.draw_test. rewrite app_assoc.
  assert (Hlen : length (H ++ UXGuideObj.cells G) = (base + length G)%nat).
  { by rewrite length_app, cells_length, Hbase. }
  erewrite run_bind; [|by eapply (run_read _ _ _ _ 0); [lia|..]].
  erewrite run_bind; [|by eapply (run_read _ _ _ _ 1); [lia|..]].
  done.
Qed.

Lemma turn_groups_keys G d : d ∈ G.*1 → (turn_groups G d).*1 = G.*1.
Proof.
  intros Hd. unfold turn_groups.
  destruct (UXGuide.groups_get G d); [done|]. by apply groups_set_same_keys.
Qed.

(** The body of the [while] loop on the cells. *)
Lemma UXGuideObj_draw_turn_run G H base res d ds :
  length H = base →
  d ∈ G.*1 →
  UXGuideObj.draw_turn (base + length G) (S (base + length G))
    (UXGuideObj.addresses base G)
    (H ++ UXGuideObj.cells G ++
       [UXGuideObj.Recommendations res; UXGuideObj.Domains (d :: ds)]) =
  (Ok (UXGuideObj.addresses base G),
   H ++ UXGuideObj.cells (turn_groups G d) ++
     [UXGuideObj.Recommendations (turn_result G d res); UXGuideObj.Domains ds]).
Proof.
  intros Hbase Hd. unfold UXGuideObj.draw_turn, UXGuideObj.pop_domain.
  assert (Hlen : ∀ G', G'.*1 = G.*1 →
            length (H ++ UXGuideObj.cells G') = (base + length G)%nat).
  { intros G' HG'. rewrite length_app, cells_length, Hbase.
    by rewrite <- (length_fmap fst G'), HG', length_fmap. }
  rewrite app_assoc.
  erewrite run_bind; last first.
  { erewrite run_bind; [|by eapply (run_read _ _ _ _ 1); [rewrite Hlen by done; lia|..]].
    cbv beta iota.
    erewrite run_bind; [|by eapply (run_store _ _ _ 1); rewrite Hlen by done; lia].
    done. }
  cbn [list_insert]. rewrite <- app_assoc.
  destruct (UXGuideObj_groups_item_run G d [] H
              [UXGuideObj.Recommendations res; UXGuideObj.Domains ds] base)
    as (a & Ha1 & Ha2 & Ha3); [done|constructor|done|].
  cbn [app] in Ha1.
  erewrite run_bind; [|exact Ha1]. cbv beta iota.
  erewrite run_bind; [|exact Ha2].
  unfold turn_groups, turn_result.
  destruct (UXGuide.groups_get G d) as [|rec rest] eqn:Hget; [done|].
  unfold UXGuideObj.pop_recommendation.
  erewrite run_bind; last first.
  { erewrite run_bind; [|exact Ha2]. cbv beta iota.
    erewrite run_bind; [|by apply Ha3]. done. }
  rewrite app_assoc.
  assert (Hkeys : (UXGuide.groups_set G d rest).*1 = G.*1)
    by by apply groups_set_same_keys.
  erewrite run_bind; [|by eapply (run_read _ _ _ _ 0); [rewrite Hlen by done; lia|..]].
  erewrite run_bind; [|by eapply (run_store _ _ _ 0); rewrite Hlen by done; lia].
  cbn [list_insert]. by rewrite <- app_assoc.
Qed.

(** The [while] loop computes [draw]: with one turn of fuel per domain the
    loop ends by its test. *)
Lemma UXGuideObj_draw_run H base max_results fuel : ∀ ds G res,
  length H = base →
  (length ds ≤ fuel)%nat →
  Forall (λ d, d ∈ G.*1) ds →
  ∃ G' ds',
    G'.*1 = G.*1 ∧
    while fuel (UXGuideObj.addresses base G)
      (UXGuideObj.draw_test (base + length G) (S (base + length G)) max_results)
      (UXGuideObj.draw_turn (base + length G) (S (base + length G)))
      (H ++ UXGuideObj.cells G ++
         [UXGuideObj.Recommendations res; UXGuideObj.Domains ds]) =
    (Ok (UXGuideObj.addresses base G),
     H ++ UXGuideObj.cells G' ++
       [UXGuideObj.Recommendations (UXGuide.draw max_results ds G res);
        UXGuideObj.Domains ds']).
Proof.
  induction fuel as [|fuel IH]; intros ds G res Hbase Hfuel Hds.
  - destruct ds; [|cbn in Hfuel; lia]. by exists G, [].
  - cbn [while]. erewrite run_bind; [|by apply UXGuideObj_draw_test_run].
    destruct ds as [|d ds].
    { rewrite andb_false_r. by exists G, []. }
    cbn [UXGuide.draw].
    replace (bool_decide (d :: ds = [])) with false
      by (symmetry; by apply bool_decide_eq_false_2).
    rewrite andb_true_r.
    destruct (Z.of_nat (length res) <? max_results); [|by exists G, (d :: ds)].
    apply Forall_cons in Hds as [Hd Hds].
    erewrite run_bind; [|by apply UXGuideObj_draw_turn_run].
    pose proof (turn_groups_keys G d Hd) as Hkeys.
    assert (Hlen : length (turn_groups G d) = length G).
    { by rewrite <- (length_fmap fst (turn_groups G d)), Hkeys, length_fmap. }
    destruct (IH ds (turn_groups G d) (turn_result G d res))
      as (G' & ds' & HG' & Hrun);
      [done|cbn in Hfuel; lia|by rewrite Hkeys|].
    rewrite Hlen, (addresses_same_keys base _ G Hkeys) in Hrun.
    exists G', ds'. split; [congruence|]. rewrite Hrun. do 4 f_equal.
    unfold turn_groups, turn_result. by destruct (UXGuide.groups_get G d).
Qed.

(** [get_quick_wins] on a store [guidelines] at [self] returns the address
    of a new list that holds the recommendations the function
    [UXGuide.get_quick_wins] gives. *)
Lemma UXGuideObj_get_quick_wins_run (h : heap) self guidelines shuffle max_results :
  h !! self = Some (UXGuideObj.Guidelines guidelines) →
  (∀ domains, shuffle domains ≡ₚ domains) →
  ∃ t,
    UXGuideObj.get_quick_wins shuffle self max_results h =
      (Ok (length h + 1 +
           length (UXGuide.group_by_domain (UXGuide.quick_wins_of guidelines)))%nat,
       h ++ t) ∧
    t !! (1 + length (UXGuide.group_by_domain (UXGuide.quick_wins_of guidelines)))%nat =
      Some (UXGuideObj.Recommendations
              (UXGuide.get_quick_wins shuffle guidelines max_results)).
Proof.
  intros Hself Hshuffle.
  set (qw := UXGuide.quick_wins_of guidelines).
  set (G := UXGuide.group_by_domain qw).
  assert (Hds : Forall (λ d, d ∈ G.*1) (shuffle G.*1)).
  { apply Forall_forall. intros d Hd. by rewrite Hshuffle in Hd. }
  destruct (UXGuideObj_draw_run (h ++ [UXGuideObj.Recommendations qw])
              (length h + 1) max_results (length (shuffle G.*1))
              (shuffle G.*1) G [])
    as (G' & ds' & HG' & Hwhile); [rewrite length_app; cbn; lia|done|done|].
  exists ([UXGuideObj.Recommendations qw] ++ UXGuideObj.cells G' ++
          [UXGuideObj.Recommendations (UXGuide.get_quick_wins shuffle guidelines max_results);
           UXGuideObj.Domains ds']).
  split.
  - unfold UXGuideObj.get_quick_wins.
    rewrite <- (app_nil_r h) at 1.
    erewrite run_bind; [|by apply run_alloc]. cbn [app length]. rewrite Nat.add_0_r.
    erewrite run_bind; [|by eapply run_read_old].
    erewrite run_bind; last first.
    { eapply (run_append_loop UXGuideObj.as_recommendations UXGuideObj.Recommendations
                is_quick_win quick_win_of _ h _ 0);
        [by rewrite Nat.add_0_r|done| |done].
      intros g. unfold is_quick_win.
      destruct (String.eqb _ "low"); cbn [andb]; [|done].
      by destruct (in_list _ _). }
    cbn [app list_insert].
    change (map quick_win_of (List.filter is_quick_win guidelines))
      with (quick_win_of <$> List.filter is_quick_win guidelines).
    rewrite <- UXGuide_quick_wins_of_filter. fold qw.
    erewrite run_bind; [|by eapply (run_read _ _ _ _ 0); [by rewrite Nat.add_0_r|..]].
    erewrite run_bind; last first.
    { rewrite <- (app_nil_r (h ++ _)).
      apply (UXGuideObj_grouping_run qw [] (h ++ [UXGuideObj.Recommendations qw])
               (length h + 1)).
      rewrite length_app. cbn. lia. }
    change (fold_left add_to_group qw []) with G.
    assert (Hlen : length ((h ++ [UXGuideObj.Recommendations qw]) ++ UXGuideObj.cells G)
                   = (length h + 1 + length G)%nat).
    { rewrite !length_app, cells_length. cbn. lia. }
    rewrite <- (app_nil_r (_ ++ UXGuideObj.cells G)).
    erewrite run_bind; [|by apply run_alloc]. cbn [app length]. rewrite Nat.add_0_r, Hlen.
    erewrite run_bind; [|by apply run_alloc]. cbn [app length]. rewrite Hlen.
    rewrite addresses_keys.
    erewrite run_bind; [|by eapply (run_read _ _ _ _ 1); [rewrite Hlen; lia|..]].
    erewrite run_bind; [|by eapply (run_store _ _ _ 1); rewrite Hlen; lia].
    cbn [list_insert].
    erewrite run_bind; [|by eapply (run_read _ _ _ _ 1); [rewrite Hlen; lia|..]].
    rewrite <- app_assoc.
    replace (length h + 1 + length G + 1)%nat with (S (length h + 1 + length G)) by lia.
    erewrite run_bind; [|exact Hwhile].
    cbn. by rewrite <- !app_assoc.
  - assert (Hlen' : length (UXGuideObj.cells G') = length G).
    { by rewrite cells_length, <- (length_fmap fst G'), HG', length_fmap. }
    rewrite lookup_app_r by (cbn; lia). cbn [length].
    rewrite lookup_app_r by lia.
    by replace (1 + length G - 1 - length (UXGuideObj.cells G'))%nat with 0%nat by lia.
Qed.
End quick_wins_runs.

(** [get_checklist] on the default guidelines: one new list per domain, in
    the order and with the lines the function [UXGuide.get_checklist] gives. *)
Example UXGuideObj_get_checklist_defaults :
  UXGuideObj.get_checklist 0 None [UXGuideObj.Guidelines UXGuide._get_default_guidelines] =
  (Ok [("Animation", 1%nat); ("A11y", 2%nat); ("Performance", 3%nat)],
   UXGuideObj.Guidelines UXGuide._get_default_guidelines ::
   ((λ entry, UXGuideObj.Lines entry.2)
      <$> UXGuide.get_checklist UXGuide._get_default_guidelines None)).
Proof. by vm_compute. Qed.

(** C10.  No query method changes a store list.  With every list object
    in a heap cell ([self.patterns], [self.guidelines], [self.practices],
    [self.performance_tips], [self.snippets] at the address [self], the
    lists a method builds at new addresses), the heap after a call, be it
    a return or a raise, starts with the heap before it: each list that
    existed keeps its elements and their order, and the appends, in-place
    sorts, pops and the shuffle all land on lists the call has created. *)
Theorem C10_query_methods_keep_the_store :
  (∀ (h : heap) self query max_results,
     h `prefix_of` (LandingObj.search self query max_results h).2) ∧
  (∀ (h : heap) self product_type goal audience,
     h `prefix_of` (LandingObj.recommend self product_type goal audience h).2) ∧
  (∀ (h : heap) self pattern,
     h `prefix_of` (LandingObj.generate_structure self pattern h).2) ∧
  (∀ (h : heap) self query framework category,
     h `prefix_of` (CodegenObj.search_components self query framework category h).2) ∧
  (∀ (h : heap) self stack query category max_results,
     h `prefix_of`
       (TechStackObj.search_practices self stack query category max_results h).2) ∧
  (∀ (h : heap) self stack impact effort,
     h `prefix_of` (TechStackObj.get_performance_tips self stack impact effort h).2) ∧
  (∀ (h : heap) self stack,
     h `prefix_of` (TechStackObj.get_quick_wins self stack h).2) ∧
  (∀ (h : heap) self query domain max_results,
     h `prefix_of` (UXGuideObj.search self query domain max_results h).2) ∧
  (∀ (h : heap) shuffle self max_results,
     h `prefix_of` (UXGuideObj.get_quick_wins shuffle self max_results h).2) ∧
  (∀ (h : heap) self domains,
     h `prefix_of` (UXGuideObj.get_checklist self domains h).2).
Proof.
  repeat split; intros; apply local_prefix.
  - apply LandingObj_search_local.
  - apply LandingObj_recommend_local.
  - apply LandingObj_generate_structure_local.
  - apply CodegenObj_search_components_local.
  - apply TechStackObj_search_practices_local.
  - eapply local_weaken; [apply TechStackObj_get_performance_tips_local|done].
  - apply TechStackObj_get_quick_wins_local.
  - apply UXGuideObj_search_local.
  - apply UXGuideObj_get_quick_wins_local.
  - apply UXGuideObj_get_checklist_local.
Qed.

(** * Parsers, generators and listings

    Properties of the parsers and generators of landing.py and codegen.py,
    of the listing functions, the checklist and the anti-patterns. *)

(** ** Facts about strings and lists *)

#[local] Arguments String.append !_ _ / : simpl nomatch.

Section text.

Lemma to_lower_idemp c : to_lower (to_lower c) = to_lower c.
Proof.
  destruct c as [[] [] [] [] [] [] [] []]; reflexivity.
Qed.

Lemma lower_idemp s : lower (lower s) = lower s.
Proof.
  induction s as [|c s IH]; simpl; [done|]. by rewrite to_lower_idemp, IH.
Qed.

Lemma append_assoc (a b c : string) : (a +:+ b) +:+ c = a +:+ (b +:+ c).
Proof. induction a as [|x a IH]; simpl; [done|]. by rewrite IH. Qed.

Lemma append_nil_r (a : string) : a +:+ "" = a.
Proof. induction a as [|x a IH]; simpl; [done|]. by rewrite IH. Qed.

Lemma startswith_spec p s : startswith p s = true ↔ ∃ r, s = p +:+ r.
Proof.
  revert s. induction p as [|a p IH]; intros s; simpl.
  - split; [by exists s|done].
  - destruct s as [|b s]; simpl.
    + split; [done|]. by intros [r Hr].
    + rewrite andb_true_iff, IH, Ascii.eqb_eq. split.
      * intros [-> [r ->]]. by exists r.
      * intros [r Hr]. injection Hr as -> ->. split; [done|by exists r].
Qed.

Lemma str_in_spec needle hay :
  str_in needle hay = true ↔ ∃ a b, hay = a +:+ needle +:+ b.
Proof.
  induction hay as [|c hay IH].
  - simpl. rewrite orb_false_r, startswith_spec. split.
    + intros [r Hr]. by exists "", r.
    + intros [[|x a] [b Hb]]; [by exists b|done].
  - cbn [str_in]. rewrite orb_true_iff, IH, startswith_spec. split.
    + intros [[r Hr]|[a [b Hb]]].
      * by exists "", r.
      * exists (String c a), b. simpl. by rewrite Hb.
    + intros [[|x a] [b Hb]].
      * left. by exists b.
      * right. simpl in Hb. injection Hb as -> ->. by exists a, b.
Qed.

Lemma str_in_refl s : str_in s s = true.
Proof. apply str_in_spec. exists "", "". by rewrite append_nil_r. Qed.

Lemma str_in_empty hay : str_in "" hay = true.
Proof. by destruct hay. Qed.

Lemma str_in_trans a b c :
  str_in a b = true → str_in b c = true → str_in a c = true.
Proof.
  rewrite !str_in_spec. intros (x & y & ->) (u & v & ->).
  exists (u +:+ x), (y +:+ v). by rewrite !append_assoc.
Qed.

Lemma str_in_false_trans a b c :
  str_in a b = true → str_in a c = false → str_in b c = false.
Proof.
  intros Hab Hac. destruct (str_in b c) eqn:Hbc; [|done].
  by rewrite (str_in_trans _ _ _ Hab Hbc) in Hac.
Qed.

Lemma split_from_nonempty sep cur s : split_from sep cur s ≠ [].
Proof.
  revert cur. induction s as [|c s IH]; intros cur; simpl; [done|].
  destruct (Ascii.eqb c sep); [done|apply IH].
Qed.

Lemma split_nonempty sep s : split sep s ≠ [].
Proof. apply split_from_nonempty. Qed.

End text.

Section stripping.

Lemma lstrip_string_of_list l c :
  lstrip (string_of_list_ascii (l ++ [c]))
  = match lstrip (string_of_list_ascii l) with
    | EmptyString => lstrip (String c EmptyString)
    | t => t +:+ String c EmptyString
    end.
Proof.
  induction l as [|x l IH]; [done|].
  cbn [app string_of_list_ascii lstrip]. destruct (isspace x); [exact IH|].
  simpl. f_equal. clear. induction l as [|y l IH]; simpl; [done|]. by rewrite IH.
Qed.

Lemma list_ascii_of_string_app s c :
  list_ascii_of_string (s +:+ String c EmptyString) = list_ascii_of_string s ++ [c].
Proof. induction s as [|x s IH]; simpl; [done|]. by rewrite IH. Qed.

(** [rstrip], read from the left. *)
Lemma rstrip_cons c s :
  rstrip (String c s)
  = match rstrip s with
    | EmptyString => if isspace c then EmptyString else String c EmptyString
    | t => String c t
    end.
Proof.
  unfold rstrip. cbn [list_ascii_of_string List.rev].
  rewrite lstrip_string_of_list.
  destruct (lstrip (string_of_list_ascii (List.rev (list_ascii_of_string s))))
    as [|y t] eqn:Hl.
  - cbn. by destruct (isspace c).
  - rewrite list_ascii_of_string_app, List.rev_app_distr.
    cbn [List.rev list_ascii_of_string app string_of_list_ascii].
    by destruct (List.rev (list_ascii_of_string t)).
Qed.

Lemma rstrip_empty : rstrip "" = "".
Proof. done. Qed.

Lemma rstrip_idemp s : rstrip (rstrip s) = rstrip s.
Proof.
  induction s as [|c s IH]; [done|].
  rewrite rstrip_cons. destruct (rstrip s) as [|y t] eqn:Hr.
  - destruct (isspace c) eqn:Hc; [done|]. rewrite rstrip_cons, rstrip_empty. by rewrite Hc.
  - rewrite rstrip_cons, IH. done.
Qed.

(** A string that starts with a character other than white space keeps
    it under [rstrip] and under [strip]. *)
Lemma rstrip_head c s :
  isspace c = false → ∃ t, rstrip (String c s) = String c t.
Proof.
  intros Hc. rewrite rstrip_cons, Hc. destruct (rstrip s); by eexists.
Qed.

Lemma strip_head c s :
  isspace c = false → ∃ t, strip (String c s) = String c t.
Proof.
  intros Hc. unfold strip. cbn [lstrip]. rewrite Hc. by apply rstrip_head.
Qed.

Lemma lstrip_cases s :
  lstrip s = "" ∨ ∃ c t, lstrip s = String c t ∧ isspace c = false.
Proof.
  induction s as [|c s IH]; [by left|]. simpl.
  destruct (isspace c) eqn:Hc; [done|]. right. by exists c, s.
Qed.

Lemma strip_idemp s : strip (strip s) = strip s.
Proof.
  unfold strip. destruct (lstrip_cases s) as [->|(c & t & -> & Hc)]; [done|].
  destruct (rstrip_head c t Hc) as [u Hu]. rewrite Hu.
  cbn [lstrip]. rewrite Hc, <- Hu. apply rstrip_idemp.
Qed.

End stripping.

Section lines.

Lemma char_in_cons c x s :
  str_in (String c "") (String x s) = Ascii.eqb c x || str_in (String c "") s.
Proof. cbn [str_in startswith]. by rewrite andb_true_r. Qed.

Lemma char_in_app c a b :
  str_in (String c "") (a +:+ b) = str_in (String c "") a || str_in (String c "") b.
Proof.
  induction a as [|x a IH].
  - cbn [String.append]. change (str_in (String c "") "") with false. done.
  - change (String x a +:+ b) with (String x (a +:+ b)).
    rewrite !char_in_cons, IH. by rewrite orb_assoc.
Qed.

(** The first line of a text. *)
Lemma split_from_line sep cur a b :
  str_in (String sep "") a = false →
  split_from sep cur (a +:+ String sep b) = (cur +:+ a) :: split_from sep "" b.
Proof.
  revert cur. induction a as [|c a IH]; intros cur Ha.
  - cbn [String.append split_from]. by rewrite Ascii.eqb_refl, append_nil_r.
  - rewrite char_in_cons in Ha. apply orb_false_elim in Ha as [Hc Ha].
    change (String c a +:+ String sep b) with (String c (a +:+ String sep b)).
    cbn [split_from]. rewrite Ascii.eqb_sym, Hc, IH by done.
    unfold snoc_char. by rewrite append_assoc.
Qed.

Lemma split_from_line2 sep a b rest :
  str_in (String sep "") a = false → str_in (String sep "") b = false →
  split_from sep "" (a +:+ b +:+ String sep rest) = (a +:+ b) :: split_from sep "" rest.
Proof.
  intros Ha Hb. rewrite <- append_assoc.
  rewrite (split_from_line sep "" (a +:+ b)); [done|].
  by rewrite char_in_app, Ha, Hb.
Qed.

Lemma split_from_line3 sep a b c rest :
  str_in (String sep "") a = false → str_in (String sep "") b = false →
  str_in (String sep "") c = false →
  split_from sep "" (a +:+ b +:+ c +:+ String sep rest)
  = (a +:+ b +:+ c) :: split_from sep "" rest.
Proof.
  intros Ha Hb Hc. rewrite <- (append_assoc b), <- (append_assoc a).
  rewrite (split_from_line sep "" (a +:+ b +:+ c)); [done|].
  by rewrite !char_in_app, Ha, Hb, Hc.
Qed.

Lemma split_from_empty_line sep rest :
  split_from sep "" (String sep rest) = "" :: split_from sep "" rest.
Proof. cbn [split_from]. by rewrite Ascii.eqb_refl. Qed.

Lemma append_nil_l (s : string) : "" +:+ s = s.
Proof. done. Qed.

Lemma nl_append s : nl +:+ s = String newline s.
Proof. done. Qed.

(** A line that starts a comment or goes on with one is no import. *)
Lemma comment_line_is_no_import text :
  startswith "import " (strip (" *" +:+ text)) = false.
Proof.
  unfold strip. change (lstrip (" *" +:+ text)) with (String "*" text).
  by destruct (rstrip_head "*" text eq_refl) as [t ->].
Qed.

Lemma comment_start_is_no_import text :
  startswith "import " (strip ("/*" +:+ text)) = false.
Proof.
  change ("/*" +:+ text) with (String "/" ("*" +:+ text)).
  by destruct (strip_head "/" ("*" +:+ text) eq_refl) as [t ->].
Qed.

End lines.

Section filters.

Lemma existsb_equal {A} (f g : A → bool) l :
  (∀ x, f x = g x) → existsb f l = existsb g l.
Proof. intros Hfg. induction l as [|x l IH]; [done|]. cbn. by rewrite Hfg, IH. Qed.

Lemma existsb_none {A} (f : A → bool) l :
  (∀ x, f x = false) → existsb f l = false.
Proof. intros Hf. induction l as [|x l IH]; [done|]. cbn. by rewrite Hf, IH. Qed.

Lemma filter_equal {A} (P Q : A → bool) l :
  (∀ x, P x = Q x) → List.filter P l = List.filter Q l.
Proof. intros HPQ. induction l as [|x l IH]; [done|]. cbn. by rewrite HPQ, IH. Qed.

End filters.

(** ** landing.py: section types *)

(** [p] contains [q], which is not in [s]: neither is [p]. *)
Ltac shadowed H p :=
  match type of H with
  | str_in ?q ?s = false =>
      let H' := fresh "H" in
      assert (str_in p s = false) as H'
        by (apply (str_in_false_trans q p s); [vm_compute; reflexivity | exact H]);
      rewrite ?H'
  end.

Lemma first_type_deciding s :
  first_type Landing.type_map s = first_type deciding_patterns s.
Proof.
  unfold first_type, Landing.type_map, deciding_patterns.
  cbn [List.find existsb snd fst].
  destruct (str_in "hero" s) eqn:Hhero; [done|].
  shadowed Hhero "video_hero". shadowed Hhero "split_hero". shadowed Hhero "dark_hero".
  cbn [orb].
  destruct (str_in "single_cta" s) eqn:Hsingle; [done|]. cbn [orb].
  destruct (str_in "feature" s) eqn:Hfeature.
  { by rewrite !orb_true_r. }
  shadowed Hfeature "features". shadowed Hfeature "zigzag_features".
  shadowed Hfeature "dark_features". cbn [orb].
  destruct (str_in "pricing" s) eqn:Hpricing.
  { rewrite ?orb_true_r. cbn [orb]. by rewrite ?orb_true_r. }
  shadowed Hpricing "pricing_plans". cbn [orb].
  destruct (str_in "plans" s) eqn:Hplans; [done|]. cbn [orb].
  destruct (str_in "testimonials" s) eqn:Ht; [done|]. cbn [orb].
  destruct (str_in "social_proof" s) eqn:Hs; [done|]. cbn [orb].
  destruct (str_in "reviews" s) eqn:Hr; [done|]. cbn [orb].
  destruct (str_in "comparison" s) eqn:Hc.
  { by rewrite ?orb_true_r. }
  shadowed Hc "comparison_table". cbn [orb].
  destruct (str_in "faq" s) eqn:Hfaq; [done|].
  shadowed Hfaq "faq_categories". cbn [orb].
  destruct (str_in "questions" s) eqn:Hq; [done|]. cbn [orb].
  destruct (str_in "interactive_demo" s) eqn:Hi; [done|]. cbn [orb].
  destruct (str_in "product_gallery" s) eqn:Hp; [done|]. cbn [orb].
  destruct (str_in "stats" s) eqn:Hstats.
  { by rewrite ?orb_true_r. }
  shadowed Hstats "stats_dashboard". cbn [orb].
  destruct (str_in "trust_badges" s) eqn:Htb; [done|]. cbn [orb].
  destruct (str_in "cta" s) eqn:Hcta; [done|].
  shadowed Hcta "contact_cta". shadowed Hcta "repeating_ctas". cbn [orb].
  done.
Qed.

(** X1.  [_infer_section_type] gives the first type, in the order of the
    table, one of whose patterns occurs in the lower-cased name, and
    "content" when none does; nineteen of the thirty-two patterns of the
    table decide this, the other thirteen are shadowed: the table without
    them gives the same type for every name. *)
Theorem X1_infer_section_type_deciding_patterns name :
  Landing._infer_section_type name = first_type deciding_patterns (lower name) ∧
  length (concat (snd <$> Landing.type_map)) = 32%nat ∧
  length (concat (snd <$> deciding_patterns)) = 19%nat ∧
  Forall (λ entry, ∃ patterns, (entry.1, patterns) ∈ Landing.type_map ∧
                               entry.2 ⊆ patterns)
         deciding_patterns.
Proof.
  split; [exact (first_type_deciding (lower name))|]. split; [done|]. split; [done|].
  repeat constructor; eexists; (split; [apply list_elem_of_In; cbn; tauto|]);
    intros pattern Hpattern; apply list_elem_of_In in Hpattern;
    apply list_elem_of_In; cbn in *; tauto.
Qed.

Lemma first_type_cases table s :
  first_type table s = "content" ∨ first_type table s ∈ table.*1.
Proof.
  unfold first_type. destruct (List.find _ table) as [[t ps]|] eqn:Hfind; [|by left].
  right. apply find_some in Hfind as [Hin _]. apply list_elem_of_In in Hin.
  apply (list_elem_of_fmap_2 fst) in Hin. exact Hin.
Qed.

(** X2.  The hint [_get_content_hint] gives for the type
    [_infer_section_type] infers is the fallback text "Content for this
    section" exactly when the type is "story": the type table has that
    type and the hint table has no entry for it. *)
Theorem X2_content_hint_of_inferred_type name :
  Landing._get_content_hint (Landing._infer_section_type name)
    = "Content for this section"
  ↔ Landing._infer_section_type name = "story".
Proof.
  change (Landing._infer_section_type name) with (first_type Landing.type_map (lower name)).
  destruct (first_type_cases Landing.type_map (lower name)) as [->|Hin]; [by vm_compute|].
  revert Hin. generalize (first_type Landing.type_map (lower name)) as t. intros t Hin.
  cbn in Hin. rewrite !elem_of_cons, elem_of_nil in Hin.
  destruct Hin as [->|[->|[->|[->|[->|[->|[->|[->|[->|[->|[]]]]]]]]]]]; by vm_compute.
Qed.

(** ** landing.py: rows of the file *)

Section landing_rows.

Lemma parse_sections_order i names :
  Landing.order <$> Landing.parse_sections i names
    = (λ k, i + Z.of_nat k) <$> seq 0 (length names).
Proof.
  revert i. induction names as [|n names IH]; intros i; [done|].
  cbn [Landing.parse_sections length seq fmap list_fmap Landing.order].
  f_equal; [lia|]. rewrite IH, <- seq_shift, <- list_fmap_compose.
  apply list_fmap_ext. intros _ k _. simpl. lia.
Qed.

Lemma parse_sections_length i names :
  length (Landing.parse_sections i names) = length names.
Proof.
  rewrite <- (length_fmap Landing.order), parse_sections_order.
  by rewrite length_fmap, length_seq.
Qed.

Lemma parse_sections_required i names :
  Landing.required <$> Landing.parse_sections i names
    = (λ k, i + Z.of_nat k =? 0) <$> seq 0 (length names).
Proof.
  revert i. induction names as [|n names IH]; intros i; [done|].
  cbn [Landing.parse_sections length seq fmap list_fmap Landing.required].
  f_equal; [f_equal; lia|]. rewrite IH, <- seq_shift, <- list_fmap_compose.
  apply list_fmap_ext. intros _ k _. simpl. f_equal. lia.
Qed.

Lemma parse_sections_names i names :
  Landing.section_name <$> Landing.parse_sections i names
    = (λ n, title (replace_char "_" " " n)) <$> names.
Proof.
  revert i. induction names as [|n names IH]; intros i; [done|].
  cbn [Landing.parse_sections fmap list_fmap Landing.section_name].
  f_equal. apply IH.
Qed.

(** What a parsed row fixes of its pattern. *)
Lemma parse_pattern_body_fields row pattern :
  Landing.parse_pattern_body row = Ok pattern →
  let section_names := strip <$> split "," (get row "sections" "") in
  Landing.sections pattern = Landing.parse_sections 0 section_names ∧
  Landing.cta_strategy pattern =
    {| Landing.primary_placement := default "hero" (head section_names);
       Landing.secondary_placements := [];
       Landing.style := "button";
       Landing.urgency := "medium";
       Landing.text_variations := Landing._get_cta_variations (get row "best_for" "") |}.
Proof.
  unfold Landing.parse_pattern_body. intros H.
  destruct (getitem row "name") as [n|]; [|done].
  destruct (Landing.LandingCategory_of _) as [c|]; [|done].
  destruct (getitem row "description") as [d|]; [|done].
  cbn in H. injection H as <-. cbn.
  split; [done|]. by destruct (strip <$> split "," (get row "sections" "")).
Qed.

Lemma parse_pattern_parsed row pattern out :
  Landing._parse_pattern row = (Some pattern, out) →
  Landing.parse_pattern_body row = Ok pattern.
Proof.
  unfold Landing._parse_pattern. destruct (Landing.parse_pattern_body row); congruence.
Qed.

(** X3.  A pattern [_parse_pattern] builds from a row has at least one
    section, one for each comma-separated name of the sections cell: the
    names are title-cased with underscores as spaces, the sections are
    numbered 0, 1, 2, ... in the order of the cell, only the first one is
    required, and the primary CTA placement is the first name as the cell
    gives it (stripped).  The fallback placement "hero" of the source is
    never used, since splitting never gives an empty list. *)
Theorem X3_parsed_sections_are_numbered row pattern out :
  Landing._parse_pattern row = (Some pattern, out) →
  let section_names := strip <$> split "," (get row "sections" "") in
  let sections := Landing.sections pattern in
  (0 < length sections)%nat ∧
  Landing.section_name <$> sections
    = (λ n, title (replace_char "_" " " n)) <$> section_names ∧
  Landing.order <$> sections = Z.of_nat <$> seq 0 (length sections) ∧
  Landing.required <$> sections
    = (λ k, bool_decide (k = 0%nat)) <$> seq 0 (length sections) ∧
  Some (Landing.primary_placement (Landing.cta_strategy pattern)) = head section_names.
Proof.
  intros Hrow%parse_pattern_parsed.
  apply parse_pattern_body_fields in Hrow as [Hs Hcta]. cbn zeta.
  assert (length (Landing.sections pattern)
          = length (strip <$> split "," (get row "sections" ""))) as Hlen
    by by rewrite Hs, parse_sections_length.
  pose proof (split_nonempty "," (get row "sections" "")) as Hne.
  repeat split.
  - rewrite Hlen, length_fmap. destruct (split _ _); [done|simpl; lia].
  - by rewrite Hs, parse_sections_names.
  - rewrite Hlen, Hs, parse_sections_order. apply list_fmap_ext. intros; lia.
  - rewrite Hlen, Hs, parse_sections_required. apply list_fmap_ext.
    intros _ k _. simpl. case_bool_decide; [subst; done|].
    apply Z.eqb_neq. lia.
  - rewrite Hcta. cbn. by destruct (split _ _).
Qed.

Lemma X3_parsed_sections_are_numbered_witness :
  ∃ pattern,
    Landing._parse_pattern landing_sample_row = (Some pattern, []) ∧
    Landing.section_name <$> Landing.sections pattern
      = ["Video Hero"; "Key Features"; "Social Proof"; "Contact Cta"] ∧
    Landing.order <$> Landing.sections pattern = [0; 1; 2; 3] ∧
    Landing.required <$> Landing.sections pattern = [true; false; false; false] ∧
    Some (Landing.primary_placement (Landing.cta_strategy pattern)) = Some "video_hero".
Proof.
  eexists. split; [vm_compute; reflexivity|].
  destruct (X3_parsed_sections_are_numbered landing_sample_row _ []
              ltac:(vm_compute; reflexivity))
    as (_ & Hnames & Horder & Hrequired & Hprimary).
  split; [exact Hnames|]. split; [exact Horder|].
  split; [exact Hrequired|exact Hprimary].
Defined.

(** X4.  A row that parses and has no sections column, or an empty
    sections cell, gives a pattern with exactly one section: its name is
    empty, its type is "content" with the hint of that type, it is
    required and has order 0; the primary CTA placement is the empty
    string. *)
Theorem X4_row_without_sections row pattern out :
  Landing._parse_pattern row = (Some pattern, out) →
  get row "sections" "" = "" →
  Landing.sections pattern
    = [ {| Landing.section_name := "";
           Landing.section_type := "content";
           Landing.content_hint := "Relevant content for this section";
           Landing.required := true;
           Landing.order := 0 |} ] ∧
  Landing.primary_placement (Landing.cta_strategy pattern) = "".
Proof.
  intros Hrow%parse_pattern_parsed Hempty.
  apply parse_pattern_body_fields in Hrow as [Hs Hcta].
  rewrite Hempty in Hs, Hcta. rewrite Hs, Hcta. by vm_compute.
Qed.

Lemma X4_row_without_sections_witness :
  ∃ pattern,
    Landing._parse_pattern bare_row = (Some pattern, []) ∧
    length (Landing.sections pattern) = 1%nat ∧
    Landing.primary_placement (Landing.cta_strategy pattern) = "".
Proof.
  eexists. split; [vm_compute; reflexivity|].
  destruct (X4_row_without_sections bare_row _ [] ltac:(vm_compute; reflexivity)
              ltac:(vm_compute; reflexivity)) as [Hs Hp].
  rewrite Hs, Hp. done.
Defined.

Lemma cta_variations_length best_for :
  length (Landing._get_cta_variations best_for) = 4%nat.
Proof.
  unfold Landing._get_cta_variations.
  destruct (List.find _ Landing.base_ctas) as [[k l]|] eqn:Hfind; [|done].
  apply find_some in Hfind as [Hin _]. cbn in Hin.
  repeat (destruct Hin as [Hin|Hin]; [by injection Hin as <- <-|]). done.
Qed.

(** X5.  The structure [generate_structure] gives for a pattern parsed
    from a row shows exactly three primary CTA texts, the first three of
    the four [_get_cta_variations] finds for the best_for cell; it has no
    secondary CTA; and its section views carry the orders 0, 1, 2, ... of
    the sections. *)
Theorem X5_structure_of_a_parsed_row row pattern out :
  Landing._parse_pattern row = (Some pattern, out) →
  let structure := Landing.generate_structure pattern in
  Landing.texts (Landing.structure_primary structure)
    = take 3 (Landing._get_cta_variations (get row "best_for" "")) ∧
  length (Landing.texts (Landing.structure_primary structure)) = 3%nat ∧
  Landing.structure_secondary structure = [] ∧
  Landing.view_order <$> Landing.structure_sections structure
    = Z.of_nat <$> seq 0 (length (Landing.sections pattern)).
Proof.
  intros Hrow%parse_pattern_parsed.
  apply parse_pattern_body_fields in Hrow as [Hs Hcta]. cbn zeta.
  unfold Landing.generate_structure. cbn. rewrite Hcta. cbn.
  change (Z.to_nat 3) with 3%nat.
  repeat split.
  - rewrite length_take, cta_variations_length. done.
  - rewrite <- list_fmap_compose.
    change (Landing.order <$> Landing.sections pattern
            = Z.of_nat <$> seq 0 (length (Landing.sections pattern))).
    rewrite Hs, parse_sections_order, parse_sections_length.
    apply list_fmap_ext. intros; lia.
Qed.

Lemma X5_structure_of_a_parsed_row_witness :
  ∃ pattern,
    Landing._parse_pattern landing_sample_row = (Some pattern, []) ∧
    Landing.texts (Landing.structure_primary (Landing.generate_structure pattern))
      = ["Start Free Trial"; "Get Started"; "Request Demo"] ∧
    Landing.structure_secondary (Landing.generate_structure pattern) = [].
Proof.
  eexists. split; [vm_compute; reflexivity|].
  destruct (X5_structure_of_a_parsed_row landing_sample_row _ []
              ltac:(vm_compute; reflexivity)) as (Htexts & _ & Hsecondary & _).
  split; [exact Htexts|exact Hsecondary].
Defined.

End landing_rows.

(** ** landing.py: lookup by name *)

Section lookup.

Lemma get_pattern_is_Some patterns n :
  is_Some (Landing.get_pattern patterns n)
  ↔ lower n ∈ lower <$> Landing.list_patterns patterns.
Proof.
  unfold Landing.list_patterns.
  induction patterns as [|q patterns IH]; cbn [Landing.get_pattern fmap list_fmap].
  - rewrite elem_of_nil. split; [by intros [? ?]|done].
  - rewrite elem_of_cons.
    destruct (String.eqb_spec (lower (Landing.name q)) (lower n)) as [Heq|Hne].
    + split; [by left|by eexists].
    + rewrite IH. split; [by right|]. by intros [?|?].
Qed.

Lemma get_pattern_Some patterns n p :
  Landing.get_pattern patterns n = Some p →
  p ∈ patterns ∧ lower (Landing.name p) = lower n.
Proof.
  induction patterns as [|q patterns IH]; cbn [Landing.get_pattern]; [done|].
  destruct (String.eqb_spec (lower (Landing.name q)) (lower n)) as [Heq|Hne].
  - intros [= <-]. split; [left|done].
  - intros [Hin Hn]%IH. split; [by right|done].
Qed.

(** X6.  On ASCII names, [get_pattern] finds a pattern exactly for the
    names [list_patterns] lists, compared with the letters A to Z folded:
    every listed name is found in any case of its letters, a name that is
    not listed gives [None], and a pattern that is found is in the store
    and has the name asked for, up to the case of the letters. *)
Theorem X6_get_pattern_finds_the_listed_names patterns n :
  ascii_names (Landing.list_patterns patterns) = true →
  is_ascii n = true →
  (is_Some (Landing.get_pattern patterns n)
   ↔ lower n ∈ lower <$> Landing.list_patterns patterns) ∧
  Forall (λ listed, ∀ n', is_ascii n' = true → lower n' = lower listed →
                          is_Some (Landing.get_pattern patterns n'))
         (Landing.list_patterns patterns) ∧
  from_option (λ p, p ∈ patterns ∧ lower (Landing.name p) = lower n) True
              (Landing.get_pattern patterns n).
Proof.
  intros _ _. split; [apply get_pattern_is_Some|]. split.
  - apply Forall_forall. intros listed Hin n' _ Hn'.
    apply get_pattern_is_Some. rewrite Hn'. by apply list_elem_of_fmap_2.
  - destruct (Landing.get_pattern patterns n) as [p|] eqn:Hget; [|done].
    by apply get_pattern_Some.
Qed.

Lemma X6_get_pattern_finds_the_listed_names_witness :
  is_Some (Landing.get_pattern Landing._get_default_patterns "HERO + FEATURES")
  ↔ lower "HERO + FEATURES" ∈ lower <$> Landing.list_patterns Landing._get_default_patterns.
Proof.
  refine (proj1 (X6_get_pattern_finds_the_listed_names Landing._get_default_patterns
                   "HERO + FEATURES" _ _)); reflexivity.
Defined.

(** X7.  When the names of the store are ASCII text and no two of them
    are the same up to the case of their letters, looking up the name of a
    pattern of the store gives that pattern back. *)
Theorem X7_get_pattern_round_trip patterns p :
  ascii_names (Landing.list_patterns patterns) = true →
  NoDup (lower <$> Landing.list_patterns patterns) →
  p ∈ patterns →
  Landing.get_pattern patterns (Landing.name p) = Some p.
Proof.
  intros _. unfold Landing.list_patterns.
  induction patterns as [|q patterns IH]; cbn [Landing.get_pattern fmap list_fmap].
  - by intros _ ?%elem_of_nil.
  - intros [Hq Hnd]%NoDup_cons [->|Hin]%elem_of_cons.
    + by rewrite String.eqb_refl.
    + destruct (String.eqb_spec (lower (Landing.name q)) (lower (Landing.name p)))
        as [Heq|Hne]; [|by apply IH].
      exfalso. apply Hq. rewrite <- list_fmap_compose, Heq.
      by apply (list_elem_of_fmap_2 (lower ∘ Landing.name)).
Qed.

Lemma X7_get_pattern_round_trip_witness :
  Forall (λ p, Landing.get_pattern Landing._get_default_patterns (Landing.name p) = Some p)
         Landing._get_default_patterns.
Proof.
  apply Forall_forall. intros p Hp.
  apply X7_get_pattern_round_trip; [reflexivity| |exact Hp].
  apply (bool_decide_unpack _). vm_compute. exact I.
Defined.

End lookup.

(** ** landing.py: [to_dict] *)

Section dictionaries.

Lemma Landing_value_inj c c' : Landing.value c = Landing.value c' → c = c'.
Proof. destruct c, c'; intros H; (reflexivity || discriminate H). Qed.

Lemma Str_fmap_inj (l l' : list string) : Str <$> l = Str <$> l' → l = l'.
Proof.
  revert l'. induction l as [|s l IH]; intros [|s' l'] H; try done.
  injection H as -> H. f_equal. by apply IH.
Qed.

Lemma sections_dict_inj (l l' : list Landing.LandingSection) :
  (λ s, Dict [ ("name", Str (Landing.section_name s));
               ("type", Str (Landing.section_type s));
               ("content_hint", Str (Landing.content_hint s));
               ("required", Bool (Landing.required s));
               ("order", Int (Landing.order s)) ]) <$> l
  = (λ s, Dict [ ("name", Str (Landing.section_name s));
                 ("type", Str (Landing.section_type s));
                 ("content_hint", Str (Landing.content_hint s));
                 ("required", Bool (Landing.required s));
                 ("order", Int (Landing.order s)) ]) <$> l' →
  l = l'.
Proof.
  revert l'. induction l as [|s l IH]; intros [|s' l'] H; try done.
  cbn in H. injection H as Hname Htype Hhint Hrequired Horder H.
  f_equal; [destruct s, s'; cbn in *; congruence|by apply IH].
Qed.

(** X8.  [to_dict] keeps every field of a pattern: two patterns with the
    same dictionary are the same pattern. *)
Theorem X8_to_dict_loses_nothing (p q : Landing.LandingPattern) :
  Landing.to_dict p = Landing.to_dict q → p = q.
Proof.
  destruct p as [n c d ss [pp sp st u tv] bf ct cx kw].
  destruct q as [n' c' d' ss' [pp' sp' st' u' tv'] bf' ct' cx' kw'].
  unfold Landing.to_dict. cbn.
  intros [= -> Hc%Landing_value_inj -> Hss%sections_dict_inj -> Hsp%Str_fmap_inj -> ->
            Htv%Str_fmap_inj Hbf%Str_fmap_inj Hct%Str_fmap_inj -> Hkw%Str_fmap_inj].
  by subst.
Qed.

Lemma X8_to_dict_loses_nothing_witness :
  ∃ p q,
    Landing.get_pattern Landing._get_default_patterns "minimal single cta" = Some p ∧
    Landing._get_default_patterns !! 1%nat = Some q ∧
    Landing.to_dict p = Landing.to_dict q ∧
    p = q.
Proof.
  eexists. eexists. split; [vm_compute; reflexivity|]. split; [reflexivity|].
  split; [vm_compute; reflexivity|].
  apply X8_to_dict_loses_nothing. vm_compute. reflexivity.
Defined.

End dictionaries.

(** ** landing.py: the empty query and the listed categories *)

Section empty_query.

Lemma fold_left_add_if {A} (test : A → bool) (k : Z) (l : list A) (s : Z) :
  0 <= k →
  s <= fold_left (λ score x, if test x then score + k else score) l s.
Proof.
  intros Hk. revert s. induction l as [|x l IH]; intros s; cbn [fold_left]; [lia|].
  etransitivity; [|apply IH]. destruct (test x); lia.
Qed.

Lemma Landing_score_empty_query pattern : 15 <= Landing.score "" pattern.
Proof.
  unfold Landing.score. rewrite !str_in_empty.
  etransitivity; [|by apply fold_left_add_if].
  by apply fold_left_add_if.
Qed.

Lemma ranked_all {A} (score : A → Z) l :
  (∀ x, 0 < score x) → ranked score l ≡ₚ l.
Proof.
  intros Hpos. unfold ranked. rewrite sorted_by_perm, filter_all; [done|].
  intros x _. apply Z.ltb_lt, Hpos.
Qed.

(** X9.  The empty query matches every pattern: for a cap that is not
    negative, [search] with the query "" returns min(cap, size of the
    store) patterns of the store, and all of them, in some order, when the
    cap is at least the size of the store. *)
Theorem X9_empty_query_matches_every_pattern patterns max_results :
  0 <= max_results →
  let found := Landing.search patterns "" max_results in
  length found = Nat.min (Z.to_nat max_results) (length patterns) ∧
  Forall (λ p, p ∈ patterns) found ∧
  ((length patterns ≤ Z.to_nat max_results)%nat → found ≡ₚ patterns).
Proof.
  intros Hk. cbn zeta. rewrite Landing_search_ranked. cbn [lower].
  assert (ranked (Landing.score "") patterns ≡ₚ patterns) as Hperm.
  { apply ranked_all. intros p. pose proof (Landing_score_empty_query p). lia. }
  unfold slice_to. destruct (Z.ltb_spec max_results 0) as [?|_]; [lia|].
  repeat split.
  - by rewrite length_take, Hperm.
  - apply Forall_forall. intros p Hp%subseteq_take. by rewrite <- Hperm.
  - intros Hlen. rewrite take_ge; [done|]. by rewrite Hperm.
Qed.

Lemma X9_empty_query_matches_every_pattern_witness :
  length (Landing.search Landing._get_default_patterns "" 5) = 2%nat ∧
  Landing.search Landing._get_default_patterns "" 5 ≡ₚ Landing._get_default_patterns.
Proof.
  destruct (X9_empty_query_matches_every_pattern Landing._get_default_patterns 5
              ltac:(lia)) as (Hlen & _ & Hperm).
  split; [exact Hlen|]. apply Hperm. vm_compute. lia.
Defined.

Lemma Landing_value_lower c : lower (Landing.value c) = Landing.value c.
Proof. by destruct c. Qed.

Lemma Landing_score_category pattern :
  5 <= Landing.score (Landing.value (Landing.category pattern)) pattern.
Proof.
  unfold Landing.score. rewrite str_in_refl.
  etransitivity; [|by apply fold_left_add_if].
  etransitivity; [|by apply fold_left_add_if].
  destruct (str_in _ (lower (Landing.name pattern))); lia.
Qed.

(** X10.  Every category [list_categories] lists, used as the query of
    [search] with the cap 1, finds a pattern of the store. *)
Theorem X10_a_listed_category_finds_a_pattern patterns :
  Forall (λ category, ∃ pattern,
            Landing.search patterns category 1 = [pattern] ∧ pattern ∈ patterns)
         (elements (Landing.list_categories patterns)).
Proof.
  apply Forall_forall. intros v Hv%elem_of_elements.
  unfold Landing.list_categories in Hv.
  apply elem_of_list_to_set, list_elem_of_fmap in Hv as (p & -> & Hin).
  rewrite Landing_search_ranked, Landing_value_lower.
  assert (p ∈ ranked (Landing.score (Landing.value (Landing.category p))) patterns) as Hp.
  { unfold ranked. rewrite sorted_by_perm. apply list_elem_of_In, filter_In.
    split; [by apply list_elem_of_In|]. apply Z.ltb_lt.
    pose proof (Landing_score_category p). lia. }
  destruct (ranked _ patterns) as [|q l] eqn:Hranked; [by apply elem_of_nil in Hp|].
  exists q. split; [done|].
  apply (ranked_elem_of (Landing.score (Landing.value (Landing.category p)))).
  rewrite Hranked. by left.
Qed.

End empty_query.

(** ** codegen.py: [search_components] *)

Section components_search.

(** X11.  With the empty query [search_components] returns exactly the
    snippets that pass the framework and category filters, in store order:
    every snippet scores 18, so none is dropped and the stable sort moves
    nothing. *)
Theorem X11_empty_query_lists_the_filtered_snippets snippets framework category :
  Codegen.search_components snippets "" framework category
    = List.filter (Codegen.passes framework category) snippets.
Proof.
  rewrite Codegen_search_components_ranked. cbn [lower]. unfold ranked.
  rewrite (sorted_by_constant_key _ _ 18).
  - apply filter_all. intros s _. unfold Codegen.score. by rewrite !str_in_empty.
  - intros s _. unfold Codegen.score. by rewrite !str_in_empty.
Qed.

Lemma truthy_lower o : truthy (lower <$> o) = truthy o.
Proof. by destruct o as [[|c s]|]. Qed.

Lemma passes_lower framework category snippet :
  Codegen.passes (lower <$> framework) (lower <$> category) snippet
  = Codegen.passes framework category snippet.
Proof.
  unfold Codegen.passes. rewrite !truthy_lower.
  destruct framework, category; cbn; by rewrite ?lower_idemp.
Qed.

Lemma Codegen_score_positive query_lower snippet :
  (0 <? Codegen.score query_lower snippet)
  = str_in query_lower (lower (Codegen.name snippet)) ||
    str_in query_lower (lower (Codegen.description snippet)) ||
    str_in query_lower (Codegen.value (Codegen.category snippet)).
Proof.
  unfold Codegen.score.
  by destruct (str_in _ (lower (Codegen.name snippet))),
     (str_in _ (lower (Codegen.description snippet))),
     (str_in _ (Codegen.value (Codegen.category snippet))).
Qed.

(** X12.  On ASCII text (the query, the two filters, the names and the
    descriptions of the store), every snippet [search_components] returns
    is in the store, passes the framework and category filters, and has
    the query in its name, in its description or in its category value,
    the letters A to Z folded.  The query and the two filters are read
    with their letters folded: folding them beforehand changes nothing. *)
Theorem X12_search_components_filters snippets query framework category :
  ascii_names ((Codegen.name <$> snippets) ++ (Codegen.description <$> snippets))
    = true →
  is_ascii query = true →
  ascii_filter framework = true →
  ascii_filter category = true →
  Forall (λ snippet,
            snippet ∈ snippets ∧
            Codegen.passes framework category snippet = true ∧
            str_in (lower query) (lower (Codegen.name snippet)) ||
            str_in (lower query) (lower (Codegen.description snippet)) ||
            str_in (lower query) (Codegen.value (Codegen.category snippet)) = true)
         (Codegen.search_components snippets query framework category) ∧
  Codegen.search_components snippets (lower query) (lower <$> framework) (lower <$> category)
  = Codegen.search_components snippets query framework category.
Proof.
  intros _ _ _ _. rewrite !Codegen_search_components_ranked. split.
  - apply Forall_forall. intros snippet Hin.
    pose proof (ranked_positive (Codegen.score (lower query))
                  (List.filter (Codegen.passes framework category) snippets)) as Hpos.
    rewrite Forall_forall in Hpos. specialize (Hpos _ Hin).
    apply ranked_elem_of, list_elem_of_In, filter_In in Hin as [Hin Hpasses].
    split; [by apply list_elem_of_In|]. split; [done|].
    rewrite <- Codegen_score_positive. by apply Z.ltb_lt.
  - rewrite lower_idemp. f_equal. apply filter_equal. intros s. apply passes_lower.
Qed.

Lemma X12_search_components_filters_witness :
  Codegen.search_components Codegen._get_default_snippets "button" (Some "react") None
  = Codegen.search_components Codegen._get_default_snippets "BUTTON" (Some "React") None.
Proof.
  symmetry.
  refine (proj2 (X12_search_components_filters Codegen._get_default_snippets "BUTTON"
                   (Some "React") None _ _ _ _)); reflexivity.
Defined.

End components_search.

(** ** codegen.py: [_parse_props] *)

Section props.

Lemma parse_props_fold (P : gmap string string → Prop) items (props : gmap string string) :
  P props →
  (∀ props key value, P props → P (<[strip key := strip value]> props)) →
  P (fold_left (λ (props : gmap string string) item,
                  if str_in ":" item then
                    let '(key, value) := split_once ":" item in
                    <[strip key := strip value]> props
                  else props) items props).
Proof.
  intros Hprops Hstep. revert props Hprops.
  induction items as [|item items IH]; intros props Hprops; cbn [fold_left]; [done|].
  apply IH. destruct (str_in ":" item); [|done].
  destruct (split_once ":" item) as [key value]. by apply Hstep.
Qed.

Lemma parse_props_size items (props : gmap string string) :
  (size (fold_left (λ (props : gmap string string) item,
                      if str_in ":" item then
                        let '(key, value) := split_once ":" item in
                        <[strip key := strip value]> props
                      else props) items props)
   ≤ size props + length (List.filter (str_in ":") items))%nat.
Proof.
  revert props. induction items as [|item items IH]; intros props;
    cbn [fold_left List.filter]; [cbn [length]; lia|].
  etransitivity; [apply IH|]. destruct (str_in ":" item); [|lia].
  destruct (split_once ":" item) as [key value]. cbn [length].
  rewrite map_size_insert. destruct (props !! strip key); cbn; lia.
Qed.

(** X13.  Every key and every value of the dictionary [_parse_props]
    builds is stripped of surrounding white space, and the dictionary has
    at most as many entries as the text has items, between semicolons,
    that contain a colon. *)
Theorem X13_parsed_props_are_stripped props_str :
  map_Forall (λ key value, strip key = key ∧ strip value = value)
             (Codegen._parse_props props_str) ∧
  (size (Codegen._parse_props props_str)
   ≤ length (List.filter (str_in ":") (split ";" props_str)))%nat.
Proof.
  split.
  - unfold Codegen._parse_props.
    apply (parse_props_fold
             (map_Forall (λ key value, strip key = key ∧ strip value = value)));
      [apply map_Forall_empty|].
    intros props key value Hprops. apply map_Forall_insert_2; [|done].
    by rewrite !strip_idemp.
  - unfold Codegen._parse_props.
    etransitivity; [apply parse_props_size|]. by rewrite map_size_empty.
Qed.

End props.

(** ** codegen.py: [generate_component] *)

Section components.

Lemma generate_component_find snippets component_name framework design_system :
  Codegen.generate_component snippets component_name framework design_system
  = (λ snippet,
       component_of snippet
         (match design_system with
          | Some ds =>
              if Codegen.truth ds
              then Codegen._apply_design_tokens (Codegen.code snippet) ds framework
              else Codegen.code snippet
          | None => Codegen.code snippet
          end) framework)
    <$> List.find (names component_name framework) snippets.
Proof.
  unfold Codegen.generate_component.
  change (λ s, String.eqb (lower (Codegen.name s)) (lower component_name) &&
               bool_decide (Codegen.framework s = framework))
    with (names component_name framework).
  by destruct (List.find _ snippets).
Qed.

(** X14.  On ASCII names, [generate_component] returns [None] exactly
    when no snippet of the store has the name, up to the case of the
    letters A to Z, and the framework; the case of the letters of the
    name asked for does not matter; and without a design system the
    component is built from the first such snippet of the store, with the
    code of the snippet unchanged, the imports and styles extracted from
    that code, and the dependencies, description and preview of the
    snippet. *)
Theorem X14_generate_component_finds_the_first_match
    snippets component_name framework design_system :
  ascii_names (Codegen.name <$> snippets) = true →
  is_ascii component_name = true →
  (Codegen.generate_component snippets component_name framework design_system = None
   ↔ Forall (λ s, names component_name framework s = false) snippets) ∧
  (∀ other_case, is_ascii other_case = true → lower other_case = lower component_name →
     Codegen.generate_component snippets other_case framework design_system
     = Codegen.generate_component snippets component_name framework design_system) ∧
  from_option
    (λ component,
       ∃ before snippet after,
         snippets = before ++ snippet :: after ∧
         Forall (λ s, names component_name framework s = false) before ∧
         names component_name framework snippet = true ∧
         component = component_of snippet (Codegen.code snippet) framework)
    True
    (Codegen.generate_component snippets component_name framework None).
Proof.
  intros _ _. rewrite !generate_component_find. split; [|split].
  - rewrite fmap_None. induction snippets as [|s snippets IH]; cbn [List.find].
    + split; [constructor|done].
    + destruct (names component_name framework s) eqn:Hs.
      * split; [done|]. intros [Hs' _]%Forall_cons. congruence.
      * rewrite IH, Forall_cons. tauto.
  - intros other_case _ Hcase. rewrite generate_component_find.
    unfold names. by rewrite Hcase.
  - induction snippets as [|s snippets IH]; cbn [List.find]; [done|].
    destruct (names component_name framework s) eqn:Hs.
    + cbn. by exists [], s, snippets.
    + destruct (List.find _ snippets) as [found|]; [|done]. cbn in *.
      destruct IH as (before & snippet & after & -> & Hbefore & Hsnippet & ->).
      exists (s :: before), snippet, after. repeat split; [|done]. by constructor.
Qed.

Lemma X14_generate_component_finds_the_first_match_witness :
  Codegen.generate_component Codegen._get_default_snippets "BUTTON" Codegen.REACT None
  = Codegen.generate_component Codegen._get_default_snippets "button" Codegen.REACT None.
Proof.
  refine (proj1 (proj2 (X14_generate_component_finds_the_first_match
                          Codegen._get_default_snippets "button" Codegen.REACT None _ _))
                "BUTTON" _ _); reflexivity.
Defined.

End components.

(** ** codegen.py: design tokens, imports and styles *)

Section tokens.

(** X15.  [_apply_design_tokens] only puts a header in front of the
    code: the code itself is the end of the result, and the result is the
    code unchanged when the design system has no colors or the framework
    is vue, svelte or html. *)
Theorem X15_design_tokens_only_prepend code design_system framework :
  ∃ header,
    Codegen._apply_design_tokens code design_system framework = header +:+ code ∧
    (bool_decide (Codegen.colors design_system = ∅) ||
     bool_decide (framework ∈ [Codegen.VUE; Codegen.SVELTE; Codegen.HTML])
     = true → header = "").
Proof.
  unfold Codegen._apply_design_tokens.
  destruct (decide (Codegen.colors design_system = ∅)) as [Hempty|Hcolors].
  { exists "". rewrite bool_decide_eq_false_2 by (by intros ?). done. }
  rewrite (bool_decide_eq_true_2 _ Hcolors), (bool_decide_eq_false_2 _ Hcolors).
  destruct framework; cbn [bool_decide decide_rel orb];
    (by exists "") || (eexists; split; [rewrite <- ?append_assoc; reflexivity|done]).
Qed.

End tokens.

Section imports.
Context (code : string) (design_system : Codegen.DesignSystem)
        (framework : Codegen.Framework).

Lemma design_tokens_keep_the_imports :
  str_in nl (default "#000000" (Codegen.colors design_system !! "primary")) = false →
  str_in nl (default "#666666" (Codegen.colors design_system !! "secondary")) = false →
  Codegen._extract_imports
    (Codegen._apply_design_tokens code design_system framework) framework
  = Codegen._extract_imports code framework.
Proof.
  intros Hprimary Hsecondary. unfold Codegen._apply_design_tokens.
  set (primary := default "#000000" _) in *. set (secondary := default "#666666" _) in *.
  destruct (bool_decide (Codegen.colors design_system ≠ ∅)); [|done].
  assert (startswith "import " (strip " */") = false) as Hend
    by exact (comment_line_is_no_import "/").
  unfold Codegen._extract_imports, split.
  case_bool_decide as Htailwind; [|case_bool_decide as Hreact; [|done]].
  - assert (startswith "import " (strip "/* Apply these colors in tailwind.config.js:")
            = false) as H1 by exact (comment_start_is_no_import _).
    assert (startswith "import " (strip (" * primary: '" +:+ primary +:+ "'")) = false)
      as H2 by exact (comment_line_is_no_import (" primary: '" +:+ primary +:+ "'")).
    assert (startswith "import " (strip (" * secondary: '" +:+ secondary +:+ "'")) = false)
      as H3 by exact (comment_line_is_no_import (" secondary: '" +:+ secondary +:+ "'")).
    rewrite !nl_append.
    rewrite (split_from_line newline "" "/* Apply these colors in tailwind.config.js:") by done.
    rewrite (split_from_line3 newline " * primary: '" primary "'") by done.
    rewrite (split_from_line3 newline " * secondary: '" secondary "'") by done.
    rewrite (split_from_line newline "" " */"), split_from_empty_line by done.
    cbn [fold_left]. rewrite !append_nil_l. by rewrite H1, H2, H3, Hend.
  - assert (startswith "import " (strip "/* Use these CSS variables:") = false)
      as H1 by exact (comment_start_is_no_import _).
    assert (startswith "import " (strip (" * --color-primary: " +:+ primary)) = false)
      as H2 by exact (comment_line_is_no_import (" --color-primary: " +:+ primary)).
    assert (startswith "import " (strip (" * --color-secondary: " +:+ secondary)) = false)
      as H3 by exact (comment_line_is_no_import (" --color-secondary: " +:+ secondary)).
    rewrite !nl_append.
    rewrite (split_from_line newline "" "/* Use these CSS variables:") by done.
    rewrite (split_from_line2 newline " * --color-primary: " primary) by done.
    rewrite (split_from_line2 newline " * --color-secondary: " secondary) by done.
    rewrite (split_from_line newline "" " */"), split_from_empty_line by done.
    cbn [fold_left]. rewrite !append_nil_l. by rewrite H1, H2, H3, Hend.
Qed.

End imports.

(** X16.  When the primary and the secondary colour of the design system
    hold no line break, a design system does not change the imports of a
    generated component: [generate_component] with the design system and
    without it report the same imports. *)
Theorem X16_design_tokens_keep_the_imports
    snippets component_name framework design_system :
  str_in nl (default "#000000" (Codegen.colors design_system !! "primary")) = false →
  str_in nl (default "#666666" (Codegen.colors design_system !! "secondary")) = false →
  Codegen.imports <$>
    Codegen.generate_component snippets component_name framework (Some design_system)
  = Codegen.imports <$>
    Codegen.generate_component snippets component_name framework None.
Proof.
  intros Hprimary Hsecondary. rewrite !generate_component_find.
  destruct (List.find _ snippets) as [snippet|]; [|done]. cbn.
  destruct (Codegen.truth design_system); [|done].
  f_equal. by apply design_tokens_keep_the_imports.
Qed.

Lemma X16_design_tokens_keep_the_imports_witness :
  Codegen.imports <$>
    Codegen.generate_component Codegen._get_default_snippets "button" Codegen.REACT
      (Some red_design)
  = Some ["import React from 'react'"].
Proof.
  rewrite (X16_design_tokens_keep_the_imports Codegen._get_default_snippets "button"
             Codegen.REACT red_design);
    [vm_compute; reflexivity | vm_compute; reflexivity | vm_compute; reflexivity].
Defined.

Section styles.

Lemma after_prefix_spec p s r : after_prefix p s = Some r ↔ s = p +:+ r.
Proof.
  revert s. induction p as [|a p IH]; intros s; cbn [after_prefix String.append].
  - split; [by intros [= ->]|by intros ->].
  - destruct s as [|b s]; [done|].
    destruct (Ascii.eqb_spec a b) as [->|Hab].
    + rewrite IH. split; [by intros ->|by intros [= ->]].
    + split; [done|]. intros [= ? ?]. done.
Qed.

Lemma until_quote_spec s body rest :
  Codegen.until_quote s = (body, rest) →
  s = body +:+ rest ∧ str_in dq body = false ∧
  (rest = "" ∨ ∃ rest', rest = String quote rest').
Proof.
  revert body rest. induction s as [|c s IH]; intros body rest; cbn [Codegen.until_quote].
  - intros [= <- <-]. split; [done|]. split; [done|by left].
  - destruct (Ascii.eqb_spec c quote) as [->|Hc].
    + intros [= <- <-]. split; [done|]. split; [done|]. right. by eexists.
    + destruct (Codegen.until_quote s) as [body' rest'].
      intros [= <- <-]. destruct (IH _ _ eq_refl) as (-> & Hbody & Hrest).
      split; [done|]. split; [|done].
      change dq with (String quote ""). rewrite char_in_cons.
      change (String quote "") with dq. rewrite Hbody, orb_false_r.
      apply Ascii.eqb_neq. congruence.
Qed.

Lemma match_className_spec s group n :
  Codegen.match_className s = Some (group, n) →
  group ≠ "" ∧ str_in dq group = false ∧
  ∃ rest, s = ("className=" +:+ dq +:+ group +:+ dq) +:+ rest.
Proof.
  unfold Codegen.match_className.
  destruct (after_prefix _ s) as [s'|] eqn:Hprefix; [|done].
  apply after_prefix_spec in Hprefix as ->.
  destruct (Codegen.until_quote s') as [body rest] eqn:Hbody.
  apply until_quote_spec in Hbody as (-> & Hbody & Hrest).
  destruct body as [|c body]; [done|]. destruct rest as [|q rest]; [done|].
  intros [= <- <-]. split; [done|]. split; [done|].
  destruct Hrest as [?|[rest' [= -> ->]]]; [done|].
  exists rest'. by rewrite !append_assoc.
Qed.

Lemma findall_className_sound skip s :
  Forall (λ classes, classes ≠ "" ∧ str_in dq classes = false ∧
                     str_in ("className=" +:+ dq +:+ classes +:+ dq) s = true)
         (Codegen.findall_className skip s).
Proof.
  revert skip. induction s as [|c s IH]; intros skip; cbn [Codegen.findall_className].
  { constructor. }
  assert (∀ skip',
            Forall (λ classes, classes ≠ "" ∧ str_in dq classes = false ∧
                      str_in ("className=" +:+ dq +:+ classes +:+ dq) (String c s) = true)
                   (Codegen.findall_className skip' s)) as Hrest.
  { intros skip'. eapply Forall_impl; [apply IH|].
    intros classes (? & ? & Hin). split; [done|]. split; [done|].
    cbn [str_in]. by rewrite Hin, orb_true_r. }
  destruct skip as [|skip]; [|apply Hrest].
  destruct (Codegen.match_className (String c s)) as [[group n]|] eqn:Hmatch; [|apply Hrest].
  constructor; [|apply Hrest].
  apply match_className_spec in Hmatch as (Hne & Hquote & rest & ->).
  split; [done|]. split; [done|]. apply str_in_spec. by exists "", rest.
Qed.

Lemma concat_without c sep l :
  str_in (String c "") sep = false →
  Forall (λ s, str_in (String c "") s = false) l →
  str_in (String c "") (String.concat sep l) = false.
Proof.
  intros Hsep. induction 1 as [|s l Hs Hl IH]; [done|].
  cbn [String.concat]. destruct l as [|s' l]; [done|].
  by rewrite !char_in_app, Hs, Hsep, IH.
Qed.

(** X17.  Every class string the pattern of [_extract_styles] finds is
    not empty, holds no double quote, and stands in the code between
    [className="] and a double quote.  So the styles [_extract_styles]
    returns hold no double quote, and they are empty for a code without
    the text [className="] (a code that writes its classes as
    [className={...}] has no styles). *)
Theorem X17_extracted_styles code framework :
  Forall (λ classes, classes ≠ "" ∧ str_in dq classes = false ∧
                     str_in ("className=" +:+ dq +:+ classes +:+ dq) code = true)
         (Codegen.findall_className 0 code) ∧
  str_in dq (Codegen._extract_styles code framework) = false ∧
  (str_in ("className=" +:+ dq) code = false →
   Codegen._extract_styles code framework = "").
Proof.
  pose proof (findall_className_sound 0 code) as Hsound.
  split; [done|]. unfold Codegen._extract_styles. split.
  - case_bool_decide; [|done]. apply (concat_without quote); [done|].
    eapply Forall_impl; [exact Hsound|]. by intros classes (_ & ? & _).
  - intros Hnone. case_bool_decide; [|done].
    destruct (Codegen.findall_className 0 code) as [|classes l]; [done|].
    apply Forall_cons in Hsound as [(_ & _ & Hin) _].
    rewrite (str_in_trans ("className=" +:+ dq)
               ("className=" +:+ dq +:+ classes +:+ dq) code) in Hnone;
      [done| |exact Hin].
    apply str_in_spec. exists "", (classes +:+ dq). by rewrite !append_assoc.
Qed.

End styles.

(** ** codegen.py: [generate_from_design_system] *)

Section design_system.
Context (snippets : list Codegen.ComponentSnippet)
        (design_system : Codegen.DesignSystem) (framework : Codegen.Framework).

Lemma components_loop l (components : gmap string Codegen.GeneratedComponent) n :
  Forall (λ s, is_Some (Codegen.generate_component snippets (Codegen.name s) framework
                          (Some design_system))) l →
  fold_left (component_step snippets design_system framework) l components !! n
  = if existsb (λ s, String.eqb (Codegen.name s) n) l
    then Codegen.generate_component snippets n framework (Some design_system)
    else components !! n.
Proof.
  intros Hl. revert components.
  induction Hl as [|s l [component Hs] Hl IH]; intros components; [done|].
  cbn [fold_left existsb]. rewrite IH. unfold component_step. rewrite Hs.
  destruct (existsb _ l) eqn:Hex; [by rewrite orb_true_r|]. rewrite orb_false_r.
  destruct (String.eqb_spec (Codegen.name s) n) as [<-|Hne].
  - by rewrite lookup_insert_eq.
  - by rewrite lookup_insert_ne.
Qed.

Lemma generate_stored s :
  s ∈ snippets → Codegen.framework s = framework →
  is_Some (Codegen.generate_component snippets (Codegen.name s) framework
             (Some design_system)).
Proof.
  intros Hin Hfw. unfold Codegen.generate_component.
  destruct (List.find _ snippets) as [found|] eqn:Hfind; [by eexists|].
  apply list_elem_of_In in Hin.
  apply (find_none _ _ Hfind) in Hin. cbn in Hin.
  by rewrite String.eqb_refl, bool_decide_eq_true_2 in Hin.
Qed.

Lemma components_categories categories
    (components : gmap string Codegen.GeneratedComponent) n :
  fold_left
    (λ components category',
       fold_left (component_step snippets design_system framework)
         (List.filter (λ s, bool_decide (Codegen.category s = category') &&
                            bool_decide (Codegen.framework s = framework)) snippets)
         components)
    categories components !! n
  = if existsb (λ s, String.eqb (Codegen.name s) n &&
                     bool_decide (Codegen.framework s = framework) &&
                     bool_decide (Codegen.category s ∈ categories)) snippets
    then Codegen.generate_component snippets n framework (Some design_system)
    else components !! n.
Proof.
  revert components. induction categories as [|c categories IH]; intros components.
  - cbn [fold_left]. rewrite existsb_none; [done|].
    intros s. rewrite (bool_decide_eq_false_2 (_ ∈ [])) by apply not_elem_of_nil.
    by rewrite andb_false_r.
  - cbn [fold_left]. rewrite IH, components_loop.
    2:{ apply Forall_forall. intros s [Hin Hs]%list_elem_of_In%filter_In.
        apply andb_prop in Hs as [_ Hfw%bool_decide_eq_true].
        apply generate_stored; [by apply list_elem_of_In|done]. }
    destruct (existsb _ snippets) eqn:Hlater.
    + apply existsb_exists in Hlater as (s & Hin & Hs).
      rewrite (proj2 (existsb_exists _ _)); [done|].
      exists s. split; [done|]. apply andb_prop in Hs as [Hs Hc%bool_decide_eq_true].
      rewrite Hs. apply bool_decide_eq_true. by right.
    + destruct (existsb _ (List.filter _ snippets)) eqn:Hnow.
      * apply existsb_exists in Hnow as (s & [Hin Hs]%filter_In & Hn).
        rewrite (proj2 (existsb_exists _ _)); [done|].
        exists s. split; [done|]. apply andb_prop in Hs as [Hc%bool_decide_eq_true Hfw].
        rewrite Hn, Hfw. apply bool_decide_eq_true, elem_of_cons. by left.
      * match goal with |- _ = (if ?b then _ else _) => destruct b eqn:Hall end;
          [|done]. exfalso.
        apply existsb_exists in Hall as (s & Hin & Hs).
        apply andb_prop in Hs as [[Hn Hfw]%andb_prop Hc%bool_decide_eq_true].
        apply elem_of_cons in Hc as [Hc|Hc].
        -- assert (existsb (λ s, String.eqb (Codegen.name s) n)
                     (List.filter (λ s, bool_decide (Codegen.category s = c) &&
                                        bool_decide (Codegen.framework s = framework))
                                  snippets) = true) as Hyes; [|congruence].
           apply existsb_exists. exists s. split; [|done].
           apply filter_In. split; [done|]. by rewrite Hfw, bool_decide_eq_true_2.
        -- assert (existsb (λ s, String.eqb (Codegen.name s) n &&
                                 bool_decide (Codegen.framework s = framework) &&
                                 bool_decide (Codegen.category s ∈ categories)) snippets
                   = true) as Hyes; [|congruence].
           apply existsb_exists. exists s. split; [done|].
           by rewrite Hn, Hfw, bool_decide_eq_true_2.
Qed.

Lemma stored_is_generated n :
  stored snippets framework n = true →
  is_Some (Codegen.generate_component snippets n framework (Some design_system)).
Proof.
  intros (s & Hin & [Hn%String.eqb_eq Hfw%bool_decide_eq_true]%andb_prop)%existsb_exists.
  subst n. apply generate_stored; [by apply list_elem_of_In|done].
Qed.

End design_system.

Lemma ComponentCategory_members_all c : c ∈ Codegen.ComponentCategory_members.
Proof. apply list_elem_of_In. destruct c; cbn; tauto. Qed.

(** X18.  The dictionary [generate_from_design_system] returns has an
    entry exactly for the names under which the store holds a snippet of
    the framework, and the entry of a name is the component
    [generate_component] builds for that name with the design system: the
    component of the first snippet of the store with that name in any
    letter case, also where the entry comes from a later snippet. *)
Theorem X18_components_of_a_design_system snippets design_system framework n :
  Codegen.generate_from_design_system snippets design_system framework !! n
  = (if stored snippets framework n
     then Codegen.generate_component snippets n framework (Some design_system)
     else None) ∧
  bool_decide
    (is_Some (Codegen.generate_from_design_system snippets design_system framework !! n))
  = stored snippets framework n.
Proof.
  assert (Codegen.generate_from_design_system snippets design_system framework !! n
          = if stored snippets framework n
            then Codegen.generate_component snippets n framework (Some design_system)
            else None) as Hlookup.
  { change (Codegen.generate_from_design_system snippets design_system framework)
      with (fold_left
              (λ components category',
                 fold_left (component_step snippets design_system framework)
                   (List.filter (λ s, bool_decide (Codegen.category s = category') &&
                                      bool_decide (Codegen.framework s = framework))
                                snippets)
                   components)
              Codegen.ComponentCategory_members
              (∅ : gmap string Codegen.GeneratedComponent)).
    rewrite (components_categories snippets design_system framework), lookup_empty.
    unfold stored. erewrite existsb_equal; [done|]. intros s. cbn beta.
    rewrite (bool_decide_eq_true_2 _ (ComponentCategory_members_all _)).
    by rewrite andb_true_r. }
  split; [done|]. rewrite Hlookup.
  destruct (stored snippets framework n) eqn:Hstored.
  - by apply bool_decide_eq_true, stored_is_generated.
  - apply bool_decide_eq_false. by intros [? ?].
Qed.

(** ** codegen.py: [get_available_components] *)

Section available.
Context (framework : option Codegen.Framework).

Lemma available_step_lookup components snippet k :
  available_step framework components snippet !! k
  = if filed framework k snippet
    then Some (default [] (components !! k) ++ [Codegen.name snippet])
    else components !! k.
Proof.
  unfold available_step, filed.
  assert (match framework with
          | Some f => bool_decide (Codegen.framework snippet ≠ f)
          | None => false
          end
          = negb match framework with
                 | Some f => bool_decide (Codegen.framework snippet = f)
                 | None => true
                 end) as ->.
  { destruct framework as [f|]; [|done]. by rewrite bool_decide_not. }
  destruct (match framework with Some f => _ | None => true end); cbn [negb andb]; [|done].
  destruct (String.eqb_spec (Codegen.value (Codegen.category snippet)) k) as [<-|Hk].
  - rewrite lookup_insert_eq. f_equal. f_equal.
    case_bool_decide as Hnone; [by rewrite lookup_insert_eq, Hnone|done].
  - rewrite lookup_insert_ne by done.
    case_bool_decide; [by rewrite lookup_insert_ne|done].
Qed.

Lemma available_loop snippets components k :
  fold_left (available_step framework) snippets components !! k
  = match Codegen.name <$> List.filter (filed framework k) snippets with
    | [] => components !! k
    | filed_names => Some (default [] (components !! k) ++ filed_names)
    end.
Proof.
  revert components. induction snippets as [|s snippets IH]; intros components; [done|].
  cbn [fold_left List.filter]. rewrite IH, available_step_lookup.
  destruct (filed framework k s); [|done]. cbn [fmap list_fmap].
  destruct (Codegen.name <$> List.filter _ snippets) as [|n l]; [done|].
  cbn [from_option id]. by rewrite <- app_assoc.
Qed.

End available.

(** X19.  Under the value of a category [get_available_components] files
    the names of the snippets of that category (and of the framework, when
    one is given) in store order; a key under which no snippet is filed,
    a category without snippets or a text that is no category value, is
    not in the dictionary: no group is empty, and every key is one of the
    values [list_categories] lists. *)
Theorem X19_available_components_by_category snippets framework k :
  Codegen.get_available_components snippets framework !! k
  = match Codegen.name <$> List.filter (filed framework k) snippets with
    | [] => None
    | filed_names => Some filed_names
    end ∧
  (is_Some (Codegen.get_available_components snippets framework !! k) →
   in_list k Codegen.list_categories = true).
Proof.
  assert (Codegen.get_available_components snippets framework !! k
          = match Codegen.name <$> List.filter (filed framework k) snippets with
            | [] => None
            | filed_names => Some filed_names
            end) as Hlookup.
  { change (Codegen.get_available_components snippets framework)
      with (fold_left (available_step framework) snippets
                      (∅ : gmap string (list string))).
    rewrite (available_loop framework snippets ∅ k), lookup_empty.
    by destruct (Codegen.name <$> _). }
  split; [done|]. rewrite Hlookup. intros Hsome.
  destruct (List.filter (filed framework k) snippets) as [|s l] eqn:Hfiled;
    [by destruct Hsome|].
  assert (In s (List.filter (filed framework k) snippets)) as [_ Hs]%filter_In
    by (rewrite Hfiled; by left).
  unfold filed in Hs. apply andb_prop in Hs as [_ <-%String.eqb_eq].
  by destruct (Codegen.category s).
Qed.

(** ** codegen.py: [generate_component_snippet] and the enumerations *)

Section snippet_function.

Lemma Framework_of_raises v e :
  Codegen.Framework_of v = Raise e → ∃ msg, e = ValueError msg.
Proof.
  unfold Codegen.Framework_of. destruct (List.find _ _); [done|].
  intros [= <-]. by eexists.
Qed.

Lemma Framework_of_listed v :
  Rows.is_ok (Codegen.Framework_of v) = in_list v Codegen.list_frameworks.
Proof.
  unfold Codegen.Framework_of, in_list, Codegen.list_frameworks.
  unfold Codegen.Framework_members.
  cbn [List.find fmap list_fmap existsb Codegen.Framework_value].
  rewrite !(String.eqb_sym v).
  repeat (match goal with |- context [String.eqb ?a v] => destruct (String.eqb a v) end;
          [done|]); done.
Qed.

Lemma find_snippet_of_snippets snippets component_name framework :
  CodegenFile.find_snippet (CodegenFile.of_snippet <$> snippets) component_name framework
  = Ok (CodegenFile.of_snippet <$> List.find (names component_name framework) snippets).
Proof.
  induction snippets as [|s snippets IH]; [done|].
  cbn [fmap list_fmap CodegenFile.find_snippet List.find].
  fold (CodegenFile.of_snippet <$> snippets). cbn -[CodegenFile.find_snippet].
  unfold names at 1. by destruct (_ && _).
Qed.

Lemma apply_design_tokens_of_text code design_system framework :
  CodegenFile._apply_design_tokens (Some code) design_system framework
  = Some (Codegen._apply_design_tokens code design_system framework).
Proof.
  unfold CodegenFile._apply_design_tokens, Codegen._apply_design_tokens.
  cbn [Csv.format default from_option id].
  by repeat case_bool_decide.
Qed.

(** On a store whose fields are all text, [generate_component] does not
    raise. *)
Lemma generate_component_of_snippets snippets component_name framework design_system :
  CodegenFile.generate_component (CodegenFile.of_snippet <$> snippets) component_name
    framework design_system
  = Ok (CodegenFile.of_component <$>
          Codegen.generate_component snippets component_name framework design_system).
Proof.
  unfold CodegenFile.generate_component. rewrite find_snippet_of_snippets.
  rewrite generate_component_find.
  destruct (List.find _ snippets) as [s|]; [|done].
  cbn [mbind result_bind fmap option_fmap option_map CodegenFile.of_snippet
       CodegenFile.code].
  destruct design_system as [ds|]; [destruct (Codegen.truth ds)|];
    by rewrite ?apply_design_tokens_of_text.
Qed.

(** X20.  [generate_component_snippet] builds its generator outside its
    [try]: it prints what loading components.csv prints, and an exception
    that ends the reading of the file is raised to the caller.  When the
    loading succeeds, a framework name that is, in lower case, none of the
    names [list_frameworks] lists gives [None] and no [ValueError].  And
    when there is no file, or the file is read to its end and every line
    has all its cells, the function does not raise: it returns what
    [generate_component] returns on the loaded store. *)
Theorem X20_generate_component_snippet_and_loading
    csv component_name framework design_system :
  let '(component, out) :=
    CodegenFile.generate_component_snippet csv component_name framework design_system in
  out = (CodegenFile._load_snippets csv).2 ∧
  (∀ e, (CodegenFile._load_snippets csv).1 = Raise e → component = Raise e) ∧
  (is_ascii framework = true →
   in_list (lower framework) Codegen.list_frameworks = false →
   Rows.is_ok (CodegenFile._load_snippets csv).1 = true →
   component = Ok None) ∧
  (∀ text, csv = Csv.complete_file <$> text →
     component
     = Ok (CodegenFile.of_component <$>
             match Rows.ok (Codegen.Framework_of (lower framework)) with
             | Some fw_enum =>
                 Codegen.generate_component (Codegen._load_snippets text).1
                   component_name fw_enum design_system
             | None => None
             end)).
Proof.
  unfold CodegenFile.generate_component_snippet, CodegenFile.get_code_generator.
  destruct (CodegenFile._load_snippets csv) as [generator out] eqn:Hload.
  cbn [fst snd]. split; [done|]. split; [by intros e ->|]. split.
  - intros _ Hframework Hloaded. rewrite <- Framework_of_listed in Hframework.
    destruct generator as [snippets|]; [|done]. cbn [mbind result_bind].
    destruct (Codegen.Framework_of (lower framework)) as [fw_enum|e] eqn:Hfw; [done|].
    by apply Framework_of_raises in Hfw as [msg ->].
  - intros text ->.
    assert (generator = Ok (CodegenFile.of_snippet <$> (Codegen._load_snippets text).1))
      as ->.
    { destruct text as [rows|].
      - cbn [fmap option_fmap option_map] in Hload.
        rewrite CodegenFile_load_complete in Hload. by injection Hload as <- _.
      - cbn in Hload. by injection Hload as <- _. }
    cbn [mbind result_bind].
    destruct (Codegen.Framework_of (lower framework)) as [fw_enum|e] eqn:Hfw.
    + apply generate_component_of_snippets.
    + by apply Framework_of_raises in Hfw as [msg ->].
Qed.

End snippet_function.

Section enums.

(** X21.  In each of the six enumerations the lookup of a member by its
    value gives the member back: no two members share a value. *)
Theorem X21_enum_lookup_inverts_value :
  (∀ c, Landing.LandingCategory_of (Landing.value c) = Ok c) ∧
  (∀ f, Codegen.Framework_of (Codegen.Framework_value f) = Ok f) ∧
  (∀ c, Codegen.ComponentCategory_of (Codegen.value c) = Ok c) ∧
  (∀ s, TechStack.TechStack_of (TechStack.TechStack_value s) = Ok s) ∧
  (∀ c, TechStack.PracticeCategory_of (TechStack.value c) = Ok c) ∧
  (∀ d, UXGuide.UXDomain_of (UXGuide.value d) = Ok d).
Proof. repeat split; intros []; reflexivity. Qed.

End enums.


(** ** ux_guide.py: [get_checklist] and [get_anti_patterns] *)

Section grouping.
Context {A B : Type} (key : A → string) (entry : A → B) (skip : A → bool).

Lemma value_of_app k (d d' : list (string * list B)) :
  value_of k (d ++ d')
  = match value_of k d with Some v => Some v | None => value_of k d' end.
Proof.
  unfold value_of. induction d as [|[k' v] d IH]; [done|].
  cbn [app List.find fst]. by destruct (String.eqb k' k).
Qed.

Lemma value_of_None k (d : list (string * list B)) :
  existsb (λ kv, String.eqb kv.1 k) d = false → value_of k d = None.
Proof.
  unfold value_of. induction d as [|[k' v] d IH]; [done|].
  cbn [existsb List.find fst]. destruct (String.eqb k' k); [done|]. exact IH.
Qed.

Lemma value_of_update k k' b (d : list (string * list B)) :
  value_of k ((λ kv, if String.eqb kv.1 k' then (kv.1, kv.2 ++ [b]) else kv) <$> d)
  = if String.eqb k' k then (λ v, v ++ [b]) <$> value_of k d else value_of k d.
Proof.
  unfold value_of. induction d as [|[k0 v] d IH].
  - by destruct (String.eqb k' k).
  - cbn [fmap list_fmap fst snd].
    destruct (String.eqb_spec k0 k') as [->|Hk0]; cbn [List.find fst snd].
    + destruct (String.eqb_spec k' k) as [->|Hk]; [done|]. exact IH.
    + destruct (String.eqb_spec k0 k) as [->|Hk].
      * by destruct (String.eqb_spec k' k) as [->|].
      * exact IH.
Qed.

Lemma group_step_value groups x k :
  value_of k (group_step key entry skip groups x)
  = if negb (skip x) && String.eqb (key x) k
    then Some (default [] (value_of k groups) ++ [entry x])
    else value_of k groups.
Proof.
  unfold group_step. destruct (skip x); [done|]. cbn [negb andb].
  destruct (existsb _ groups) eqn:Hex.
  - rewrite value_of_update. destruct (String.eqb_spec (key x) k) as [<-|]; [|done].
    apply existsb_exists in Hex as ([k' v] & Hin & Hk). cbn in Hk.
    apply String.eqb_eq in Hk as ->. unfold value_of.
    destruct (List.find _ groups) as [kv|] eqn:Hfind; [done|].
    apply (find_none _ _ Hfind) in Hin. cbn in Hin. by rewrite String.eqb_refl in Hin.
  - rewrite value_of_app.
    destruct (String.eqb_spec (key x) k) as [<-|Hk].
    + rewrite (value_of_None _ _ Hex). unfold value_of. cbn. by rewrite String.eqb_refl.
    + assert (value_of k [(key x, [entry x])] = None) as ->.
      { unfold value_of. cbn. by destruct (String.eqb_spec (key x) k). }
      by destruct (value_of k groups).
Qed.

Lemma group_loop_value l groups k :
  value_of k (fold_left (group_step key entry skip) l groups)
  = match entry <$> List.filter (λ x, negb (skip x) && String.eqb (key x) k) l with
    | [] => value_of k groups
    | entries => Some (default [] (value_of k groups) ++ entries)
    end.
Proof.
  revert groups. induction l as [|x l IH]; intros groups; [done|].
  cbn [fold_left List.filter]. rewrite IH, group_step_value.
  destruct (negb (skip x) && String.eqb (key x) k); [|done]. cbn [fmap list_fmap].
  destruct (entry <$> List.filter _ l) as [|e es]; [done|].
  cbn [from_option id]. by rewrite <- app_assoc.
Qed.

Lemma group_step_keys groups x :
  (group_step key entry skip groups x).*1
  = if skip x then groups.*1
    else if bool_decide (key x ∈ groups.*1) then groups.*1 else groups.*1 ++ [key x].
Proof.
  unfold group_step. destruct (skip x); [done|].
  assert (existsb (λ kv, String.eqb kv.1 (key x)) groups = bool_decide (key x ∈ groups.*1))
    as ->.
  { induction groups as [|[k v] groups IH]; [done|]. cbn [existsb fmap list_fmap fst].
    rewrite IH. destruct (String.eqb_spec k (key x)) as [->|Hk].
    - symmetry. apply bool_decide_eq_true. by left.
    - cbn [orb]. apply bool_decide_ext. rewrite elem_of_cons.
      split; [by right|]. by intros [?|?]. }
  case_bool_decide; [|by rewrite fmap_app].
  rewrite <- list_fmap_compose. apply list_fmap_ext. intros _ [k v] _. cbn.
  by destruct (String.eqb k (key x)).
Qed.

(** The keys depend on [key] and [skip] only. *)
Lemma group_loop_keys l groups :
  (fold_left (group_step key entry skip) l groups).*1
  = fold_left (λ keys x,
                 if skip x then keys
                 else if bool_decide (key x ∈ keys) then keys else keys ++ [key x])
              l (groups.*1).
Proof.
  revert groups. induction l as [|x l IH]; intros groups; [done|].
  cbn [fold_left]. by rewrite IH, group_step_keys.
Qed.

Lemma group_loop_NoDup l groups :
  NoDup (groups.*1) → NoDup ((fold_left (group_step key entry skip) l groups).*1).
Proof.
  rewrite group_loop_keys. generalize (groups.*1). clear groups.
  induction l as [|x l IH]; intros keys Hkeys; [done|].
  cbn [fold_left]. apply IH. destruct (skip x); [done|].
  case_bool_decide as Hin; [done|]. apply NoDup_app. split; [done|].
  split; [|apply NoDup_singleton]. by intros k Hk ->%list_elem_of_singleton.
Qed.

End grouping.

Section checklist.

Lemma UXGuide_value_inj d d' : UXGuide.value d = UXGuide.value d' → d = d'.
Proof. destruct d, d'; intros H; (reflexivity || discriminate H). Qed.

Lemma UXGuide_lower_value_inj d d' :
  lower (UXGuide.value d) = lower (UXGuide.value d') → d = d'.
Proof. destruct d, d'; intros H; (reflexivity || discriminate H). Qed.

Lemma get_checklist_groups guidelines domains :
  UXGuide.get_checklist guidelines domains
  = fold_left
      (group_step (λ g, UXGuide.value (UXGuide.domain g)) checklist_entry
                  (λ g, negb (asked domains g)))
      guidelines [].
Proof.
  unfold UXGuide.get_checklist. f_equal.
  destruct domains as [[|d ds]|]; reflexivity.
Qed.

Lemma get_anti_patterns_groups guidelines :
  UXGuide.get_anti_patterns guidelines
  = fold_left
      (group_step (λ g, UXGuide.value (UXGuide.domain g)) anti_pattern_entry
                  (λ _, false))
      guidelines [].
Proof. reflexivity. Qed.

(** X27.  Under the value of a domain [get_checklist] files one line
    "[ ] <best practice>" for each guideline of that domain, in store
    order, when the domain is one of those asked for ([None] and the empty
    list ask for all); a key without such a guideline is not in the
    checklist, and no key is there twice.  With no domains given the
    group of a domain holds the lines of what [get_guidelines_by_domain]
    returns for it. *)
Theorem X27_checklist_groups guidelines domains k :
  value_of k (UXGuide.get_checklist guidelines domains)
  = match checklist_entry <$>
          List.filter (λ g, asked domains g &&
                            String.eqb (UXGuide.value (UXGuide.domain g)) k) guidelines with
    | [] => None
    | entries => Some entries
    end ∧
  NoDup ((UXGuide.get_checklist guidelines domains).*1) ∧
  Forall (λ d,
            value_of d (UXGuide.get_checklist guidelines None)
            = match UXGuide.get_guidelines_by_domain guidelines d with
              | [] => None
              | found => Some (checklist_entry <$> found)
              end)
         (UXGuide.value ∘ snd <$> UXGuide.UXDomain_members).
Proof.
  rewrite !get_checklist_groups.
  pose proof (group_loop_value (λ g, UXGuide.value (UXGuide.domain g)) checklist_entry
                (λ g, negb (asked domains g)) guidelines [] k) as Hvalue.
  cbv beta in Hvalue. rewrite Hvalue. split; [|split].
  - rewrite (filter_equal _ (λ g, asked domains g &&
                                  String.eqb (UXGuide.value (UXGuide.domain g)) k));
      [|intros g; by rewrite negb_involutive].
    clear Hvalue. by destruct (checklist_entry <$> _).
  - apply (group_loop_NoDup (λ g, UXGuide.value (UXGuide.domain g)) checklist_entry
             (λ g, negb (asked domains g)) guidelines []). constructor.
  - apply Forall_forall. intros d' (m & -> & _)%list_elem_of_fmap. cbn [compose].
    pose proof (group_loop_value (λ g, UXGuide.value (UXGuide.domain g)) checklist_entry
                  (λ g, negb (asked None g)) guidelines [] (UXGuide.value m.2)) as Hd.
    cbv beta in Hd. rewrite Hd.
    unfold UXGuide.get_guidelines_by_domain.
    rewrite (filter_equal
               (λ g, negb (negb (asked None g)) &&
                     String.eqb (UXGuide.value (UXGuide.domain g)) (UXGuide.value m.2))
               (λ g, String.eqb (lower (UXGuide.value (UXGuide.domain g)))
                                (lower (UXGuide.value m.2)))).
    + clear Hvalue Hd. by destruct (List.filter _ guidelines).
    + intros g. cbn [asked negb andb].
      destruct (String.eqb_spec (UXGuide.value (UXGuide.domain g)) (UXGuide.value m.2))
        as [->|Hne]; [by rewrite String.eqb_refl|].
      destruct (String.eqb_spec (lower (UXGuide.value (UXGuide.domain g)))
                                (lower (UXGuide.value m.2)))
        as [Heq%UXGuide_lower_value_inj|]; [|done]. by rewrite Heq in Hne.
Qed.

(** X28.  [get_anti_patterns] has the keys of the full checklist, in the
    same order, with as many entries under each key; the best practices
    of the entries under a key are those of the guidelines of that
    domain, in store order. *)
Theorem X28_anti_patterns_follow_the_checklist guidelines k :
  (UXGuide.get_anti_patterns guidelines).*1 = (UXGuide.get_checklist guidelines None).*1 ∧
  length <$> value_of k (UXGuide.get_anti_patterns guidelines)
    = length <$> value_of k (UXGuide.get_checklist guidelines None) ∧
  UXGuide.entry_best_practice <$> default [] (value_of k (UXGuide.get_anti_patterns guidelines))
    = UXGuide.best_practice <$>
        List.filter (λ g, String.eqb (UXGuide.value (UXGuide.domain g)) k) guidelines.
Proof.
  rewrite get_checklist_groups, get_anti_patterns_groups.
  rewrite !group_loop_keys, !group_loop_value. cbn [asked negb andb].
  split; [done|].
  destruct (List.filter _ guidelines) as [|g l]; [done|]. cbn.
  split; [by rewrite !length_fmap|]. f_equal. by rewrite <- list_fmap_compose.
Qed.

End checklist.

(** ** ux_guide.py: [list_domains] and [list_topics] *)

Section domains.

Lemma UXDomain_values_all d :
  UXGuide.value d ∈ (UXGuide.value ∘ snd <$> UXGuide.UXDomain_members).
Proof. apply list_elem_of_In. destruct d; cbn; tauto. Qed.

Lemma guidelines_by_domain_value guidelines d g :
  g ∈ UXGuide.get_guidelines_by_domain guidelines (UXGuide.value d)
  ↔ g ∈ guidelines ∧ UXGuide.domain g = d.
Proof.
  unfold UXGuide.get_guidelines_by_domain.
  rewrite list_elem_of_In, filter_In, <- list_elem_of_In.
  split; intros [Hin Hd]; (split; [done|]).
  - apply String.eqb_eq in Hd. by apply UXGuide_lower_value_inj.
  - rewrite Hd. apply String.eqb_refl.
Qed.

(** X29.  [list_domains] lists exactly the domain values for which
    [get_guidelines_by_domain] finds a guideline; for the empty string it
    finds none. *)
Theorem X29_listed_domains_are_the_domains_with_guidelines guidelines :
  UXGuide.list_domains guidelines
  = list_to_set
      (List.filter
         (λ d, bool_decide (UXGuide.get_guidelines_by_domain guidelines d ≠ []))
         (UXGuide.value ∘ snd <$> UXGuide.UXDomain_members)) ∧
  UXGuide.get_guidelines_by_domain guidelines "" = [].
Proof.
  split.
  - apply set_eq. intros v. unfold UXGuide.list_domains.
    rewrite !elem_of_list_to_set. split.
    + intros (g & -> & Hin)%list_elem_of_fmap. apply list_elem_of_In, filter_In. split.
      * apply list_elem_of_In, UXDomain_values_all.
      * apply bool_decide_eq_true. intros Hnone.
        assert (g ∈ UXGuide.get_guidelines_by_domain guidelines
                      (UXGuide.value (UXGuide.domain g))) as Hg
          by by apply guidelines_by_domain_value.
        rewrite Hnone in Hg. by apply elem_of_nil in Hg.
    + intros [Hv Hsome]%list_elem_of_In%filter_In. apply bool_decide_eq_true in Hsome.
      apply list_elem_of_In, list_elem_of_fmap in Hv as (m & -> & _). cbn [compose] in *.
      destruct (UXGuide.get_guidelines_by_domain guidelines (UXGuide.value m.2))
        as [|g l] eqn:Hfound; [done|].
      assert (g ∈ UXGuide.get_guidelines_by_domain guidelines (UXGuide.value m.2))
        as [Hin Hd]%guidelines_by_domain_value by (rewrite Hfound; by left).
      apply list_elem_of_fmap. exists g. by rewrite Hd.
  - unfold UXGuide.get_guidelines_by_domain.
    induction guidelines as [|g guidelines IH]; [done|]. cbn [List.filter].
    rewrite IH. by destruct (UXGuide.domain g).
Qed.

(** X30.  The topics [list_topics] lists without a domain are the topics
    it lists for the domains [list_domains] lists, taken together; the
    empty string as domain stands for no domain. *)
Theorem X30_every_topic_belongs_to_a_listed_domain guidelines :
  UXGuide.list_topics guidelines None
  = ⋃ ((λ d, UXGuide.list_topics guidelines (Some d))
         <$> elements (UXGuide.list_domains guidelines)) ∧
  UXGuide.list_topics guidelines (Some "") = UXGuide.list_topics guidelines None.
Proof.
  split; [|done]. apply set_eq. intros t.
  rewrite elem_of_union_list. unfold UXGuide.list_topics at 1. cbn [truthy].
  rewrite elem_of_list_to_set, list_elem_of_fmap. split.
  - intros (g & -> & Hin).
    exists (UXGuide.list_topics guidelines (Some (UXGuide.value (UXGuide.domain g)))).
    split.
    + apply list_elem_of_fmap. exists (UXGuide.value (UXGuide.domain g)). split; [done|].
      apply elem_of_elements. unfold UXGuide.list_domains.
      apply elem_of_list_to_set, list_elem_of_fmap. by exists g.
    + unfold UXGuide.list_topics.
      assert (truthy (Some (UXGuide.value (UXGuide.domain g))) = true) as ->
        by by destruct (UXGuide.domain g).
      apply elem_of_list_to_set, list_elem_of_fmap. exists g. split; [done|].
      by apply guidelines_by_domain_value.
  - intros (topics & (d & -> & Hd)%list_elem_of_fmap & Ht).
    apply elem_of_elements in Hd. unfold UXGuide.list_domains in Hd.
    apply elem_of_list_to_set, list_elem_of_fmap in Hd as (g' & -> & _).
    unfold UXGuide.list_topics in Ht.
    assert (truthy (Some (UXGuide.value (UXGuide.domain g'))) = true) as Htruthy
      by by destruct (UXGuide.domain g').
    rewrite Htruthy in Ht.
    apply elem_of_list_to_set, list_elem_of_fmap in Ht as (g & -> & Hg).
    apply guidelines_by_domain_value in Hg as [Hin _]. by exists g.
Qed.

End domains.
